(** * Karate school management application: service and route handlers

  A shallow embedding of the server-side TypeScript of the repository
  (program service, payment-eligibility service, family-edit and
  student-edit route actions) over a model of the hosted Postgres
  database they talk to, followed by the properties of that code. *)

From Stdlib Require Import ZArith String List.
From stdpp Require Import gmap strings list fin_maps sorting.

Local Open Scope string_scope.
Local Open Scope list_scope.
Set Warnings "-register-all".

(** ** JavaScript values *)

Module Js.

(** JSON-like values as they travel between the handlers and the
    database client.  [VUndefined] is the value of a property that is
    absent or explicitly set to [undefined]. *)
Inductive Value :=
| VUndefined
| VNull
| VBool (b : bool)
| VNum (n : Z)
| VStr (s : string)
| VArr (items : list Value).

(** [Boolean(v)] *)
Definition truthy (v : Value) : bool :=
  match v with
  | VUndefined | VNull => false
  | VBool b => b
  | VNum n => negb (n =? 0)%Z
  | VStr s => negb (bool_decide (s = ""))
  | VArr _ => true
  end.

(** [v !== undefined] *)
Definition defined (v : Value) : bool :=
  match v with VUndefined => false | _ => true end.

(** A plain object: property name to value. *)
Abbreviation Obj := (gmap string Value).

(** [o.k]: reading a missing property gives [undefined]. *)
Definition prop (o : Obj) (k : string) : Value := default VUndefined (o !! k).

(** [a ?? b] *)
Definition nullish (a b : Value) : Value :=
  match a with VUndefined | VNull => b | _ => a end.

(** [!s] for a [string | null] such as a form field. *)
Definition blank (s : option string) : bool :=
  match s with None => true | Some t => bool_decide (t = "") end.

(** [s || null] for a [string | null]. *)
Definition or_null (s : option string) : option string :=
  if blank s then None else s.

(** What a [throw] carries. *)
Inductive Thrown :=
| ThrownError (message : string)          (* new Error(message) *)
| ThrownObject (message : string) (code : string)  (* a plain error object *)
| ThrownOther (v : Value).

End Js.
Export Js.

(** ** The hosted database *)

Module Pg.

(** The error object of a database response. *)
Record PostgrestError := { message : string; code : string }.

(** The [{data, error}] pair every awaited query resolves to. *)
Record Response (D : Type) := { data : option D; error : option PostgrestError }.
Arguments data {D} _.
Arguments error {D} _.

Definition ok {D} (d : D) : Response D := {| data := Some d; error := None |}.
Definition ok_empty {D} : Response D := {| data := None; error := None |}.
Definition failed {D} (e : PostgrestError) : Response D :=
  {| data := None; error := Some e |}.

(** [.single()]: exactly one row, otherwise error PGRST116. *)
Definition not_single : PostgrestError :=
  {| message := "JSON object requested, multiple (or no) rows returned";
     code := "PGRST116" |}.

Definition single {D} (rows : list D) : Response D :=
  match rows with
  | [r] => ok r
  | _ => failed not_single
  end.

(** Rows.  Tables the handlers read and write column by column are
    records of those columns ([option string] for a [string | null]);
    [programs], whose update payload is an untyped object, holds plain
    objects. *)
Record FamilyRow := {
  f_id : string;
  f_name : option string;
  f_email : option string;
  f_primary_phone : option string;
  f_address : option string;
  f_city : option string;
  f_province : option string;
  f_postal_code : option string;
  f_emergency_contact : option string;
  f_health_info : option string;
  f_notes : option string;
  f_referral_source : option string;
  f_referral_name : option string;
  f_updated_at : string }.

Record StudentRow := {
  s_id : string;
  s_family_id : string;
  s_first_name : option string;
  s_last_name : option string;
  s_gender : option string;
  s_birth_date : option string;
  s_cell_phone : option string;
  s_email : option string;
  s_t_shirt_size : option string;
  s_school : option string;
  s_grade_level : option string;
  s_special_needs : option string;
  s_allergies : option string;
  s_medications : option string;
  s_immunizations_up_to_date : string;
  s_immunization_notes : option string }.

Record PaymentRow := { p_id : string; p_family_id : string; p_status : string }.

Record PaymentStudentRow := { ps_student_id : string; ps_payment_id : string }.

Record SessionRow := {
  o_id : string;
  o_family_id : string;
  o_purchase_date : string;
  o_quantity_purchased : Z;
  o_quantity_remaining : Z }.

Record DiscountRow := {
  d_id : string;
  d_is_active : bool;
  d_family_id : option string;
  d_valid_until : option string }.

Record Database := {
  families : list FamilyRow;
  students : list StudentRow;
  payments : list PaymentRow;
  payment_students : list PaymentStudentRow;
  one_on_one_sessions : list SessionRow;
  discount_codes : list DiscountRow;
  programs : list Obj;
  (** the stored function [check_program_eligibility(student, program)] *)
  check_program_eligibility : string -> string -> Value;
  (** the id the database gives a program inserted as the n-th row *)
  next_program_id : nat -> string;
  (** [text ILIKE pattern], and the collation order on text *)
  ilike : Value -> string -> bool;
  text_le : Value -> Value -> bool }.


(** *** Requests

    One constructor per query chain the handlers build; the arguments
    are the values the chain is given. *)

(** [.from('families').update({...})] payload of the family-edit action *)
Record FamilyUpdate := {
  fu_name : option string;
  fu_email : option string;
  fu_primary_phone : option string;
  fu_address : option string;
  fu_city : option string;
  fu_province : option string;
  fu_postal_code : option string;
  fu_emergency_contact : option string;
  fu_health_info : option string;
  fu_notes : option string;
  fu_referral_source : option string;
  fu_referral_name : option string;
  fu_updated_at : string }.

(** [updateData] of the student-edit action *)
Record StudentUpdate := {
  su_first_name : option string;
  su_last_name : option string;
  su_gender : option string;
  su_birth_date : option string;
  su_cell_phone : option string;
  su_email : option string;
  su_t_shirt_size : option string;
  su_school : option string;
  su_grade_level : option string;
  su_special_needs : option string;
  su_allergies : option string;
  su_medications : option string;
  su_immunizations_up_to_date : string;
  su_immunization_notes : option string }.

Inductive Request :=
| FamiliesSelectName (id : string)
    (* from('families').select('name').eq('id', id).single() *)
| FamiliesUpdate (payload : FamilyUpdate) (id : string)
    (* from('families').update(payload).eq('id', id) *)
| StudentsSelect (family_id : string)
    (* from('students').select('id::text, first_name::text, last_name::text').eq('family_id', _) *)
| StudentsUpdate (payload : StudentUpdate) (id : string)
    (* from('students').update(payload).eq('id', id) *)
| PaymentsSelect (family_id : string) (status : string)
    (* from('payments').select('id, status').eq('family_id', _).eq('status', _) *)
| PaymentStudentsSelect (payment_ids : list string)
    (* from('payment_students').select('student_id, payment_id').in('payment_id', _) *)
| SessionsSelect (family_id : string)
    (* from('one_on_one_sessions').select(...).eq('family_id', _).order('purchase_date', desc) *)
| DiscountCodesSelect (family_id : string) (now : string)
    (* from('discount_codes').select('id').eq('is_active', true).or(..).or(..).limit(1) *)
| ProgramsInsert (payload : Obj)
    (* from('programs').insert(payload).select().single() *)
| ProgramsUpdate (payload : Obj) (id : string)
    (* from('programs').update(payload).eq('id', id).select().single() *)
| ProgramsSelect (is_active : option bool) (search : option string)
    (* from('programs').select('*')[.eq('is_active', _)][.or(ilike ..)].order('name') *)
| ProgramsSelectById (id : string)
    (* from('programs').select('*').eq('id', id).single() *)
| RpcCheckProgramEligibility (student_id program_id : string)
    (* rpc('check_program_eligibility', {student_id_param, program_id_param}) *)
| CheckStudentEligibility (student_id : string).
    (* checkStudentEligibility(student_id, client) of utils/supabase.server *)

(** What became of a request. *)
Inductive Status :=
| Ok
| Failed (e : PostgrestError)   (* resolved with a non-null [error] *)
| Raised (x : Thrown).          (* the awaited call threw *)

(** What the environment does to a request: let it through to the
    tables, answer it with an error, or make the call throw. *)
Inductive Fault :=
| NoFault
| FailWith (e : PostgrestError)
| ThrowWith (x : Thrown).

End Pg.
Export Pg.

(** ** Handlers as computations over the world *)

Module Payment.

(** Modelled from the spec: the [EligibilityStatus] type declared in
    [~/types/payment] is missing; the glossary describes eligibility as
    a derived status such as Trial, Expired or Active.  Only its
    [reason] is read by the code embedded here. *)
Record EligibilityStatus := { eligible : bool; reason : string }.

End Payment.
Export Payment.

Inductive Outcome (A : Type) :=
| Returned (a : A)
| Threw (x : Thrown).
Arguments Returned {A} _.
Arguments Threw {A} _.

(** The world a handler runs in: the database, the requests issued so
    far with their fate, the faults the environment will inject (by
    position in the log), the answers of [checkStudentEligibility]
    (defined in [~/utils/supabase.server]; taken as given), the
    configured monthly price [siteConfig.pricing.monthly], the process
    environment variables, and the wall clock read by
    [new Date().toISOString()].  Console output is not modelled. *)
Record World := {
  db : Database;
  log : list (Request * Status);
  faults : nat -> Request -> Fault;
  student_eligibility : nat -> string -> Outcome EligibilityStatus;
  site_pricing_monthly : Z;
  env : gmap string string;
  clock : nat -> string;
  ticks : nat }.

Definition M (A : Type) : Type := World -> Outcome A * World.

Definition ret {A} (a : A) : M A := fun w => (Returned a, w).

Definition bind {A B} (m : M A) (k : A -> M B) : M B :=
  fun w => match m w with
           | (Returned a, w') => k a w'
           | (Threw x, w') => (Threw x, w')
           end.

Definition throw {A} (x : Thrown) : M A := fun w => (Threw x, w).

(** [try { body } catch (e) { handler(e) }] *)
Definition try_catch {A} (body : M A) (handler : Thrown -> M A) : M A :=
  fun w => match body w with
           | (Returned a, w') => (Returned a, w')
           | (Threw x, w') => handler x w'
           end.

Notation "'let!' x ':=' c1 'in' c2" := (bind c1 (fun x => c2))
  (at level 10, x pattern, c1 at level 100, c2 at level 200).

Definition record (q : Request) (st : Status) (w : World) : World :=
  {| db := db w; log := log w ++ [(q, st)]; faults := faults w;
     student_eligibility := student_eligibility w;
     site_pricing_monthly := site_pricing_monthly w; env := env w;
     clock := clock w; ticks := ticks w |}.

Definition with_db (d : Database) (w : World) : World :=
  {| db := d; log := log w; faults := faults w;
     student_eligibility := student_eligibility w;
     site_pricing_monthly := site_pricing_monthly w; env := env w;
     clock := clock w; ticks := ticks w |}.

Definition status_of {D} (r : Response D) : Status :=
  match error r with Some e => Failed e | None => Ok end.

(** Awaiting a query: the environment may make it throw or fail;
    otherwise [sem] runs it against the tables. *)
Definition query {D} (q : Request) (sem : Database -> Response D * Database)
  : M (Response D) :=
  fun w =>
    match faults w (length (log w)) q with
    | ThrowWith x => (Threw x, record q (Raised x) w)
    | FailWith e => (Returned (failed e), record q (Failed e) w)
    | NoFault =>
        let (r, d) := sem (db w) in
        (Returned r, record q (status_of r) (with_db d w))
    end.

(** [new Date().toISOString()] *)
Definition now : M string :=
  fun w => (Returned (clock w (ticks w)),
            {| db := db w; log := log w; faults := faults w;
               student_eligibility := student_eligibility w;
               site_pricing_monthly := site_pricing_monthly w; env := env w;
               clock := clock w; ticks := S (ticks w) |}).

(** [process.env.NAME] *)
Definition process_env (name : string) : M (option string) :=
  fun w => (Returned (env w !! name), w).

(** [siteConfig.pricing.monthly] *)
Definition siteConfig_pricing_monthly : M Z :=
  fun w => (Returned (site_pricing_monthly w), w).

(** [checkStudentEligibility(studentId, client)]: answered by the
    environment; it may throw. *)
Definition checkStudentEligibility (studentId : string) : M EligibilityStatus :=
  fun w =>
    match student_eligibility w (length (log w)) studentId with
    | Returned e => (Returned e, record (CheckStudentEligibility studentId) Ok w)
    | Threw x => (Threw x, record (CheckStudentEligibility studentId) (Raised x) w)
    end.

(** [for (const x of xs) { ys.push(await f(x)) }] *)
Fixpoint for_each {A B} (f : A -> M B) (xs : list A) : M (list B) :=
  match xs with
  | [] => ret []
  | x :: rest =>
      let! y := f x in
      let! ys := for_each f rest in
      ret (y :: ys)
  end.

(** *** Query chains of the payment-eligibility service *)

(** Timestamps and dates are ISO-8601 strings, ordered as strings. *)
Definition later_first (x y : SessionRow) : Prop :=
  String.leb (o_purchase_date y) (o_purchase_date x) = true.

#[global] Instance later_first_dec : RelDecision later_first :=
  fun x y => decide (String.leb (o_purchase_date y) (o_purchase_date x) = true).

Definition families_select_name (id : string) : M (Response FamilyRow) :=
  query (FamiliesSelectName id)
    (fun d => (single (filter (fun r => f_id r = id) (families d)), d)).

Definition students_select (family_id : string) : M (Response (list StudentRow)) :=
  query (StudentsSelect family_id)
    (fun d => (ok (filter (fun r => s_family_id r = family_id) (students d)), d)).

Definition payments_select (family_id status : string) : M (Response (list PaymentRow)) :=
  query (PaymentsSelect family_id status)
    (fun d => (ok (filter (fun r => p_family_id r = family_id /\ p_status r = status)
                     (payments d)), d)).

Definition payment_students_select (payment_ids : list string)
  : M (Response (list PaymentStudentRow)) :=
  query (PaymentStudentsSelect payment_ids)
    (fun d => (ok (filter (fun r => ps_payment_id r ∈ payment_ids)
                     (payment_students d)), d)).

Definition sessions_select (family_id : string) : M (Response (list SessionRow)) :=
  query (SessionsSelect family_id)
    (fun d => (ok (merge_sort later_first
                     (filter (fun r => o_family_id r = family_id)
                        (one_on_one_sessions d))), d)).

Definition discount_available (family_id now : string) (r : DiscountRow) : bool :=
  d_is_active r
  && match d_family_id r with
     | None => true
     | Some f => bool_decide (f = family_id)
     end
  && match d_valid_until r with
     | None => true
     | Some t => String.leb now t
     end.

Definition discount_codes_select (family_id now : string)
  : M (Response (list DiscountRow)) :=
  query (DiscountCodesSelect family_id now)
    (fun d => (ok (take 1 (filter (fun r => discount_available family_id now r = true)
                             (discount_codes d))), d)).

(** *** Query chains of the program service *)

Definition set_programs (ps : list Obj) (d : Database) : Database :=
  {| families := families d; students := students d; payments := payments d;
     payment_students := payment_students d;
     one_on_one_sessions := one_on_one_sessions d;
     discount_codes := discount_codes d; programs := ps;
     check_program_eligibility := check_program_eligibility d;
     next_program_id := next_program_id d; ilike := ilike d;
     text_le := text_le d |}.

Definition set_families (fs : list FamilyRow) (d : Database) : Database :=
  {| families := fs; students := students d; payments := payments d;
     payment_students := payment_students d;
     one_on_one_sessions := one_on_one_sessions d;
     discount_codes := discount_codes d; programs := programs d;
     check_program_eligibility := check_program_eligibility d;
     next_program_id := next_program_id d; ilike := ilike d;
     text_le := text_le d |}.

Definition set_students (ss : list StudentRow) (d : Database) : Database :=
  {| families := families d; students := ss; payments := payments d;
     payment_students := payment_students d;
     one_on_one_sessions := one_on_one_sessions d;
     discount_codes := discount_codes d; programs := programs d;
     check_program_eligibility := check_program_eligibility d;
     next_program_id := next_program_id d; ilike := ilike d;
     text_le := text_le d |}.

(** The request body is the payload as JSON: properties whose value is
    [undefined] are not sent. *)
Definition json_body (o : Obj) : Obj := filter (fun kv => defined kv.2 = true) o.

(** [.eq('id', id)] on a program row *)
Definition has_id (id : string) (r : Obj) : bool :=
  match prop r "id" with
  | VStr s => bool_decide (s = id)
  | _ => false
  end.

(** [.eq('is_active', b)] on a program row *)
Definition has_is_active (b : bool) (r : Obj) : bool :=
  match prop r "is_active" with
  | VBool c => Bool.eqb b c
  | _ => false
  end.

(** A written row: the columns sent replace the stored ones. *)
Definition write_columns (payload row : Obj) : Obj := json_body payload ∪ row.

(** [.insert(payload).select().single()].  The row stored and returned
    holds the id the database gives it and the columns sent; what the
    database fills in for columns that are not sent is left out. *)
Definition programs_insert (payload : Obj) : M (Response Obj) :=
  query (ProgramsInsert payload)
    (fun d =>
       let row := <["id" := VStr (next_program_id d (length (programs d)))]>
                    (json_body payload) in
       (ok row, set_programs (programs d ++ [row]) d)).

(** With [.select().single()] the update is applied only when exactly
    one row matches; otherwise the request fails and nothing is
    written. *)
Definition programs_update (payload : Obj) (id : string) : M (Response Obj) :=
  query (ProgramsUpdate payload id)
    (fun d =>
       match filter (fun r => has_id id r = true) (programs d) with
       | [r] =>
           (ok (write_columns payload r),
            set_programs
              (map (fun x => if has_id id x then write_columns payload x else x)
                 (programs d)) d)
       | _ => (failed not_single, d)
       end).

Definition by_name (d : Database) (x y : Obj) : Prop :=
  text_le d (prop x "name") (prop y "name") = true.

#[global] Instance by_name_dec d : RelDecision (by_name d) :=
  fun x y => decide (text_le d (prop x "name") (prop y "name") = true).

(** The search text reaches [ilike] as one pattern.  The code splices
    it into the [or=(...)] filter as it is, so this holds for a text
    without the characters that filter reads as syntax. *)
Definition programs_select (is_active : option bool) (search : option string)
  : M (Response (list Obj)) :=
  query (ProgramsSelect is_active search)
    (fun d =>
       let rows := programs d in
       let rows :=
         match is_active with
         | Some b => filter (fun r => has_is_active b r = true) rows
         | None => rows
         end in
       let rows :=
         match search with
         | Some s =>
             filter (fun r => ilike d (prop r "name") ("%" +:+ s +:+ "%")
                              || ilike d (prop r "description") ("%" +:+ s +:+ "%")
                              = true) rows
         | None => rows
         end in
       (ok (merge_sort (by_name d) rows), d)).

Definition programs_select_by_id (id : string) : M (Response Obj) :=
  query (ProgramsSelectById id)
    (fun d => (single (filter (fun r => has_id id r = true) (programs d)), d)).

Definition rpc_check_program_eligibility (student_id program_id : string)
  : M (Response Value) :=
  query (RpcCheckProgramEligibility student_id program_id)
    (fun d => (ok (check_program_eligibility d student_id program_id), d)).

(** *** Query chains of the edit routes *)

Definition write_family (u : FamilyUpdate) (r : FamilyRow) : FamilyRow :=
  {| f_id := f_id r;
     f_name := fu_name u;
     f_email := fu_email u;
     f_primary_phone := fu_primary_phone u;
     f_address := fu_address u;
     f_city := fu_city u;
     f_province := fu_province u;
     f_postal_code := fu_postal_code u;
     f_emergency_contact := fu_emergency_contact u;
     f_health_info := fu_health_info u;
     f_notes := fu_notes u;
     f_referral_source := fu_referral_source u;
     f_referral_name := fu_referral_name u;
     f_updated_at := fu_updated_at u |}.

Definition write_student (u : StudentUpdate) (r : StudentRow) : StudentRow :=
  {| s_id := s_id r;
     s_family_id := s_family_id r;
     s_first_name := su_first_name u;
     s_last_name := su_last_name u;
     s_gender := su_gender u;
     s_birth_date := su_birth_date u;
     s_cell_phone := su_cell_phone u;
     s_email := su_email u;
     s_t_shirt_size := su_t_shirt_size u;
     s_school := su_school u;
     s_grade_level := su_grade_level u;
     s_special_needs := su_special_needs u;
     s_allergies := su_allergies u;
     s_medications := su_medications u;
     s_immunizations_up_to_date := su_immunizations_up_to_date u;
     s_immunization_notes := su_immunization_notes u |}.

(** An update without [.select()] resolves with no data; rows that do
    not match the filter are left alone, and matching no row at all is
    not an error. *)
Definition families_update (payload : FamilyUpdate) (id : string) : M (Response unit) :=
  query (FamiliesUpdate payload id)
    (fun d =>
       (ok_empty,
        set_families
          (map (fun r => if bool_decide (f_id r = id) then write_family payload r else r)
             (families d)) d)).

Definition students_update (payload : StudentUpdate) (id : string) : M (Response unit) :=
  query (StudentsUpdate payload id)
    (fun d =>
       (ok_empty,
        set_students
          (map (fun r => if bool_decide (s_id r = id) then write_student payload r else r)
             (students d)) d)).

(** ** Payment-eligibility service *)

Module PaymentEligibility.

Record Purchase := {
  id : string;
  purchaseDate : string;
  quantityPurchased : Z;
  quantityRemaining : Z }.

Record IndividualSessionInfo := {
  totalPurchased : Z;
  totalRemaining : Z;
  purchases : list Purchase }.

Record StudentPaymentDetail := {
  studentId : string;
  firstName : option string;
  lastName : option string;
  eligibility : EligibilityStatus;
  needsPayment : bool;
  nextPaymentAmount : Z;
  nextPaymentTierLabel : string;
  pastPaymentCount : nat;
  individualSessions : IndividualSessionInfo }.

(** [familyName] and [error] are optional properties; a family whose
    name column is null has [familyName = Some None]. *)
Record PaymentEligibilityData := {
  familyId : string;
  familyName : option (option string);
  studentPaymentDetails : list StudentPaymentDetail;
  hasAvailableDiscounts : bool;
  error : option string }.

Definition no_sessions : IndividualSessionInfo :=
  {| totalPurchased := 0; totalRemaining := 0; purchases := [] |}.

Definition getFamilyIndividualSessions (familyId : string) : M IndividualSessionInfo :=
  try_catch
    (let! resp := sessions_select familyId in
     match Pg.error resp with
     | Some sessionsError => ret no_sessions
     | None =>
         let purchases :=
           map (fun session =>
                  {| id := o_id session;
                     purchaseDate := o_purchase_date session;
                     quantityPurchased := o_quantity_purchased session;
                     quantityRemaining := o_quantity_remaining session |})
               (default [] (Pg.data resp)) in
         let totalPurchased :=
           fold_left (fun sum p => (sum + quantityPurchased p)%Z) purchases 0%Z in
         let totalRemaining :=
           fold_left (fun sum p => (sum + quantityRemaining p)%Z) purchases 0%Z in
         ret {| totalPurchased := totalPurchased;
                totalRemaining := totalRemaining;
                purchases := purchases |}
     end)
    (fun error => ret no_sessions).

(** The early [return { familyId, [familyName,] studentPaymentDetails: [],
    hasAvailableDiscounts: false, error }] of every failure branch. *)
Definition failure (familyId : string) (familyName : option (option string))
    (msg : string) : PaymentEligibilityData :=
  {| familyId := familyId; familyName := familyName;
     studentPaymentDetails := []; hasAvailableDiscounts := false;
     error := Some msg |}.

(** Body of the [for (const student of students)] loop. *)
Definition student_detail (paymentStudentLinks : list PaymentStudentRow)
    (individualSessions : IndividualSessionInfo) (student : StudentRow)
  : M StudentPaymentDetail :=
  let! eligibility := checkStudentEligibility (s_id student) in
  let pastPaymentCount :=
    length (filter (fun link => ps_student_id link = s_id student) paymentStudentLinks) in
  let! nextPaymentAmount := siteConfig_pricing_monthly in
  let nextPaymentTierLabel := "Monthly" in
  let needsPayment :=
    bool_decide (reason eligibility = "Trial")
    || bool_decide (reason eligibility = "Expired") in
  ret {| studentId := s_id student;
         firstName := s_first_name student;
         lastName := s_last_name student;
         eligibility := eligibility;
         needsPayment := needsPayment;
         nextPaymentAmount := nextPaymentAmount;
         nextPaymentTierLabel := nextPaymentTierLabel;
         pastPaymentCount := pastPaymentCount;
         individualSessions := individualSessions |}.

(** Steps 5 to 7, reached once the links are known. *)
Definition with_links (familyId : string) (familyName : option string)
    (students : list StudentRow) (paymentStudentLinks : list PaymentStudentRow)
  : M PaymentEligibilityData :=
  let! individualSessions := getFamilyIndividualSessions familyId in
  let! studentPaymentDetails :=
    for_each (student_detail paymentStudentLinks individualSessions) students in
  let! iso := now in
  let! discounts := discount_codes_select familyId iso in
  let hasAvailableDiscounts :=
    match Pg.error discounts, Pg.data discounts with
    | None, Some availableDiscountsData => bool_decide (0 < length availableDiscountsData)
    | _, _ => false
    end in
  ret {| familyId := familyId; familyName := Some familyName;
         studentPaymentDetails := studentPaymentDetails;
         hasAvailableDiscounts := hasAvailableDiscounts;
         error := None |}.

(** The [try] block, steps 1 to 4. *)
Definition getFamilyPaymentEligibilityData_try (familyId : string)
  : M PaymentEligibilityData :=
  let! fam := families_select_name familyId in
  match Pg.error fam, Pg.data fam with
  | None, Some familyData =>
      let familyName := f_name familyData in
      let! studs := students_select familyId in
      match Pg.error studs with
      | Some studentsError =>
          ret (failure familyId (Some familyName) "Could not load student information.")
      | None =>
          match Pg.data studs with
          | None | Some [] =>
              ret (failure familyId (Some familyName) "No students found in this family.")
          | Some students =>
              let! pays := payments_select familyId "succeeded" in
              match Pg.error pays with
              | Some paymentsError =>
                  ret (failure familyId (Some familyName) "Could not load payment history.")
              | None =>
                  let successfulPaymentIds := default [] (map p_id <$> Pg.data pays) in
                  if bool_decide (0 < length successfulPaymentIds) then
                    let! links := payment_students_select successfulPaymentIds in
                    match Pg.error links with
                    | Some linksError =>
                        ret (failure familyId (Some familyName)
                               "Could not load payment link history.")
                    | None =>
                        with_links familyId familyName students
                          (default [] (Pg.data links))
                    end
                  else with_links familyId familyName students []
              end
          end
      end
  | _, _ => ret (failure familyId None "Could not load family details.")
  end.

Definition getFamilyPaymentEligibilityData (familyId : string)
  : M PaymentEligibilityData :=
  try_catch (getFamilyPaymentEligibilityData_try familyId)
    (fun error =>
       ret (failure familyId None
              "An unexpected error occurred while loading payment information.")).

(** *** One student *)

(** [.from('students').select('id, first_name, last_name, family_id')
    .eq('id', studentId).single()].  The request log has no entry for
    this read; [read] is what the environment does to it. *)
Definition students_select_by_id (read : Fault) (studentId : string)
  : M (Response StudentRow) :=
  fun w =>
    match read with
    | ThrowWith x => (Threw x, w)
    | FailWith e => (Returned (failed e), w)
    | NoFault =>
        (Returned (single (filter (fun r => s_id r = studentId) (students (db w)))), w)
    end.

(** The eligibility of one student.  [family_id] is text in a stored
    row; the empty text is the one falsy value it can take. *)
Definition getStudentPaymentEligibilityData (read : Fault) (studentId : string)
  : M PaymentEligibilityData :=
  try_catch
    (let! stud := students_select_by_id read studentId in
     match Pg.error stud, Pg.data stud with
     | None, Some studentData =>
         let familyId := s_family_id studentData in
         if bool_decide (familyId = "") then
           ret (failure "" None "Student is not associated with a family.")
         else
           let! familyData := getFamilyPaymentEligibilityData familyId in
           if negb (blank (PaymentEligibility.error familyData)) then ret familyData
           else
             let studentPaymentDetails :=
               filter (fun detail => PaymentEligibility.studentId detail = studentId)
                 (studentPaymentDetails familyData) in
             ret {| PaymentEligibility.familyId := PaymentEligibility.familyId familyData;
                    familyName := familyName familyData;
                    studentPaymentDetails := studentPaymentDetails;
                    hasAvailableDiscounts := hasAvailableDiscounts familyData;
                    PaymentEligibility.error := PaymentEligibility.error familyData |}
     | _, _ => ret (failure "" None "Could not load student information.")
     end)
    (fun error =>
       ret (failure "" None
              "An unexpected error occurred while loading student payment information.")).

End PaymentEligibility.

(** ** Program service

    Every function takes the database client as its last argument; here
    the client is the world the computation runs in. *)

Module ProgramService.

(** The object literal [createProgram] inserts. *)
Definition createProgram_payload (programData : Obj) : Obj :=
  <["name" := prop programData "name"]> $
  <["description" := prop programData "description"]> $
  <["duration_minutes" := prop programData "duration_minutes"]> $
  <["max_capacity" := prop programData "max_capacity"]> $
  <["sessions_per_week" := prop programData "sessions_per_week"]> $
  <["min_sessions_per_week" := prop programData "min_sessions_per_week"]> $
  <["max_sessions_per_week" := prop programData "max_sessions_per_week"]> $
  <["min_belt_rank" := prop programData "min_belt_rank"]> $
  <["max_belt_rank" := prop programData "max_belt_rank"]> $
  <["belt_rank_required" :=
      nullish (prop programData "belt_rank_required") (VBool false)]> $
  <["prerequisite_programs" := prop programData "prerequisite_programs"]> $
  <["min_age" := prop programData "min_age"]> $
  <["max_age" := prop programData "max_age"]> $
  <["gender_restriction" := prop programData "gender_restriction"]> $
  <["special_needs_support" := prop programData "special_needs_support"]> $
  <["monthly_fee" := prop programData "monthly_fee"]> $
  <["registration_fee" := prop programData "registration_fee"]> $
  <["yearly_fee" := prop programData "yearly_fee"]> $
  <["individual_session_fee" := prop programData "individual_session_fee"]> $
  <["is_active" := nullish (prop programData "is_active") (VBool true)]> ∅.

Definition createProgram (programData : Obj) : M (option Obj) :=
  let! resp := programs_insert (createProgram_payload programData) in
  match Pg.error resp with
  | Some error => throw (ThrownError ("Failed to create program: " +:+ message error))
  | None => ret (Pg.data resp)
  end.

(** [if (updates.k !== undefined) updateData.k = updates.k;] *)
Definition copy_if_defined (k : string) (updates updateData : Obj) : Obj :=
  if defined (prop updates k) then <[k := prop updates k]> updateData else updateData.

(** The payload [updateProgram] builds before it talks to the database. *)
Definition updateProgram_payload (iso : string) (updates : Obj) : Obj :=
  let updateData : Obj := {["updated_at" := VStr iso]} in
  let updateData := copy_if_defined "name" updates updateData in
  let updateData := copy_if_defined "description" updates updateData in
  let updateData := copy_if_defined "duration_minutes" updates updateData in
  let updateData := copy_if_defined "max_capacity" updates updateData in
  let updateData := copy_if_defined "sessions_per_week" updates updateData in
  let updateData := copy_if_defined "min_sessions_per_week" updates updateData in
  let updateData := copy_if_defined "max_sessions_per_week" updates updateData in
  let updateData := copy_if_defined "min_belt_rank" updates updateData in
  let updateData := copy_if_defined "max_belt_rank" updates updateData in
  let updateData := copy_if_defined "belt_rank_required" updates updateData in
  let updateData := copy_if_defined "prerequisite_programs" updates updateData in
  let updateData := copy_if_defined "min_age" updates updateData in
  let updateData := copy_if_defined "max_age" updates updateData in
  let updateData := copy_if_defined "gender_restriction" updates updateData in
  let updateData := copy_if_defined "special_needs_support" updates updateData in
  let updateData := copy_if_defined "monthly_fee" updates updateData in
  let updateData := copy_if_defined "registration_fee" updates updateData in
  let updateData := copy_if_defined "yearly_fee" updates updateData in
  let updateData := copy_if_defined "individual_session_fee" updates updateData in
  let updateData := copy_if_defined "is_active" updates updateData in
  updateData.

Definition updateProgram (id : string) (updates : Obj) : M (option Obj) :=
  let! iso := now in
  let updateData := updateProgram_payload iso updates in
  let! resp := programs_update updateData id in
  match Pg.error resp with
  | Some error => throw (ThrownError ("Failed to update program: " +:+ message error))
  | None => ret (Pg.data resp)
  end.

Record ProgramFilters := { is_active : option bool; search : option string }.

Definition getPrograms (filters : ProgramFilters) : M (list Obj) :=
  let! resp :=
    programs_select (is_active filters)
      (if blank (search filters) then None else search filters) in
  match Pg.error resp with
  | Some error => throw (ThrownError ("Failed to fetch programs: " +:+ message error))
  | None => ret (default [] (Pg.data resp))
  end.

(** [None] is the [null] returned for a program that is not found. *)
Definition getProgramById (id : string) : M (option Obj) :=
  let! resp := programs_select_by_id id in
  match Pg.error resp with
  | Some error =>
      if bool_decide (code error = "PGRST116") then ret None
      else throw (ThrownError ("Failed to fetch program: " +:+ message error))
  | None => ret (Pg.data resp)
  end.

Record EligibilityCheck := { eligible : bool; reasons : list string }.

Definition checkProgramEligibility (programId studentId : string) : M EligibilityCheck :=
  try_catch
    (let! resp := rpc_check_program_eligibility studentId programId in
     match Pg.error resp with
     | Some error =>
         ret {| eligible := false; reasons := ["Error checking eligibility"] |}
     | None =>
         let isEligible := truthy (default VNull (Pg.data resp)) in
         if isEligible then ret {| eligible := true; reasons := [] |}
         else ret {| eligible := false;
                     reasons := ["Student does not meet program requirements"] |}
     end)
    (fun error =>
       ret {| eligible := false; reasons := ["System error checking eligibility"] |}).

(** *** Programs a student can enrol in *)

(** [program.id], a string in every stored row. *)
Definition program_id (program : Obj) : string :=
  match prop program "id" with
  | VStr s => s
  | _ => ""
  end.

(** The loop [for (const program of allPrograms)] of
    [getProgramsForStudent], with the [eligiblePrograms] it collects. *)
Fixpoint eligible_among (studentId : string) (allPrograms : list Obj) : M (list Obj) :=
  match allPrograms with
  | [] => ret []
  | program :: rest =>
      let! eligibilityCheck := checkProgramEligibility (program_id program) studentId in
      let! eligiblePrograms := eligible_among studentId rest in
      ret (if eligible eligibilityCheck then program :: eligiblePrograms
           else eligiblePrograms)
  end.

(** The programs come from [getPrograms({ is_active: true })]. *)
Definition getProgramsForStudent (studentId : string) : M (list Obj) :=
  let! allPrograms := getPrograms {| is_active := Some true; search := None |} in
  eligible_among studentId allPrograms.

End ProgramService.

(** ** Route actions *)

Module Route.

(** What a route action answers with: [json(body, {status})] or
    [redirect(location)]. *)
Record ActionData := {
  success : option bool;
  message : option string;
  error : option string;
  fieldErrors : option (gmap string string) }.

Inductive HttpResponse :=
| Json (status : nat) (body : ActionData)
| Redirect (location : string).

Definition http_status (r : HttpResponse) : nat :=
  match r with Json st _ => st | Redirect _ => 302 end.

End Route.
Export Route.

(** A submitted form: at most one text value per field name. *)
Abbreviation FormData := (gmap string string).

(** [if (!v) fieldErrors.k = msg;] *)
Definition require (v : option string) (k msg : string)
    (fieldErrors : gmap string string) : gmap string string :=
  if blank v then <[k := msg]> fieldErrors else fieldErrors.

(** Both edit actions refuse to run without the two database settings;
    with them the client is created and used. *)
Definition configured (url key : option string) : bool :=
  negb (blank url || blank key).

(** *** Family edit: [/admin/families/:familyId/edit] *)

Module FamilyEdit.

Definition action (familyId : option string) (formData : FormData) : M HttpResponse :=
  if blank familyId then
    throw (ThrownError "Invariant failed: Missing familyId parameter")
  else
  let familyId := default "" familyId in
  let name := formData !! "name" in
  let email := formData !! "email" in
  let primary_phone := formData !! "primary_phone" in
  let address := formData !! "address" in
  let city := formData !! "city" in
  let province := formData !! "province" in
  let postal_code := formData !! "postal_code" in
  let emergency_contact := formData !! "emergency_contact" in
  let health_info := formData !! "health_info" in
  let notes := formData !! "notes" in
  let referral_source := formData !! "referral_source" in
  let referral_name := formData !! "referral_name" in
  let fieldErrors : gmap string string := ∅ in
  let fieldErrors := require name "name" "Family name is required." fieldErrors in
  let fieldErrors := require email "email" "Email is required." fieldErrors in
  let fieldErrors := require address "address" "Address is required." fieldErrors in
  let fieldErrors := require city "city" "City is required." fieldErrors in
  let fieldErrors := require province "province" "Province is required." fieldErrors in
  let fieldErrors :=
    require postal_code "postal_code" "Postal code is required." fieldErrors in
  let fieldErrors :=
    require primary_phone "primary_phone" "Primary phone is required." fieldErrors in
  if bool_decide (0 < size fieldErrors) then
    ret (Json 400 {| success := None; message := None;
                     error := Some "Validation failed";
                     fieldErrors := Some fieldErrors |})
  else
  let! supabaseUrl := process_env "SUPABASE_URL" in
  let! supabaseServiceKey := process_env "SUPABASE_SERVICE_ROLE_KEY" in
  if negb (configured supabaseUrl supabaseServiceKey) then
    ret (Json 500 {| success := None; message := None;
                     error := Some "Server configuration error";
                     fieldErrors := None |})
  else
  let! iso := now in
  let! resp :=
    families_update
      {| fu_name := name;
         fu_email := email;
         fu_primary_phone := primary_phone;
         fu_address := address;
         fu_city := city;
         fu_province := province;
         fu_postal_code := postal_code;
         fu_emergency_contact := emergency_contact;
         fu_health_info := health_info;
         fu_notes := notes;
         fu_referral_source := referral_source;
         fu_referral_name := referral_name;
         fu_updated_at := iso |}
      familyId in
  match Pg.error resp with
  | Some error =>
      ret (Json 500 {| success := None; message := None;
                       error := Some ("Database error: " +:+ Pg.message error);
                       fieldErrors := None |})
  | None => ret (Redirect ("/admin/families/" +:+ familyId))
  end.

End FamilyEdit.

(** *** Student edit: [/admin/students/:studentId] *)

Module StudentEdit.

Definition action (studentId : option string) (formData : FormData) : M HttpResponse :=
  if blank studentId then
    ret (Json 400 {| success := None; message := None;
                     error := Some "Student ID is required"; fieldErrors := None |})
  else
  let studentId := default "" studentId in
  let intent := formData !! "intent" in
  if negb (bool_decide (intent = Some "edit")) then
    ret (Json 400 {| success := None; message := None;
                     error := Some "Invalid intent"; fieldErrors := None |})
  else
  let updateData :=
    {| su_first_name := formData !! "first_name";
       su_last_name := formData !! "last_name";
       su_gender := formData !! "gender";
       su_birth_date := formData !! "birth_date";
       su_cell_phone := or_null (formData !! "cell_phone");
       su_email := or_null (formData !! "email");
       su_t_shirt_size := formData !! "t_shirt_size";
       su_school := formData !! "school";
       su_grade_level := or_null (formData !! "grade_level");
       su_special_needs := or_null (formData !! "special_needs");
       su_allergies := or_null (formData !! "allergies");
       su_medications := or_null (formData !! "medications");
       su_immunizations_up_to_date :=
         if bool_decide (formData !! "immunizations_up_to_date" = Some "on")
         then "true" else "false";
       su_immunization_notes := or_null (formData !! "immunization_notes") |} in
  let fieldErrors : gmap string string := ∅ in
  let fieldErrors :=
    require (su_first_name updateData) "first_name" "First name is required."
      fieldErrors in
  let fieldErrors :=
    require (su_last_name updateData) "last_name" "Last name is required."
      fieldErrors in
  let fieldErrors :=
    require (su_gender updateData) "gender" "Gender is required." fieldErrors in
  let fieldErrors :=
    require (su_birth_date updateData) "birth_date" "Birth date is required."
      fieldErrors in
  let fieldErrors :=
    require (su_t_shirt_size updateData) "t_shirt_size" "T-shirt size is required."
      fieldErrors in
  let fieldErrors :=
    require (su_school updateData) "school" "School is required." fieldErrors in
  if existsb (fun kv => negb (blank (Some kv.2))) (map_to_list fieldErrors) then
    ret (Json 400 {| success := None; message := None;
                     error := Some "Please correct the errors below.";
                     fieldErrors := Some fieldErrors |})
  else
  let! supabaseUrl := process_env "SUPABASE_URL" in
  let! supabaseServiceKey := process_env "SUPABASE_SERVICE_ROLE_KEY" in
  if negb (configured supabaseUrl supabaseServiceKey) then
    ret (Json 500 {| success := None; message := None;
                     error := Some "Server configuration error.";
                     fieldErrors := None |})
  else
  try_catch
    (let! resp := students_update updateData studentId in
     match Pg.error resp with
     | Some updateError =>
         throw (ThrownObject (Pg.message updateError) (code updateError))
     | None =>
         ret (Json 200 {| success := Some true;
                          message := Some "Student details updated successfully.";
                          error := None; fieldErrors := None |})
     end)
    (fun error =>
       let errorMessage :=
         match error with
         | ThrownError m => m
         | _ => "An unknown error occurred."
         end in
       ret (Json 500 {| success := None; message := None;
                        error := Some ("Failed to update student: " +:+ errorMessage);
                        fieldErrors := None |})).

End StudentEdit.

(** * Vocabulary of the properties *)

Import PaymentEligibility.

Definition Zsum (l : list Z) : Z := foldr Z.add 0%Z l.

Definition to_purchase (session : SessionRow) : Purchase :=
  {| id := o_id session;
     purchaseDate := o_purchase_date session;
     quantityPurchased := o_quantity_purchased session;
     quantityRemaining := o_quantity_remaining session |}.

(** [wp m Q w]: run from [w], [m] ends in an outcome and a world that
    satisfy [Q]. *)
Definition wp {A} (m : M A) (Q : Outcome A -> World -> Prop) (w : World) : Prop :=
  Q (m w).1 (m w).2.
Arguments wp : simpl never.

(** The error object of the payment-eligibility service. *)
Definition is_failure (r : PaymentEligibilityData) : Prop :=
  (exists msg, PaymentEligibility.error r = Some msg /\ msg <> "")
  /\ studentPaymentDetails r = []
  /\ hasAvailableDiscounts r = false.

(** The four reads [getFamilyPaymentEligibilityData] checks the error
    of: family name, students, payments, payment-student links. *)
Definition own_read (familyId : string) (q : Request) : Prop :=
  match q with
  | FamiliesSelectName f => f = familyId
  | StudentsSelect f => f = familyId
  | PaymentsSelect f st => f = familyId /\ st = "succeeded"
  | PaymentStudentsSelect _ => True
  | _ => False
  end.

(** A logged request that makes the service give up: one of its own
    reads resolved with an error, or any call threw, the session fetch
    apart, whose exceptions [getFamilyIndividualSessions] handles. *)
Definition fatal (familyId : string) (e : Request * Status) : Prop :=
  match e.2 with
  | Ok => False
  | Failed _ => own_read familyId e.1
  | Raised _ => e.1 <> SessionsSelect familyId
  end.

(** The link belongs to a succeeded payment of the family. *)
Definition paid_by (d : Database) (familyId : string) (link : PaymentStudentRow) : Prop :=
  Exists (fun p => p_id p = ps_payment_id link
                   /\ p_family_id p = familyId
                   /\ p_status p = "succeeded") (payments d).

(** What the service owes for one student. *)
Definition detail_of (w : World) (links : list PaymentStudentRow)
    (s : StudentRow) (d : StudentPaymentDetail) : Prop :=
  studentId d = s_id s
  /\ needsPayment d
     = (bool_decide (reason (eligibility d) = "Trial")
        || bool_decide (reason (eligibility d) = "Expired"))
  /\ pastPaymentCount d
     = length (filter (fun link => ps_student_id link = s_id s) links)
  /\ exists n, student_eligibility w n (s_id s) = Returned (eligibility d).

(** The links the service counts: those of the family's succeeded
    payments. *)
Definition succeeded_links (d : Database) (familyId : string) : list PaymentStudentRow :=
  filter (fun l => ps_payment_id l ∈
                   map p_id (filter (fun p => p_family_id p = familyId
                                              /\ p_status p = "succeeded")
                               (payments d)))
    (payment_students d).

Definition family_students (d : Database) (familyId : string) : list StudentRow :=
  filter (fun s => s_family_id s = familyId) (students d).

(** What a run of the [try] block leaves behind: the requests logged
    since [w0], none fatal before the last, and the outcome. *)
Definition try_post (w0 : World) (familyId : string)
    (o : Outcome PaymentEligibilityData) (w' : World) : Prop :=
  exists pre e,
    log w' = log w0 ++ pre ++ [e] /\ db w' = db w0
    /\ Forall (fun e => ~ fatal familyId e) pre
    /\ match o with
       | Returned r =>
           (fatal familyId e -> is_failure r)
           /\ match PaymentEligibility.error r with
              | None =>
                  Forall2 (detail_of w0 (succeeded_links (db w0) familyId))
                    (family_students (db w0) familyId) (studentPaymentDetails r)
              | Some _ => studentPaymentDetails r = []
              end
       | Threw x => exists q, e = (q, Raised x) /\ q <> SessionsSelect familyId
       end.

(** The same for the whole function, which always returns. *)
Definition run_post (w0 : World) (familyId : string)
    (o : Outcome PaymentEligibilityData) (w' : World) : Prop :=
  exists r pre e,
    o = Returned r
    /\ log w' = log w0 ++ pre ++ [e] /\ db w' = db w0
    /\ Forall (fun e => ~ fatal familyId e) pre
    /\ (fatal familyId e -> is_failure r)
    /\ match PaymentEligibility.error r with
       | None =>
           Forall2 (detail_of w0 (succeeded_links (db w0) familyId))
             (family_students (db w0) familyId) (studentPaymentDetails r)
       | Some _ => studentPaymentDetails r = []
       end.

(** The columns [updateProgram] is written to copy. *)
Definition program_columns : list string :=
  [ "name"; "description"; "duration_minutes"; "max_capacity";
    "sessions_per_week"; "min_sessions_per_week"; "max_sessions_per_week";
    "min_belt_rank"; "max_belt_rank"; "belt_rank_required";
    "prerequisite_programs"; "min_age"; "max_age"; "gender_restriction";
    "special_needs_support"; "monthly_fee"; "registration_fee"; "yearly_fee";
    "individual_session_fee"; "is_active" ].

(** The properties of an object that are not [undefined]. *)
Definition provided (o : Obj) : Obj := filter (fun kv => defined kv.2 = true) o.

(** A family row whose [updated_at] alone is rewritten. *)
Definition touch_family (t : string) (r : FamilyRow) : FamilyRow :=
  {| f_id := f_id r;
     f_name := f_name r;
     f_email := f_email r;
     f_primary_phone := f_primary_phone r;
     f_address := f_address r;
     f_city := f_city r;
     f_province := f_province r;
     f_postal_code := f_postal_code r;
     f_emergency_contact := f_emergency_contact r;
     f_health_info := f_health_info r;
     f_notes := f_notes r;
     f_referral_source := f_referral_source r;
     f_referral_name := f_referral_name r;
     f_updated_at := t |}.

(** The fields the family-edit form must carry, with the message
    shown for each when it is missing. *)
Definition family_required : list (string * string) :=
  [ ("name", "Family name is required.");
    ("email", "Email is required.");
    ("address", "Address is required.");
    ("city", "City is required.");
    ("province", "Province is required.");
    ("postal_code", "Postal code is required.");
    ("primary_phone", "Primary phone is required.") ].

Import ProgramService.

(** The twenty conditional copies of [updateProgram], as one pass over
    the columns. *)
Definition copy_all (cols : list string) (updates updateData : Obj) : Obj :=
  foldl (fun acc k => copy_if_defined k updates acc) updateData cols.

(** The world after one reading of the clock. *)
Definition ticked (w : World) : World := (now w).2.

(** The search text [getPrograms] filters by, if any. *)
Definition effective_search (filters : ProgramFilters) : option string :=
  if blank (search filters) then None else search filters.

(** The object the family-edit action sends to [update]. *)
Definition family_payload (formData : FormData) (iso : string) : FamilyUpdate :=
  {| fu_name := formData !! "name";
     fu_email := formData !! "email";
     fu_primary_phone := formData !! "primary_phone";
     fu_address := formData !! "address";
     fu_city := formData !! "city";
     fu_province := formData !! "province";
     fu_postal_code := formData !! "postal_code";
     fu_emergency_contact := formData !! "emergency_contact";
     fu_health_info := formData !! "health_info";
     fu_notes := formData !! "notes";
     fu_referral_source := formData !! "referral_source";
     fu_referral_name := formData !! "referral_name";
     fu_updated_at := iso |}.

(** The presence checks of an edit action, as one pass over the
    required fields. *)
Definition collect (required : list (string * string)) (formData : FormData)
    (fieldErrors : gmap string string) : gmap string string :=
  foldl (fun acc kf => require (formData !! kf.1) kf.1 kf.2 acc) fieldErrors required.

(** The [fieldErrors] of the family-edit action. *)
Definition family_field_errors (formData : FormData) : gmap string string :=
  collect family_required formData ∅.

(** A program row whose [updated_at] alone is rewritten. *)
Definition touch_program (t : string) (stored : Obj) : Obj :=
  <["updated_at" := VStr t]> stored.

(** ** Payment eligibility in full *)

(** The world after [requests] have been logged. *)
Definition extend_log (requests : list (Request * Status)) (w : World) : World :=
  {| db := db w; log := log w ++ requests; faults := faults w;
     student_eligibility := student_eligibility w;
     site_pricing_monthly := site_pricing_monthly w; env := env w;
     clock := clock w; ticks := ticks w |}.

(** The rows the session fetch resolves to: latest purchase first. *)
Definition family_sessions (d : Database) (familyId : string) : list SessionRow :=
  merge_sort later_first
    (filter (fun r => o_family_id r = familyId) (one_on_one_sessions d)).

(** What [getFamilyIndividualSessions] returns, by the fate of its fetch. *)
Definition sessions_info (d : Database) (familyId : string) (st : Status)
  : IndividualSessionInfo :=
  match st with
  | Ok =>
      {| totalPurchased := Zsum (map o_quantity_purchased (family_sessions d familyId));
         totalRemaining := Zsum (map o_quantity_remaining (family_sessions d familyId));
         purchases := map to_purchase (family_sessions d familyId) |}
  | Failed _ | Raised _ => no_sessions
  end.

(** The ids of the succeeded payments of the family. *)
Definition succeeded_ids (d : Database) (familyId : string) : list string :=
  map p_id (filter (fun p => p_family_id p = familyId /\ p_status p = "succeeded")
              (payments d)).

(** The discount codes the last read selects from, before its [limit(1)]. *)
Definition available_discounts (d : Database) (familyId now : string) : list DiscountRow :=
  filter (fun r => discount_available familyId now r = true) (discount_codes d).

(** The detail the service returns for a student whose eligibility is [e]. *)
Definition detail_for (w : World) (links : list PaymentStudentRow)
    (info : IndividualSessionInfo) (s : StudentRow) (e : EligibilityStatus)
  : StudentPaymentDetail :=
  {| studentId := s_id s;
     firstName := s_first_name s;
     lastName := s_last_name s;
     eligibility := e;
     needsPayment := bool_decide (reason e = "Trial")
                     || bool_decide (reason e = "Expired");
     nextPaymentAmount := site_pricing_monthly w;
     nextPaymentTierLabel := "Monthly";
     pastPaymentCount :=
       length (filter (fun link => ps_student_id link = s_id s) links);
     individualSessions := info |}.

(** One successful eligibility check per student, in order. *)
Definition checked (students : list StudentRow) : list (Request * Status) :=
  map (fun s => (CheckStudentEligibility (s_id s), Ok)) students.

(** The requests of a run that reports no error, in order. *)
Definition successful_requests (w : World) (familyId : string)
    (sessions discounts : Status) : list (Request * Status) :=
  [ (FamiliesSelectName familyId, Ok); (StudentsSelect familyId, Ok);
    (PaymentsSelect familyId "succeeded", Ok) ]
  ++ (if bool_decide (0 < length (succeeded_ids (db w) familyId))
      then [ (PaymentStudentsSelect (succeeded_ids (db w) familyId), Ok) ]
      else [])
  ++ [ (SessionsSelect familyId, sessions) ]
  ++ checked (family_students (db w) familyId)
  ++ [ (DiscountCodesSelect familyId (clock w (ticks w)), discounts) ].

(** A run that reports no error, in full. *)
Definition successful_run (w : World) (familyId : string) (r : PaymentEligibilityData)
    (requests : list (Request * Status)) : Prop :=
  exists family sessions discounts,
    filter (fun f => f_id f = familyId) (families (db w)) = [family]
    /\ family_students (db w) familyId <> []
    /\ (forall x, discounts <> Raised x)
    /\ requests = successful_requests w familyId sessions discounts
    /\ PaymentEligibility.familyId r = familyId
    /\ familyName r = Some (f_name family)
    /\ PaymentEligibility.error r = None
    /\ hasAvailableDiscounts r
       = match discounts with
         | Ok => bool_decide (0 < length (available_discounts (db w) familyId
                                            (clock w (ticks w))))
         | _ => false
         end
    /\ Forall2 (fun s d =>
                  exists e n,
                    student_eligibility w n (s_id s) = Returned e
                    /\ d = detail_for w (succeeded_links (db w) familyId)
                             (sessions_info (db w) familyId sessions) s e)
         (family_students (db w) familyId) (studentPaymentDetails r).

(** [hasAvailableDiscounts], by the fate of the discount read. *)
Definition discount_flag (d : Database) (familyId now : string) (st : Status) : bool :=
  match st with
  | Ok => bool_decide (0 < length (available_discounts d familyId now))
  | Failed _ | Raised _ => false
  end.

(** The message the service reports when [q] is the last request it
    issued and [st] is how it went; none when it reports no error. *)
Definition message_of (q : Request) (st : Status) : option string :=
  match st, q with
  | Raised _, _ =>
      Some "An unexpected error occurred while loading payment information."
  | Failed _, FamiliesSelectName _ => Some "Could not load family details."
  | Failed _, StudentsSelect _ => Some "Could not load student information."
  | Ok, StudentsSelect _ => Some "No students found in this family."
  | Failed _, PaymentsSelect _ _ => Some "Could not load payment history."
  | Failed _, PaymentStudentsSelect _ => Some "Could not load payment link history."
  | _, _ => None
  end.

(** The stored name of the family, when exactly one row has the id. *)
Definition known_name (d : Database) (familyId : string) : option (option string) :=
  match filter (fun f => f_id f = familyId) (families d) with
  | [family] => Some (f_name family)
  | _ => None
  end.

(** A run that reports an error. *)
Definition reported (w : World) (familyId : string) (r : PaymentEligibilityData)
    (requests : list (Request * Status)) : Prop :=
  match last requests with
  | Some (q, st) =>
      PaymentEligibility.error r = message_of q st
      /\ studentPaymentDetails r = []
      /\ hasAvailableDiscounts r = false
      /\ (fatal familyId (q, st)
          \/ (q, st) = (StudentsSelect familyId, Ok)
             /\ family_students (db w) familyId = [])
      /\ familyName r
         = match st, q with
           | Raised _, _ => None
           | _, FamiliesSelectName _ => None
           | _, _ => known_name (db w) familyId
           end
  | None => False
  end.

(** What a run of the [try] block amounts to. *)
Definition try_full_post (w : World) (familyId : string)
    (o : Outcome PaymentEligibilityData) (w' : World) : Prop :=
  exists requests,
    log w' = log w ++ requests
    /\ match o with
       | Returned r =>
           match PaymentEligibility.error r with
           | None => successful_run w familyId r requests
           | Some _ => reported w familyId r requests
           end
       | Threw x =>
           exists before q,
             requests = before ++ [(q, Raised x)] /\ q <> SessionsSelect familyId
       end.

(** What a run of [getFamilyPaymentEligibilityData] amounts to. *)
Definition full_post (w : World) (familyId : string)
    (r : PaymentEligibilityData) (requests : list (Request * Status)) : Prop :=
  match PaymentEligibility.error r with
  | None => successful_run w familyId r requests
  | Some _ => reported w familyId r requests
  end.

(** The error of [getStudentPaymentEligibilityData] that is decided by
    its own read of the student; none when it goes on to the family. *)
Definition student_message (read : Fault) (rows : list StudentRow) : option string :=
  match read, rows with
  | ThrowWith _, _ =>
      Some "An unexpected error occurred while loading student payment information."
  | FailWith _, _ => Some "Could not load student information."
  | NoFault, [student] =>
      if bool_decide (s_family_id student = "")
      then Some "Student is not associated with a family."
      else None
  | NoFault, _ => Some "Could not load student information."
  end.

(** The rows the read of one student selects. *)
Definition students_with_id (d : Database) (studentId : string) : list StudentRow :=
  filter (fun r => s_id r = studentId) (students d).

(** [{...familyData, studentPaymentDetails}] with the details of one student. *)
Definition restricted (studentId : string) (familyData : PaymentEligibilityData)
  : PaymentEligibilityData :=
  {| PaymentEligibility.familyId := PaymentEligibility.familyId familyData;
     familyName := familyName familyData;
     studentPaymentDetails :=
       filter (fun detail => PaymentEligibility.studentId detail = studentId)
         (studentPaymentDetails familyData);
     hasAvailableDiscounts := hasAvailableDiscounts familyData;
     PaymentEligibility.error := PaymentEligibility.error familyData |}.

(** ** Programs *)

(** The rows [getPrograms({ is_active: true })] resolves to. *)
Definition active_programs (d : Database) : list Obj :=
  merge_sort (by_name d) (filter (fun r => has_is_active true r = true) (programs d)).

(** [{ is_active: true }] *)
Definition active_only : ProgramFilters := {| is_active := Some true; search := None |}.

(** The value [createProgram] sends for a column. *)
Definition insert_value (programData : Obj) (k : string) : Value :=
  if decide (k = "belt_rank_required")
  then nullish (prop programData k) (VBool false)
  else if decide (k = "is_active")
  then nullish (prop programData k) (VBool true)
  else prop programData k.

(** The filter [getPrograms] asks the database to apply to a row. *)
Definition selected (d : Database) (filters : ProgramFilters) (r : Obj) : bool :=
  match is_active filters with
  | Some b => has_is_active b r
  | None => true
  end
  && match search filters with
     | Some s =>
         bool_decide (s = "")
         || ilike d (prop r "name") ("%" +:+ s +:+ "%")
         || ilike d (prop r "description") ("%" +:+ s +:+ "%")
     | None => true
     end.

(** ** The student-edit action *)

(** The fields the student-edit action requires, with the message it
    reports for each. *)
Definition student_required : list (string * string) :=
  [ ("first_name", "First name is required.");
    ("last_name", "Last name is required.");
    ("gender", "Gender is required.");
    ("birth_date", "Birth date is required.");
    ("t_shirt_size", "T-shirt size is required.");
    ("school", "School is required.") ].

(** The [fieldErrors] the student-edit action collects. *)
Definition student_field_errors (formData : FormData) : gmap string string :=
  collect student_required formData ∅.

(** The object the student-edit action sends to [update]. *)
Definition student_payload (formData : FormData) : StudentUpdate :=
  {| su_first_name := formData !! "first_name";
     su_last_name := formData !! "last_name";
     su_gender := formData !! "gender";
     su_birth_date := formData !! "birth_date";
     su_cell_phone := or_null (formData !! "cell_phone");
     su_email := or_null (formData !! "email");
     su_t_shirt_size := formData !! "t_shirt_size";
     su_school := formData !! "school";
     su_grade_level := or_null (formData !! "grade_level");
     su_special_needs := or_null (formData !! "special_needs");
     su_allergies := or_null (formData !! "allergies");
     su_medications := or_null (formData !! "medications");
     su_immunizations_up_to_date :=
       if bool_decide (formData !! "immunizations_up_to_date" = Some "on")
       then "true" else "false";
     su_immunization_notes := or_null (formData !! "immunization_notes") |}.

(** [Object.values(fieldErrors).some(Boolean)] *)
Definition some_message (fieldErrors : gmap string string) : bool :=
  existsb (fun kv : string * string => negb (blank (Some kv.2))) (map_to_list fieldErrors).

(** [{error: msg}] *)
Definition no_body_error (msg : string) : ActionData :=
  {| success := None; message := None; Route.error := Some msg; fieldErrors := None |}.

(** What the student-edit action leaves of a stored student: the row
    with the id takes the fields of the form, the others stay. *)
Definition student_written (studentId : string) (formData : FormData)
    (before after : StudentRow) : Prop :=
  s_id after = s_id before
  /\ s_family_id after = s_family_id before
  /\ (s_id before <> studentId -> after = before)
  /\ (s_id before = studentId ->
      s_first_name after = formData !! "first_name"
      /\ s_last_name after = formData !! "last_name"
      /\ s_gender after = formData !! "gender"
      /\ s_birth_date after = formData !! "birth_date"
      /\ s_t_shirt_size after = formData !! "t_shirt_size"
      /\ s_school after = formData !! "school"
      /\ s_cell_phone after = or_null (formData !! "cell_phone")
      /\ s_email after = or_null (formData !! "email")
      /\ s_grade_level after = or_null (formData !! "grade_level")
      /\ s_special_needs after = or_null (formData !! "special_needs")
      /\ s_allergies after = or_null (formData !! "allergies")
      /\ s_medications after = or_null (formData !! "medications")
      /\ s_immunization_notes after = or_null (formData !! "immunization_notes")
      /\ (s_immunizations_up_to_date after = "true"
          <-> formData !! "immunizations_up_to_date" = Some "on")).

(** The same for the family-edit action at the time [iso]. *)
Definition family_written (familyId : string) (formData : FormData) (iso : string)
    (before after : FamilyRow) : Prop :=
  f_id after = f_id before
  /\ (f_id before <> familyId -> after = before)
  /\ (f_id before = familyId ->
      f_name after = formData !! "name"
      /\ f_email after = formData !! "email"
      /\ f_primary_phone after = formData !! "primary_phone"
      /\ f_address after = formData !! "address"
      /\ f_city after = formData !! "city"
      /\ f_province after = formData !! "province"
      /\ f_postal_code after = formData !! "postal_code"
      /\ f_emergency_contact after = formData !! "emergency_contact"
      /\ f_health_info after = formData !! "health_info"
      /\ f_notes after = formData !! "notes"
      /\ f_referral_source after = formData !! "referral_source"
      /\ f_referral_name after = formData !! "referral_name"
      /\ f_updated_at after = iso).

(** ** The environment's part *)

(** How a request the tables answer ends, when the environment does
    [f] to it. *)
Definition fate (f : Fault) : Status :=
  match f with
  | NoFault => Ok
  | FailWith e => Failed e
  | ThrowWith x => Raised x
  end.

(** The environment lets [getFamilyPaymentEligibilityData] through for
    the family: one row has the id, the family has a student, none of
    the four reads the service checks is answered with an error or
    made to throw, no call other than the session fetch is made to
    throw, and [checkStudentEligibility] answers. *)
Definition served (w : World) (familyId : string) : Prop :=
  (exists family,
      filter (fun f => f_id f = familyId) (families (db w)) = [family])
  /\ family_students (db w) familyId <> []
  /\ (forall n q, own_read familyId q -> faults w n q = NoFault)
  /\ (forall n q x, q <> SessionsSelect familyId -> faults w n q <> ThrowWith x)
  /\ (forall n sid x, student_eligibility w n sid <> Threw x).

(** The check of [program] for the student, issued as request number
    [n], lets the program in: the call goes through and the database
    function answers a truthy value. *)
Definition passes (faults : nat -> Request -> Fault) (d : Database)
    (studentId : string) (n : nat) (program : Obj) : bool :=
  match faults n (RpcCheckProgramEligibility studentId (program_id program)) with
  | NoFault => truthy (check_program_eligibility d studentId (program_id program))
  | FailWith _ | ThrowWith _ => false
  end.

(** The programs whose check passes, when they are checked one after
    the other from request number [n] on. *)
Fixpoint kept_from (faults : nat -> Request -> Fault) (d : Database)
    (studentId : string) (n : nat) (programs : list Obj) : list Obj :=
  match programs with
  | [] => []
  | program :: rest =>
      if passes faults d studentId n program
      then program :: kept_from faults d studentId (S n) rest
      else kept_from faults d studentId (S n) rest
  end.

(** Those checks, as logged. *)
Fixpoint checks_from (faults : nat -> Request -> Fault) (studentId : string)
    (n : nat) (programs : list Obj) : list (Request * Status) :=
  match programs with
  | [] => []
  | program :: rest =>
      (RpcCheckProgramEligibility studentId (program_id program),
       fate (faults n (RpcCheckProgramEligibility studentId (program_id program))))
      :: checks_from faults studentId (S n) rest
  end.

(** A search text of letters, digits and spaces: nothing in it is read
    as syntax by the [or=(...)] filter it is spliced into. *)
Definition plain_char (c : Ascii.ascii) : bool :=
  let n := Ascii.nat_of_ascii c in
  Nat.eqb n 32
  || (Nat.leb 48 n && Nat.leb n 57)
  || (Nat.leb 65 n && Nat.leb n 90)
  || (Nat.leb 97 n && Nat.leb n 122).

Definition plain (s : string) : bool :=
  forallb plain_char (list_ascii_of_string s).

(** ** A small school, for concrete runs *)

Module Sample.

Definition tanaka : FamilyRow :=
  {| f_id := "fam-1"; f_name := Some "Tanaka"; f_email := Some "tanaka@example.org";
     f_primary_phone := Some "555-0101"; f_address := Some "1 Dojo Lane";
     f_city := Some "Victoria"; f_province := Some "BC";
     f_postal_code := Some "V8V 1A1"; f_emergency_contact := None;
     f_health_info := None; f_notes := None; f_referral_source := None;
     f_referral_name := None; f_updated_at := "2024-01-01T00:00:00.000Z" |}.

Definition student (id family first : string) : StudentRow :=
  {| s_id := id; s_family_id := family; s_first_name := Some first;
     s_last_name := Some "Tanaka"; s_gender := Some "F";
     s_birth_date := Some "2015-05-05"; s_cell_phone := None; s_email := None;
     s_t_shirt_size := Some "YM"; s_school := Some "Oak Bay";
     s_grade_level := None; s_special_needs := None; s_allergies := None;
     s_medications := None; s_immunizations_up_to_date := "true";
     s_immunization_notes := None |}.

Definition kids : Obj :=
  <["id" := VStr "prog-1"]> $ <["name" := VStr "Kids"]> $
  <["monthly_fee" := VNum 80]> $ <["is_active" := VBool true]> $
  <["updated_at" := VStr "2024-01-01T00:00:00.000Z"]> ∅.

Definition database : Database :=
  {| families := [tanaka];
     students := [student "stu-1" "fam-1" "Aiko"; student "stu-2" "fam-1" "Ken";
                  student "stu-3" "fam-2" "Mia"];
     payments :=
       [ {| p_id := "pay-1"; p_family_id := "fam-1"; p_status := "succeeded" |};
         {| p_id := "pay-2"; p_family_id := "fam-1"; p_status := "pending" |};
         {| p_id := "pay-3"; p_family_id := "fam-2"; p_status := "succeeded" |};
         {| p_id := "pay-4"; p_family_id := "fam-1"; p_status := "succeeded" |} ];
     payment_students :=
       [ {| ps_student_id := "stu-1"; ps_payment_id := "pay-1" |};
         {| ps_student_id := "stu-2"; ps_payment_id := "pay-1" |};
         {| ps_student_id := "stu-1"; ps_payment_id := "pay-2" |};
         {| ps_student_id := "stu-1"; ps_payment_id := "pay-3" |};
         {| ps_student_id := "stu-1"; ps_payment_id := "pay-4" |} ];
     one_on_one_sessions :=
       [ {| o_id := "ses-1"; o_family_id := "fam-1"; o_purchase_date := "2024-02-01";
            o_quantity_purchased := 5; o_quantity_remaining := 2 |};
         {| o_id := "ses-2"; o_family_id := "fam-2"; o_purchase_date := "2024-02-10";
            o_quantity_purchased := 9; o_quantity_remaining := 9 |};
         {| o_id := "ses-3"; o_family_id := "fam-1"; o_purchase_date := "2024-03-01";
            o_quantity_purchased := 3; o_quantity_remaining := 3 |} ];
     discount_codes := [];
     programs := [kids];
     check_program_eligibility :=
       fun student program => VBool (bool_decide (student = "stu-1"));
     next_program_id := fun n => "prog-new";
     ilike := fun _ _ => true;
     text_le := fun _ _ => true |}.

Definition reason_of (studentId : string) : string :=
  if bool_decide (studentId = "stu-1") then "Trial" else "Paid - Monthly".

(** Nothing goes wrong; the clock shows a new time at every reading. *)
Definition world : World :=
  {| db := database;
     log := [];
     faults := fun _ _ => NoFault;
     student_eligibility :=
       fun _ studentId =>
         Returned {| Payment.eligible := true; reason := reason_of studentId |};
     site_pricing_monthly := 49;
     env := <["SUPABASE_URL" := "https://db.example.org"]> $
            <["SUPABASE_SERVICE_ROLE_KEY" := "service-key"]> ∅;
     clock := fun n => if bool_decide (n = 0) then "2025-06-01T10:00:00.000Z"
                       else "2025-06-01T10:05:00.000Z";
     ticks := 0 |}.

Definition down : PostgrestError :=
  {| Pg.message := "connection refused"; code := "08006" |}.

(** As [world], but the environment does [f] to the request [q]. *)
Definition faulty (q : Request -> bool) (f : Fault) : World :=
  {| db := database;
     log := [];
     faults := fun _ r => if q r then f else NoFault;
     student_eligibility := student_eligibility world;
     site_pricing_monthly := 49;
     env := env world;
     clock := clock world;
     ticks := 0 |}.

Definition is_students_read (q : Request) : bool :=
  match q with StudentsSelect _ => true | _ => false end.

Definition is_links_read (q : Request) : bool :=
  match q with PaymentStudentsSelect _ => true | _ => false end.

Definition is_sessions_read (q : Request) : bool :=
  match q with SessionsSelect _ => true | _ => false end.


(** Form submissions and objects handed to the handlers. *)
Definition family_form : FormData :=
  list_to_map
    [ ("name", "Tanaka"); ("email", "tanaka@example.org");
      ("primary_phone", "555-0101"); ("address", "2 Dojo Lane");
      ("city", "Victoria"); ("province", "BC"); ("postal_code", "V8V 1A1");
      ("notes", "prefers email") ].

(** The same form with the name left empty and no email field. *)
Definition incomplete_form : FormData :=
  <["name" := ""]> (delete "email" family_form).

Definition student_form : FormData :=
  list_to_map
    [ ("intent", "edit"); ("first_name", "Aiko"); ("last_name", "Tanaka");
      ("gender", "F"); ("birth_date", "2015-05-05"); ("t_shirt_size", "YL");
      ("school", "Oak Bay") ].

Definition rename : Obj := {["name" := VStr "Kids II"]}.

Definition new_program : Obj :=
  <["name" := VStr "Adults"]> $ <["monthly_fee" := VNum 95]> ∅.

(** A well-formed id that no family and no student has. *)
Definition nobody : string := "00000000-0000-4000-8000-000000000000".

End Sample.

(** * Properties *)

(** ** Running computations *)

Lemma fold_left_add_from {A} (f : A -> Z) (l : list A) (acc : Z) :
  fold_left (fun sum p => (sum + f p)%Z) l acc = (acc + Zsum (map f l))%Z.
Proof.
  revert acc. induction l as [|x l IH]; intros acc; simpl.
  - lia.
  - rewrite IH. lia.
Qed.

Lemma Zsum_Permutation (l k : list Z) : l ≡ₚ k -> Zsum l = Zsum k.
Proof.
  induction 1; simpl; try lia.
Qed.

Lemma wp_ret {A} (a : A) Q w : Q (Returned a) w -> wp (ret a) Q w.
Proof. done. Qed.

Lemma wp_throw {A} x (Q : Outcome A -> World -> Prop) w :
  Q (Threw x) w -> wp (throw x) Q w.
Proof. done. Qed.

Lemma wp_bind {A B} (m : M A) (k : A -> M B) Q w :
  wp m (fun o w' => match o with
                    | Returned a => wp (k a) Q w'
                    | Threw x => Q (Threw x) w'
                    end) w ->
  wp (bind m k) Q w.
Proof.
  unfold wp, bind. destruct (m w) as [[a|x] w']; done.
Qed.

Lemma wp_try_catch {A} (body : M A) handler Q w :
  wp body (fun o w' => match o with
                       | Returned a => Q (Returned a) w'
                       | Threw x => wp (handler x) Q w'
                       end) w ->
  wp (try_catch body handler) Q w.
Proof.
  unfold wp, try_catch. destruct (body w) as [[a|x] w']; done.
Qed.

Lemma wp_query {D} q (sem : Database -> Response D * Database) Q w :
  match faults w (length (log w)) q with
  | ThrowWith x => Q (Threw x) (record q (Raised x) w)
  | FailWith e => Q (Returned (failed e)) (record q (Failed e) w)
  | NoFault =>
      Q (Returned (sem (db w)).1)
        (record q (status_of (sem (db w)).1) (with_db (sem (db w)).2 w))
  end ->
  wp (query q sem) Q w.
Proof.
  unfold wp, query. destruct (faults w (length (log w)) q); try done.
  by destruct (sem (db w)).
Qed.

Lemma wp_mono {A} (m : M A) (Q Q' : Outcome A -> World -> Prop) w :
  wp m Q w -> (forall o w', Q o w' -> Q' o w') -> wp m Q' w.
Proof. unfold wp. auto. Qed.

Lemma wp_run {A} (m : M A) Q w :
  wp m Q w -> exists o w', m w = (o, w') /\ Q o w'.
Proof.
  unfold wp. destruct (m w) as [o w'] eqn:E. eauto.
Qed.

(** ** Individual sessions *)

Lemma sessions_log (familyId : string) (w : World) :
  exists info st,
    getFamilyIndividualSessions familyId w
    = (Returned info, record (SessionsSelect familyId) st w).
Proof.
  unfold getFamilyIndividualSessions, try_catch, bind, sessions_select, query.
  destruct (faults w (length (log w)) (SessionsSelect familyId)) as [|e|x].
  - by eexists _, Ok.
  - by eexists _, (Failed e).
  - by eexists _, (Raised x).
Qed.

(** C9.  [getFamilyIndividualSessions] always returns, after one fetch.
    When the environment lets the fetch through, [purchases] are the
    family's rows of [one_on_one_sessions] (latest first), and
    [totalPurchased] and [totalRemaining] are the sums of
    [quantity_purchased] and [quantity_remaining] over them; when it
    answers the fetch with an error or makes it throw, both totals are
    0 and [purchases] is empty. *)
Theorem individual_sessions_totals (familyId : string) (w : World) :
  exists info,
    getFamilyIndividualSessions familyId w
    = (Returned info,
       record (SessionsSelect familyId)
         (fate (faults w (length (log w)) (SessionsSelect familyId))) w)
    /\ match faults w (length (log w)) (SessionsSelect familyId) with
       | NoFault =>
           let rows := filter (fun r => o_family_id r = familyId)
                         (one_on_one_sessions (db w)) in
           purchases info ≡ₚ map to_purchase rows
           /\ totalPurchased info = Zsum (map quantityPurchased (purchases info))
           /\ totalRemaining info = Zsum (map quantityRemaining (purchases info))
           /\ totalPurchased info = Zsum (map o_quantity_purchased rows)
           /\ totalRemaining info = Zsum (map o_quantity_remaining rows)
       | FailWith _ | ThrowWith _ =>
           totalPurchased info = 0%Z /\ totalRemaining info = 0%Z
           /\ purchases info = []
       end.
Proof.
  unfold getFamilyIndividualSessions, try_catch, bind, sessions_select, query.
  destruct (faults w (length (log w)) (SessionsSelect familyId)) as [|e|x] eqn:Hf.
  - eexists. split; [reflexivity|]. cbn [Pg.error Pg.data ok default].
    set (rows := filter _ _).
    assert (Hp : merge_sort later_first rows ≡ₚ rows) by apply merge_sort_Permutation.
    cbn [totalPurchased totalRemaining purchases].
    rewrite !fold_left_add_from, !Z.add_0_l.
    repeat split.
    + fold to_purchase. by rewrite Hp.
    + rewrite !map_map. cbn [quantityPurchased].
      apply Zsum_Permutation. by rewrite Hp.
    + rewrite !map_map. cbn [quantityRemaining].
      apply Zsum_Permutation. by rewrite Hp.
  - eexists. split; [reflexivity|]. done.
  - eexists. split; [reflexivity|]. done.
Qed.

(** ** The payment-eligibility run *)

Lemma wp_checkStudentEligibility sid Q w :
  match student_eligibility w (length (log w)) sid with
  | Returned e => Q (Returned e) (record (CheckStudentEligibility sid) Ok w)
  | Threw x => Q (Threw x) (record (CheckStudentEligibility sid) (Raised x) w)
  end ->
  wp (checkStudentEligibility sid) Q w.
Proof.
  unfold wp, checkStudentEligibility.
  by destruct (student_eligibility w (length (log w)) sid).
Qed.

Lemma details_loop w0 links sess students : forall w,
  student_eligibility w = student_eligibility w0 ->
  wp (for_each (student_detail links sess) students)
     (fun o w' =>
        exists es,
          log w' = log w ++ es /\ db w' = db w
          /\ match o with
             | Returned details =>
                 Forall (fun e => e.2 = Ok) es
                 /\ Forall2 (detail_of w0 links) students details
             | Threw x =>
                 exists pre sid,
                   es = pre ++ [(CheckStudentEligibility sid, Raised x)]
                   /\ Forall (fun e => e.2 = Ok) pre
             end) w.
Proof.
  induction students as [|s rest IH]; intros w Hw.
  - apply wp_ret. exists []. rewrite app_nil_r. repeat split; constructor.
  - cbn [for_each]. apply wp_bind. unfold student_detail at 1.
    apply wp_bind, wp_checkStudentEligibility.
    destruct (student_eligibility w (length (log w)) (s_id s)) as [e|x] eqn:He.
    + apply wp_bind. unfold siteConfig_pricing_monthly at 1. unfold wp at 1. cbn [fst snd].
      apply wp_ret. apply wp_bind.
      eapply wp_mono; [apply IH; done|].
      intros o w' (es & Hlog & Hdb & Ho). cbn in Hlog, Hdb.
      destruct o as [details|x].
      * apply wp_ret. eexists (_ :: es). rewrite Hlog, <- app_assoc. split; [done|].
        split; [done|]. destruct Ho as [Hok Hd]. split.
        -- by constructor.
        -- constructor; [|done]. repeat split; cbn. rewrite <- Hw. eauto.
      * exists ((CheckStudentEligibility (s_id s), Ok) :: es).
        rewrite Hlog, <- app_assoc. split; [done|]. split; [done|].
        destruct Ho as (pre & sid & -> & Hpre).
        exists ((CheckStudentEligibility (s_id s), Ok) :: pre), sid.
        split; [done|]. by constructor.
    + exists [(CheckStudentEligibility (s_id s), Raised x)]. repeat split.
      exists [], (s_id s). split; [done|]. constructor.
Qed.

Lemma wp_now Q w :
  Q (Returned (clock w (ticks w))) (now w).2 -> wp now Q w.
Proof. done. Qed.

Lemma wp_sessions familyId Q w :
  (forall info st, Q (Returned info) (record (SessionsSelect familyId) st w)) ->
  wp (getFamilyIndividualSessions familyId) Q w.
Proof.
  intros HQ. unfold wp.
  destruct (sessions_log familyId w) as (info & st & ->). apply HQ.
Qed.

Lemma not_fatal_ok familyId q : ~ fatal familyId (q, Ok).
Proof. unfold fatal. cbn. tauto. Qed.

Lemma not_fatal_sessions familyId st : ~ fatal familyId (SessionsSelect familyId, st).
Proof. unfold fatal. destruct st; cbn; [tauto|tauto|]. intros H. by apply H. Qed.

Lemma Forall_ok_not_fatal familyId es :
  Forall (fun e : Request * Status => e.2 = Ok) es -> Forall (fun e => ~ fatal familyId e) es.
Proof.
  intros H. eapply Forall_impl; [exact H|]. intros [q st]; cbn. intros ->. apply not_fatal_ok.
Qed.

Lemma with_links_run w0 familyId name students links w :
  student_eligibility w = student_eligibility w0 ->
  wp (with_links familyId name students links)
     (fun o w' =>
        exists pre e,
          log w' = log w ++ pre ++ [e] /\ db w' = db w
          /\ Forall (fun e => ~ fatal familyId e) pre
          /\ match o with
             | Returned r =>
                 ~ fatal familyId e
                 /\ PaymentEligibility.error r = None
                 /\ Forall2 (detail_of w0 links) students (studentPaymentDetails r)
             | Threw x => exists q, e = (q, Raised x) /\ q <> SessionsSelect familyId
             end) w.
Proof.
  intros Hw. unfold with_links.
  apply wp_bind, wp_sessions. intros info st.
  apply wp_bind.
  eapply wp_mono; [apply (details_loop w0); done|].
  intros o w1 (es & Hlog & Hdb & Ho). cbn in Hlog, Hdb.
  destruct o as [details|x].
  - destruct Ho as [Hok Hd].
    apply wp_bind, wp_now. apply wp_bind, wp_query.
    cbn [now snd log db faults].
    destruct (faults w1 _ _) as [|err|x].
    + apply wp_ret. cbn.
      eexists ((SessionsSelect familyId, st) :: es), _.
      rewrite Hlog, Hdb, <- !app_assoc. split; [done|]. split; [done|].
      split; [constructor; [apply not_fatal_sessions|by apply Forall_ok_not_fatal]|].
      split; [apply not_fatal_ok|]. done.
    + apply wp_ret. cbn.
      eexists ((SessionsSelect familyId, st) :: es), _.
      rewrite Hlog, Hdb, <- !app_assoc. split; [done|]. split; [done|].
      split; [constructor; [apply not_fatal_sessions|by apply Forall_ok_not_fatal]|].
      split; [|done]. unfold fatal; cbn; tauto.
    + cbn.
      eexists ((SessionsSelect familyId, st) :: es), _.
      rewrite Hlog, Hdb, <- !app_assoc. split; [done|]. split; [done|].
      split; [constructor; [apply not_fatal_sessions|by apply Forall_ok_not_fatal]|].
      eexists. split; [done|]. done.
  - destruct Ho as (pre & sid & -> & Hpre).
    eexists ((SessionsSelect familyId, st) :: pre), _.
    rewrite Hlog, Hdb, <- !app_assoc. split; [done|]. split; [done|].
    split; [constructor; [apply not_fatal_sessions|by apply Forall_ok_not_fatal]|].
    eexists. split; [done|]. done.
Qed.

Lemma failure_is_failure familyId name msg :
  msg <> "" -> is_failure (failure familyId name msg).
Proof. intros H. repeat split. by exists msg. Qed.

Lemma filter_elem_of_nil {A} `{EqDecision B} (f : A -> B) (l : list A) :
  filter (fun x => f x ∈ @nil B) l = [].
Proof.
  induction l as [|x l IH]; [done|].
  rewrite filter_cons. destruct (decide _) as [H|H]; [|done].
  by apply elem_of_nil in H.
Qed.

Ltac quiet :=
  repeat first [ apply Forall_nil_2 | apply Forall_cons_2 | apply not_fatal_ok ].

Ltac log_eq :=
  try match goal with H : log ?w = _ |- log ?w = _ => rewrite H end;
  cbn [log db record with_db now snd]; rewrite <- ?app_assoc; reflexivity.

Ltac logged pre e :=
  exists pre, e; split; [log_eq|]; split; [done|]; split; [quiet|].

Lemma try_run familyId w :
  wp (getFamilyPaymentEligibilityData_try familyId) (try_post w familyId) w.
Proof.
  unfold getFamilyPaymentEligibilityData_try.
  apply wp_bind, wp_query. cbn [fst snd].
  destruct (faults w _ _) as [|err|x].
  2:{ apply wp_ret. logged (@nil (Request * Status)) (FamiliesSelectName familyId, Failed err).
      split; [intros _; by apply failure_is_failure|done]. }
  2:{ logged (@nil (Request * Status)) (FamiliesSelectName familyId, Raised x).
      by eexists. }
  destruct (filter _ (families (db w))) as [|familyData [|]] eqn:Hfam; cbn [single Pg.error Pg.data failed ok status_of].
  1:{ apply wp_ret. logged (@nil (Request * Status)) (FamiliesSelectName familyId, Failed not_single).
      split; [intros _; by apply failure_is_failure|done]. }
  2:{ apply wp_ret. logged (@nil (Request * Status)) (FamiliesSelectName familyId, Failed not_single).
      split; [intros _; by apply failure_is_failure|done]. }
  cbn [Pg.error Pg.data ok status_of].
  apply wp_bind, wp_query. cbn [fst snd].
  destruct (faults _ _ _) as [|err|x].
  2:{ apply wp_ret.
      logged [(FamiliesSelectName familyId, Ok)] (StudentsSelect familyId, Failed err).
      split; [intros _; by apply failure_is_failure|done]. }
  2:{ logged [(FamiliesSelectName familyId, Ok)] (StudentsSelect familyId, Raised x).
      by eexists. }
  cbn [Pg.error Pg.data ok status_of db with_db record].
  destruct (filter _ (students (db w))) as [|s ss] eqn:Hstud.
  { apply wp_ret.
    logged [(FamiliesSelectName familyId, Ok)] (StudentsSelect familyId, Ok).
    split; [intros _; by apply failure_is_failure|done]. }
  apply wp_bind, wp_query. cbn [fst snd Pg.error Pg.data ok status_of db with_db record].
  destruct (faults _ _ _) as [|err|x].
  2:{ apply wp_ret.
      logged [(FamiliesSelectName familyId, Ok); (StudentsSelect familyId, Ok)]
             (PaymentsSelect familyId "succeeded", Failed err).
      split; [intros _; by apply failure_is_failure|done]. }
  2:{ logged [(FamiliesSelectName familyId, Ok); (StudentsSelect familyId, Ok)]
             (PaymentsSelect familyId "succeeded", Raised x).
      by eexists. }
  cbn [default from_option fmap option_fmap option_map Datatypes.id].
  fold (family_students (db w) familyId) in Hstud.
  set (ids := map p_id _).
  case_bool_decide as Hids.
  - apply wp_bind, wp_query.
    cbn [fst snd Pg.error Pg.data ok status_of db with_db record].
    destruct (faults _ _ _) as [|err|x].
    2:{ apply wp_ret.
        logged [(FamiliesSelectName familyId, Ok); (StudentsSelect familyId, Ok);
                (PaymentsSelect familyId "succeeded", Ok)]
               (PaymentStudentsSelect ids, Failed err).
        split; [intros _; by apply failure_is_failure|done]. }
    2:{ logged [(FamiliesSelectName familyId, Ok); (StudentsSelect familyId, Ok);
                (PaymentsSelect familyId "succeeded", Ok)]
               (PaymentStudentsSelect ids, Raised x).
        by eexists. }
    cbn [default from_option Datatypes.id].
    eapply wp_mono; [apply (with_links_run w); reflexivity|].
    intros o w' (pre & e & Hlog & Hdb & Hpre & Ho).
    exists ([(FamiliesSelectName familyId, Ok); (StudentsSelect familyId, Ok);
             (PaymentsSelect familyId "succeeded", Ok);
             (PaymentStudentsSelect ids, Ok)] ++ pre), e.
    split; [log_eq|]. split; [done|].
    split; [apply Forall_app; split; [quiet|done]|].
    destruct o as [r|x]; [|done].
    destruct Ho as (Hne & -> & Hd). split; [done|].
    by rewrite Hstud.
  - assert (ids = []) as Hnil by (destruct ids; [done|cbn in Hids; lia]).
    eapply wp_mono; [apply (with_links_run w); reflexivity|].
    intros o w' (pre & e & Hlog & Hdb & Hpre & Ho).
    exists ([(FamiliesSelectName familyId, Ok); (StudentsSelect familyId, Ok);
             (PaymentsSelect familyId "succeeded", Ok)] ++ pre), e.
    split; [log_eq|]. split; [done|].
    split; [apply Forall_app; split; [quiet|done]|].
    destruct o as [r|x]; [|done].
    destruct Ho as (Hne & -> & Hd). split; [done|].
    rewrite Hstud. unfold succeeded_links. fold ids. rewrite Hnil.
    by rewrite filter_elem_of_nil.
Qed.

Lemma eligibility_run familyId w :
  wp (getFamilyPaymentEligibilityData familyId) (run_post w familyId) w.
Proof.
  unfold getFamilyPaymentEligibilityData.
  apply wp_try_catch.
  eapply wp_mono; [apply try_run|].
  intros o w' (pre & e & Hlog & Hdb & Hpre & Ho).
  destruct o as [r|x].
  - destruct Ho as [Hf Hd]. by exists r, pre, e.
  - apply wp_ret. destruct Ho as (q & -> & Hq).
    eexists _, pre, _. split; [done|]. split; [done|]. split; [done|].
    split; [done|]. split; [|done]. intros _. by apply failure_is_failure.
Qed.


(** ** Payment eligibility in full *)

Lemma extend_log_twice es1 es2 w : extend_log es2 (extend_log es1 w) = extend_log (es1 ++ es2) w.
Proof. unfold extend_log. cbn. by rewrite app_assoc. Qed.

Lemma sessions_info_run familyId w :
  getFamilyIndividualSessions familyId w
  = match faults w (length (log w)) (SessionsSelect familyId) with
    | NoFault =>
        (Returned (sessions_info (db w) familyId Ok),
         extend_log [(SessionsSelect familyId, Ok)] w)
    | FailWith e =>
        (Returned no_sessions, extend_log [(SessionsSelect familyId, Failed e)] w)
    | ThrowWith x =>
        (Returned no_sessions, extend_log [(SessionsSelect familyId, Raised x)] w)
    end.
Proof.
  unfold getFamilyIndividualSessions, try_catch, bind, sessions_select, query.
  destruct (faults w _ _); try reflexivity.
  cbn [Pg.error Pg.data ok default from_option Datatypes.id status_of].
  fold (family_sessions (db w) familyId). unfold sessions_info, ret.
  f_equal. f_equal. fold to_purchase.
  rewrite !fold_left_add_from, !Z.add_0_l, !map_map. done.
Qed.

Lemma student_detail_run links info s w :
  student_detail links info s w
  = match student_eligibility w (length (log w)) (s_id s) with
    | Returned e =>
        (Returned (detail_for w links info s e),
         extend_log [(CheckStudentEligibility (s_id s), Ok)] w)
    | Threw x => (Threw x, extend_log [(CheckStudentEligibility (s_id s), Raised x)] w)
    end.
Proof.
  unfold student_detail, bind, checkStudentEligibility, siteConfig_pricing_monthly.
  by destruct (student_eligibility w _ _).
Qed.

Lemma bind_returned {A B} (m : M A) (k : A -> M B) w a w' :
  m w = (Returned a, w') -> bind m k w = k a w'.
Proof. unfold bind. by intros ->. Qed.

Lemma bind_threw {A B} (m : M A) (k : A -> M B) w x w' :
  m w = (Threw x, w') -> bind m k w = (Threw x, w').
Proof. unfold bind. by intros ->. Qed.

Lemma details_loop_full links info students : forall w,
  (exists details,
      for_each (student_detail links info) students w
      = (Returned details, extend_log (checked students) w)
      /\ Forall2 (fun s d =>
                    exists e n,
                      student_eligibility w n (s_id s) = Returned e
                      /\ d = detail_for w links info s e) students details)
  \/ (exists x before sid,
        for_each (student_detail links info) students w
        = (Threw x, extend_log (before ++ [(CheckStudentEligibility sid, Raised x)]) w)
        /\ Forall (fun e : Request * Status => e.2 = Ok) before).
Proof.
  induction students as [|s rest IH]; intros w.
  - left. exists []. split; [|constructor]. cbn. unfold ret, extend_log.
    rewrite app_nil_r. by destruct w.
  - cbn [for_each].
    pose proof (student_detail_run links info s w) as Hs.
    destruct (student_eligibility w (length (log w)) (s_id s)) as [e|x] eqn:He.
    + rewrite (bind_returned _ _ _ _ _ Hs).
      destruct (IH (extend_log [(CheckStudentEligibility (s_id s), Ok)] w))
        as [(details & Hrun & Hd)|(x & before & sid & Hrun & Hb)].
      * left. rewrite (bind_returned _ _ _ _ _ Hrun), extend_log_twice.
        eexists. split; [reflexivity|].
        constructor; [|exact Hd]. exists e, (length (log w)). by split.
      * right. rewrite (bind_threw _ _ _ _ _ Hrun), extend_log_twice.
        exists x, ((CheckStudentEligibility (s_id s), Ok) :: before), sid.
        split; [done|]. by constructor.
    + right. rewrite (bind_threw _ _ _ _ _ Hs).
      exists x, [], (s_id s). split; [done|constructor].
Qed.

Lemma query_run {D} q (sem : Database -> Response D * Database) w :
  query q sem w
  = match faults w (length (log w)) q with
    | ThrowWith x => (Threw x, extend_log [(q, Raised x)] w)
    | FailWith e => (Returned (failed e), extend_log [(q, Failed e)] w)
    | NoFault =>
        (Returned (sem (db w)).1,
         extend_log [(q, status_of (sem (db w)).1)] (with_db (sem (db w)).2 w))
    end.
Proof.
  unfold query. destruct (faults w _ _); try reflexivity. by destruct (sem (db w)).
Qed.

Lemma length_take_1 {A} (l : list A) : 0 < length (take 1 l) <-> 0 < length l.
Proof. destruct l; cbn; lia. Qed.

Lemma sessions_info_cases familyId w :
  exists sessions,
    getFamilyIndividualSessions familyId w
    = (Returned (sessions_info (db w) familyId sessions),
       extend_log [(SessionsSelect familyId, sessions)] w).
Proof.
  rewrite sessions_info_run.
  destruct (faults w _ _) as [|e|x]; [by exists Ok|by exists (Failed e)|by exists (Raised x)].
Qed.

Lemma with_links_full familyId name students links w :
  exists sessions,
    (exists details discounts w',
        with_links familyId name students links w
        = (Returned
             {| PaymentEligibility.familyId := familyId;
                familyName := Some name;
                studentPaymentDetails := details;
                hasAvailableDiscounts :=
                  discount_flag (db w) familyId (clock w (ticks w)) discounts;
                PaymentEligibility.error := None |}, w')
        /\ log w'
           = log w ++ (SessionsSelect familyId, sessions) :: checked students
               ++ [(DiscountCodesSelect familyId (clock w (ticks w)), discounts)]
        /\ (forall x, discounts <> Raised x)
        /\ Forall2 (fun s d =>
                      exists e n,
                        student_eligibility w n (s_id s) = Returned e
                        /\ d = detail_for w links
                                 (sessions_info (db w) familyId sessions) s e)
             students details)
    \/ (exists x before q w',
          with_links familyId name students links w = (Threw x, w')
          /\ log w'
             = log w ++ (SessionsSelect familyId, sessions) :: before ++ [(q, Raised x)]
          /\ q <> SessionsSelect familyId
          /\ Forall (fun e : Request * Status => e.2 = Ok) before).
Proof.
  unfold with_links.
  destruct (sessions_info_cases familyId w) as (sessions & Hs).
  exists sessions. rewrite (bind_returned _ _ _ _ _ Hs).
  set (w1 := extend_log [(SessionsSelect familyId, sessions)] w).
  destruct (details_loop_full links (sessions_info (db w) familyId sessions) students w1)
    as [(details & Hrun & Hd)|(x & before & sid & Hrun & Hb)].
  - rewrite (bind_returned _ _ _ _ _ Hrun).
    unfold bind, now, discount_codes_select. rewrite query_run.
    cbn [faults log db clock ticks extend_log w1 fst snd with_db].
    destruct (faults w _ _) as [|e|x].
    + left. exists details, Ok. eexists.
      cbn [fst snd log extend_log Pg.error Pg.data ok status_of].
      split.
      { unfold ret, discount_flag, available_discounts.
        rewrite (bool_decide_ext _ _ (length_take_1 (filter _ (discount_codes (db w))))).
        reflexivity. }
      split; [cbn; by rewrite <- !app_assoc|]. split; [done|exact Hd].
    + left. exists details, (Failed e). eexists.
      cbn [fst snd log extend_log Pg.error Pg.data failed].
      split; [reflexivity|]. split; [cbn; by rewrite <- !app_assoc|].
      split; [done|exact Hd].
    + right. exists x, (checked students), (DiscountCodesSelect familyId (clock w (ticks w))).
      eexists. split; [reflexivity|].
      split; [cbn; by rewrite <- !app_assoc|]. split; [done|].
      unfold checked. apply Forall_forall. intros e.
      rewrite list_elem_of_In, in_map_iff. by intros (s & <- & _).
  - right. rewrite (bind_threw _ _ _ _ _ Hrun).
    exists x, before, (CheckStudentEligibility sid). eexists.
    split; [reflexivity|].
    split; [cbn; by rewrite <- !app_assoc|]. by split.
Qed.

Ltac failed_read :=
  eexists _, _; split; [reflexivity|];
  eexists; split; [cbn; rewrite <- ?app_assoc; reflexivity|];
  unfold reported, known_name; cbn;
  repeat match goal with H : filter _ (families _) = _ |- _ => rewrite H end;
  unfold fatal; cbn; naive_solver.

Ltac raised_read :=
  eexists _, _; split; [reflexivity|];
  eexists; split; [cbn; rewrite <- ?app_assoc; reflexivity|];
  cbn;
  match goal with
  | |- exists before q, ?l = _ /\ _ =>
      exists (removelast l); eexists; split; [cbn; reflexivity|done]
  end.

Lemma try_full familyId w :
  exists o w',
    getFamilyPaymentEligibilityData_try familyId w = (o, w')
    /\ try_full_post w familyId o w'.
Proof.
  unfold getFamilyPaymentEligibilityData_try.
  unfold bind at 1. unfold families_select_name. rewrite query_run.
  destruct (faults w _ _) as [|err|x]; cbn [fst snd].
  2: failed_read. 2: raised_read.
  destruct (filter _ (families (db w))) as [|family [|]] eqn:Hfam;
    cbn [single Pg.error Pg.data failed ok status_of].
  1,3: failed_read.
  unfold bind at 1. unfold students_select. rewrite query_run.
  cbn [faults log db extend_log with_db fst snd].
  destruct (faults w _ _) as [|err|x]; cbn [fst snd Pg.error Pg.data failed ok status_of].
  2: failed_read. 2: raised_read.
  fold (family_students (db w) familyId).
  destruct (family_students (db w) familyId) as [|s ss] eqn:Hstud.
  { eexists _, _. split; [reflexivity|].
    eexists. split; [cbn; rewrite <- ?app_assoc; reflexivity|].
    unfold reported, known_name. cbn. rewrite Hfam. naive_solver. }
  unfold bind at 1. unfold payments_select. rewrite query_run.
  cbn [faults log db extend_log with_db fst snd].
  destruct (faults w _ _) as [|err|x]; cbn [fst snd Pg.error Pg.data failed ok status_of].
  2: failed_read. 2: raised_read.
  cbn [default from_option fmap option_fmap option_map Datatypes.id].
  fold (succeeded_ids (db w) familyId).
  destruct (bool_decide (0 < length (succeeded_ids (db w) familyId))) eqn:Hids.
  - unfold bind at 1. unfold payment_students_select. rewrite query_run.
    cbn [faults log db extend_log with_db fst snd].
    destruct (faults w _ _) as [|err|x]; cbn [fst snd Pg.error Pg.data failed ok status_of].
    2: failed_read. 2: raised_read.
    cbn [default from_option Datatypes.id].
    change (filter _ (payment_students (db w))) with (succeeded_links (db w) familyId).
    set (w4 := extend_log _ _).
    destruct (with_links_full familyId (f_name family) (s :: ss)
                (succeeded_links (db w) familyId) w4)
      as (sessions & [(details & discounts & w' & -> & Hlog & Hd & Hdet)
                     |(x & before & q & w' & -> & Hlog & Hq & Hb)]).
    + eexists _, _. split; [reflexivity|].
      eexists. split; [rewrite Hlog; cbn; rewrite <- ?app_assoc; reflexivity|].
      cbn. exists family, sessions, discounts.
      split; [done|]. split; [by rewrite Hstud|]. split; [done|].
      split; [unfold successful_requests; by rewrite Hids, Hstud|].
      repeat split; try done. by rewrite Hstud.
    + eexists _, _. split; [reflexivity|].
      eexists. split; [rewrite Hlog; cbn; rewrite <- ?app_assoc; reflexivity|].
      eexists (_ :: _ :: _ :: _ :: _ :: before), q. split; [reflexivity|done].
  - assert (succeeded_links (db w) familyId = []) as Hnil.
    { unfold succeeded_links. fold (succeeded_ids (db w) familyId).
      apply bool_decide_eq_false in Hids.
      destruct (succeeded_ids (db w) familyId); [apply filter_elem_of_nil|cbn in Hids; lia]. }
    set (w3 := extend_log _ _).
    destruct (with_links_full familyId (f_name family) (s :: ss) [] w3)
      as (sessions & [(details & discounts & w' & -> & Hlog & Hd & Hdet)
                     |(x & before & q & w' & -> & Hlog & Hq & Hb)]).
    + eexists _, _. split; [reflexivity|].
      eexists. split; [rewrite Hlog; cbn; rewrite <- ?app_assoc; reflexivity|].
      cbn. exists family, sessions, discounts.
      split; [done|]. split; [by rewrite Hstud|]. split; [done|].
      split; [unfold successful_requests; by rewrite Hids, Hstud|].
      repeat split; try done. by rewrite Hstud, Hnil.
    + eexists _, _. split; [reflexivity|].
      eexists. split; [rewrite Hlog; cbn; rewrite <- ?app_assoc; reflexivity|].
      eexists (_ :: _ :: _ :: _ :: before), q. split; [reflexivity|done].
Qed.

Lemma eligibility_full familyId w :
  exists r w' requests,
    getFamilyPaymentEligibilityData familyId w = (Returned r, w')
    /\ log w' = log w ++ requests
    /\ full_post w familyId r requests.
Proof.
  unfold getFamilyPaymentEligibilityData, try_catch.
  destruct (try_full familyId w) as (o & w' & -> & requests & Hlog & Ho).
  destruct o as [r|x].
  - by exists r, w', requests.
  - destruct Ho as (before & q & -> & Hq).
    eexists _, w', _. split; [reflexivity|]. split; [exact Hlog|].
    unfold full_post, reported. cbn. rewrite last_snoc.
    split; [done|]. split; [done|]. split; [done|]. split; [|done]. left. done.
Qed.

Lemma details_loop_served links info students : forall w,
  (forall n sid x, student_eligibility w n sid <> Threw x) ->
  exists details,
    for_each (student_detail links info) students w
    = (Returned details, extend_log (checked students) w).
Proof.
  induction students as [|s rest IH]; intros w Horacle.
  - exists []. cbn. unfold ret, extend_log. rewrite app_nil_r. by destruct w.
  - cbn [for_each].
    pose proof (student_detail_run links info s w) as Hs.
    destruct (student_eligibility w (length (log w)) (s_id s)) as [e|x] eqn:He;
      [|by destruct (Horacle _ _ _ He)].
    rewrite (bind_returned _ _ _ _ _ Hs).
    destruct (IH (extend_log [(CheckStudentEligibility (s_id s), Ok)] w) Horacle)
      as (details & Hrun).
    rewrite (bind_returned _ _ _ _ _ Hrun), extend_log_twice.
    by eexists.
Qed.

Lemma with_links_served familyId name students links w :
  (forall n q x, q <> SessionsSelect familyId -> faults w n q <> ThrowWith x) ->
  (forall n sid x, student_eligibility w n sid <> Threw x) ->
  exists r w',
    with_links familyId name students links w = (Returned r, w')
    /\ PaymentEligibility.error r = None.
Proof.
  intros Hthrow Horacle. unfold with_links.
  destruct (sessions_info_cases familyId w) as (sessions & Hs).
  rewrite (bind_returned _ _ _ _ _ Hs).
  set (w1 := extend_log [(SessionsSelect familyId, sessions)] w).
  destruct (details_loop_served links (sessions_info (db w) familyId sessions)
              students w1 Horacle) as (details & Hrun).
  rewrite (bind_returned _ _ _ _ _ Hrun).
  unfold bind, now, discount_codes_select. rewrite query_run.
  cbn [faults log db clock ticks extend_log w1 fst snd with_db].
  destruct (faults w _ _) as [|e|x] eqn:Hf.
  - by eexists _, _.
  - by eexists _, _.
  - exfalso. eapply Hthrow; [|exact Hf]. discriminate.
Qed.

Lemma eligibility_succeeds familyId w :
  served w familyId ->
  exists r w',
    getFamilyPaymentEligibilityData familyId w = (Returned r, w')
    /\ PaymentEligibility.error r = None.
Proof.
  intros ((family & Hfam) & Hstud & Hown & Hthrow & Horacle).
  unfold getFamilyPaymentEligibilityData, try_catch.
  enough (exists r w',
             getFamilyPaymentEligibilityData_try familyId w = (Returned r, w')
             /\ PaymentEligibility.error r = None)
    as (r & w' & -> & Herr) by (by exists r, w').
  unfold getFamilyPaymentEligibilityData_try.
  unfold bind at 1. unfold families_select_name. rewrite query_run.
  rewrite Hown by done. cbn [fst snd]. rewrite Hfam.
  cbn [single Pg.error Pg.data failed ok status_of].
  unfold bind at 1. unfold students_select. rewrite query_run.
  cbn [faults log db extend_log with_db fst snd].
  rewrite Hown by done. cbn [fst snd Pg.error Pg.data failed ok status_of].
  fold (family_students (db w) familyId).
  destruct (family_students (db w) familyId) as [|s ss] eqn:Hrows; [done|].
  unfold bind at 1. unfold payments_select. rewrite query_run.
  cbn [faults log db extend_log with_db fst snd].
  rewrite Hown by done. cbn [fst snd Pg.error Pg.data failed ok status_of].
  cbn [default from_option fmap option_fmap option_map Datatypes.id].
  destruct (bool_decide _).
  - unfold bind at 1. unfold payment_students_select. rewrite query_run.
    cbn [faults log db extend_log with_db fst snd].
    rewrite Hown by done. cbn [fst snd Pg.error Pg.data failed ok status_of].
    by apply with_links_served.
  - by apply with_links_served.
Qed.

Lemma successful_requests_last w familyId sessions discounts :
  last (successful_requests w familyId sessions discounts)
  = Some (DiscountCodesSelect familyId (clock w (ticks w)), discounts).
Proof.
  unfold successful_requests. rewrite !app_assoc. apply last_snoc.
Qed.

Lemma successful_requests_not_fatal w familyId sessions discounts :
  (forall x, discounts <> Raised x) ->
  Forall (fun e => ~ fatal familyId e)
    (successful_requests w familyId sessions discounts).
Proof.
  intros Hd. unfold successful_requests.
  rewrite !Forall_app. split.
  { repeat (apply Forall_cons_2; [unfold fatal; cbn; tauto|]). constructor. }
  split.
  { case_bool_decide; [|constructor].
    apply Forall_cons_2; [unfold fatal; cbn; tauto|constructor]. }
  split.
  { apply Forall_cons_2; [|constructor]. unfold fatal.
    destruct sessions; cbn; tauto. }
  split.
  { unfold checked. apply Forall_forall. intros e He.
    apply list_elem_of_fmap in He as (s & -> & _). unfold fatal. cbn. tauto. }
  apply Forall_cons_2; [|constructor]. unfold fatal.
  destruct discounts; cbn; [tauto..|]. intros _. by eapply Hd.
Qed.

Lemma successful_run_last w familyId r requests :
  successful_run w familyId r requests ->
  exists discounts,
    (forall x, discounts <> Raised x)
    /\ last requests = Some (DiscountCodesSelect familyId (clock w (ticks w)), discounts)
    /\ hasAvailableDiscounts r
       = discount_flag (db w) familyId (clock w (ticks w)) discounts.
Proof.
  intros (family & sessions & discounts & _ & _ & Hd & -> & _ & _ & _ & Hflag & _).
  exists discounts. split; [done|]. split; [apply successful_requests_last|].
  rewrite Hflag. by destruct discounts.
Qed.

(** X1.  The error [getFamilyPaymentEligibilityData] reports is decided by
    the last request it issued: the message of the read that failed,
    "No students found in this family." when the students read came back
    empty, the unexpected-error message when a call threw, and no error
    when it got as far as the discount read.  [familyName] is absent when
    the family read failed or a call threw, and the stored name
    otherwise. *)
Theorem eligibility_error_names_the_failed_step (familyId : string) (w : World) :
  exists r w' before q st,
    getFamilyPaymentEligibilityData familyId w = (Returned r, w')
    /\ log w' = log w ++ before ++ [(q, st)]
    /\ PaymentEligibility.error r = message_of q st
    /\ familyName r
       = match st, q with
         | Raised _, _ => None
         | _, FamiliesSelectName _ => None
         | _, _ => known_name (db w) familyId
         end.
Proof.
  destruct (eligibility_full familyId w) as (r & w' & requests & Hrun & Hlog & Hpost).
  unfold full_post in Hpost.
  destruct (PaymentEligibility.error r) as [msg|] eqn:Herr.
  - unfold reported in Hpost.
    destruct (last requests) as [[q st]|] eqn:Hlast; [|done].
    apply last_Some in Hlast as [before ->].
    destruct Hpost as (Hmsg & _ & _ & _ & Hname).
    exists r, w', before, q, st. by repeat split.
  - destruct (successful_run_last _ _ _ _ Hpost) as (discounts & Hd & Hlast & _).
    apply last_Some in Hlast as [before ->].
    destruct Hpost as (family & ? & ? & Hfam & _ & _ & _ & _ & Hname & _).
    exists r, w', before, (DiscountCodesSelect familyId (clock w (ticks w))), discounts.
    rewrite Herr, Hname. unfold known_name. rewrite Hfam.
    split; [done|]. split; [done|].
    destruct discounts as [| |thrown]; try done. by destruct (Hd thrown).
Qed.

(** X2.  [getFamilyPaymentEligibilityData] reports no error exactly when
    the family has a student and no request was fatal: a session fetch
    that fails or throws, and a discount read that resolves with an
    error, are tolerated. *)
Theorem eligibility_reports_no_error_iff (familyId : string) (w : World) :
  exists r w' requests,
    getFamilyPaymentEligibilityData familyId w = (Returned r, w')
    /\ log w' = log w ++ requests
    /\ (PaymentEligibility.error r = None
        <-> Forall (fun e => ~ fatal familyId e) requests
            /\ family_students (db w) familyId <> []).
Proof.
  destruct (eligibility_full familyId w) as (r & w' & requests & Hrun & Hlog & Hpost).
  exists r, w', requests. split; [done|]. split; [done|].
  unfold full_post in Hpost.
  destruct (PaymentEligibility.error r) as [msg|] eqn:Herr.
  - split; [done|]. intros [Hall Hstud]. exfalso.
    unfold reported in Hpost.
    destruct (last requests) as [[q st]|] eqn:Hlast; [|done].
    apply last_Some in Hlast as [before ->].
    destruct Hpost as (_ & _ & _ & [Hf|[_ Hnone]] & _); [|done].
    apply Forall_app in Hall as [_ Hall]. apply Forall_cons in Hall as [Hq _]. done.
  - split; [|done]. intros _.
    destruct Hpost as (family & sessions & discounts & _ & Hstud & Hd & -> & _).
    split; [|done]. by apply successful_requests_not_fatal.
Qed.

(** X3.  When [getFamilyPaymentEligibilityData] reports no error, it has
    issued, in this order: the family read, the students read, the read
    of the succeeded payments, the links read only if there is a
    succeeded payment, the session fetch, one eligibility check per
    student of the family in the order of the students read, and the
    discount read at the time of the call; all of them succeeded, the
    session fetch and the discount read possibly excepted. *)
Theorem eligibility_requests_of_a_successful_run (familyId : string) (w : World) :
  exists r w' requests,
    getFamilyPaymentEligibilityData familyId w = (Returned r, w')
    /\ log w' = log w ++ requests
    /\ (PaymentEligibility.error r = None ->
        exists sessions discounts,
          (forall x, discounts <> Raised x)
          /\ requests = successful_requests w familyId sessions discounts).
Proof.
  destruct (eligibility_full familyId w) as (r & w' & requests & Hrun & Hlog & Hpost).
  exists r, w', requests. split; [done|]. split; [done|].
  intros Herr. unfold full_post in Hpost. rewrite Herr in Hpost.
  destruct Hpost as (family & sessions & discounts & _ & _ & Hd & -> & _).
  by exists sessions, discounts.
Qed.

(** X4.  When [getFamilyPaymentEligibilityData] reports no error, it
    returns one detail per student of the family, in the order of the
    students read; each carries the student's id and names, the
    eligibility the check returned for that student, the monthly price
    of the site configuration with the label "Monthly", and the same
    individual-session summary, the one the session fetch gave (zeros
    when that fetch failed). *)
Theorem eligibility_details_of_a_successful_run (familyId : string) (w : World) :
  exists r w' requests,
    getFamilyPaymentEligibilityData familyId w = (Returned r, w')
    /\ log w' = log w ++ requests
    /\ (PaymentEligibility.error r = None ->
        exists sessions,
          (SessionsSelect familyId, sessions) ∈ requests
          /\ Forall2 (fun s d =>
                        exists e n,
                          student_eligibility w n (s_id s) = Returned e
                          /\ d = detail_for w (succeeded_links (db w) familyId)
                                   (sessions_info (db w) familyId sessions) s e)
               (family_students (db w) familyId) (studentPaymentDetails r)).
Proof.
  destruct (eligibility_full familyId w) as (r & w' & requests & Hrun & Hlog & Hpost).
  exists r, w', requests. split; [done|]. split; [done|].
  intros Herr. unfold full_post in Hpost. rewrite Herr in Hpost.
  destruct Hpost as (family & sessions & discounts & _ & _ & _ & -> & _ & _ & _ & _ & Hd).
  exists sessions. split; [|done].
  unfold successful_requests. rewrite !elem_of_app, !elem_of_cons. tauto.
Qed.

(** X5.  [hasAvailableDiscounts] is true exactly when the last request of
    [getFamilyPaymentEligibilityData] was the discount read, it
    succeeded, and some active discount code of the family, or of no
    family, is not yet expired at the time of the call. *)
Theorem eligibility_discount_flag (familyId : string) (w : World) :
  exists r w' requests,
    getFamilyPaymentEligibilityData familyId w = (Returned r, w')
    /\ log w' = log w ++ requests
    /\ (hasAvailableDiscounts r = true
        <-> last requests
            = Some (DiscountCodesSelect familyId (clock w (ticks w)), Ok)
            /\ available_discounts (db w) familyId (clock w (ticks w)) <> []).
Proof.
  destruct (eligibility_full familyId w) as (r & w' & requests & Hrun & Hlog & Hpost).
  exists r, w', requests. split; [done|]. split; [done|].
  unfold full_post in Hpost.
  destruct (PaymentEligibility.error r) as [msg|] eqn:Herr.
  - unfold reported in Hpost.
    destruct (last requests) as [[q st]|] eqn:Hlast; [|done].
    destruct Hpost as (Hmsg & _ & Hflag & _). rewrite Hflag.
    split; [done|]. intros [[= -> ->] _]. rewrite Herr in Hmsg. done.
  - destruct (successful_run_last _ _ _ _ Hpost) as (discounts & Hd & -> & ->).
    unfold discount_flag. destruct discounts as [|e|x].
    + rewrite bool_decide_eq_true.
      destruct (available_discounts _ _ _); cbn; split.
      * lia.
      * intros [_ ?]. done.
      * done.
      * intros _. lia.
    + split; [done|]. by intros [[=] _].
    + split; [done|]. by intros [[=] _].
Qed.

Lemma message_of_nonempty q st msg : message_of q st = Some msg -> msg <> "".
Proof. destruct st, q; cbn; intros [= <-]; done. Qed.

Lemma reported_error_nonempty w familyId r requests msg :
  reported w familyId r requests ->
  PaymentEligibility.error r = Some msg -> msg <> "".
Proof.
  unfold reported. destruct (last requests) as [[q st]|]; [|done].
  intros (Hmsg & _) Herr. rewrite Herr in Hmsg. by eapply message_of_nonempty.
Qed.

Lemma student_run read studentId w :
  match student_message read (students_with_id (db w) studentId) with
  | Some msg =>
      getStudentPaymentEligibilityData read studentId w
      = (Returned (failure "" None msg), w)
  | None =>
      exists student familyData w' requests,
        read = NoFault
        /\ students_with_id (db w) studentId = [student]
        /\ s_family_id student <> ""
        /\ getFamilyPaymentEligibilityData (s_family_id student) w
           = (Returned familyData, w')
        /\ log w' = log w ++ requests
        /\ full_post w (s_family_id student) familyData requests
        /\ getStudentPaymentEligibilityData read studentId w
           = (Returned match PaymentEligibility.error familyData with
                       | Some _ => familyData
                       | None => restricted studentId familyData
                       end, w')
  end.
Proof.
  unfold getStudentPaymentEligibilityData, try_catch, students_select_by_id,
    student_message, students_with_id, bind.
  destruct read as [|e|x]; [|done..].
  destruct (filter _ (students (db w))) as [|student [|]] eqn:Hrows; [done| |done].
  cbn [single ok Pg.error Pg.data]. cbv beta iota zeta.
  case_bool_decide as Hfam; [done|].
  destruct (eligibility_full (s_family_id student) w)
    as (familyData & w' & requests & Hrun & Hlog & Hpost).
  exists student, familyData, w', requests.
  split; [done|]. split; [done|]. split; [done|]. split; [done|].
  split; [done|]. split; [done|].
  rewrite Hrun.
  unfold full_post in Hpost.
  destruct (PaymentEligibility.error familyData) as [msg|] eqn:Herr; cbn.
  - pose proof (reported_error_nonempty _ _ _ _ _ Hpost Herr) as Hmsg.
    rewrite bool_decide_false by done. done.
  - unfold ret, restricted. by rewrite Herr.
Qed.

Lemma Forall2_filter_both {A B} (P : A -> B -> Prop) (f : A -> Prop) (g : B -> Prop)
    `{!forall a, Decision (f a)} `{!forall b, Decision (g b)} l1 l2 :
  (forall a b, P a b -> f a <-> g b) ->
  Forall2 P l1 l2 -> Forall2 P (filter f l1) (filter g l2).
Proof.
  intros Hfg. induction 1 as [|a b l1 l2 Hab _ IH]; [constructor|].
  rewrite !filter_cons.
  destruct (decide (f a)) as [Hf|Hf], (decide (g b)) as [Hg|Hg].
  - by constructor.
  - by apply (Hfg _ _ Hab) in Hf.
  - by apply (Hfg _ _ Hab) in Hg.
  - done.
Qed.

Lemma filter_swap {A} (P Q : A -> Prop) `{!forall a, Decision (P a)}
    `{!forall a, Decision (Q a)} (l : list A) :
  filter P (filter Q l) = filter Q (filter P l).
Proof.
  induction l as [|a l IH]; [done|].
  rewrite !(filter_cons _ a l).
  destruct (decide (Q a)), (decide (P a));
    rewrite ?filter_cons, ?decide_True, ?decide_False by done; by rewrite ?IH.
Qed.

Lemma student_of_its_family (d : Database) studentId student :
  students_with_id d studentId = [student] ->
  filter (fun s => s_id s = studentId) (family_students d (s_family_id student))
  = [student].
Proof.
  unfold students_with_id, family_students. intros Hrows.
  rewrite filter_swap, Hrows, filter_cons, decide_True by done. done.
Qed.

(** X6.  When [getStudentPaymentEligibilityData] reports no error, it
    returns exactly one detail, that of the requested student, with the
    student's names and the eligibility the check returned; everything
    else is what [getFamilyPaymentEligibilityData] returned for the
    student's family. *)
Theorem student_eligibility_has_one_detail
    (read : Fault) (studentId : string) (w : World) :
  exists r w',
    getStudentPaymentEligibilityData read studentId w = (Returned r, w')
    /\ (PaymentEligibility.error r = None ->
        exists student familyData d n,
          students_with_id (db w) studentId = [student]
          /\ getFamilyPaymentEligibilityData (s_family_id student) w
             = (Returned familyData, w')
          /\ r = restricted studentId familyData
          /\ studentPaymentDetails r = [d]
          /\ PaymentEligibility.studentId d = studentId
          /\ firstName d = s_first_name student
          /\ lastName d = s_last_name student
          /\ student_eligibility w n studentId = Returned (eligibility d)).
Proof.
  pose proof (student_run read studentId w) as Hrun.
  destruct (student_message read _) as [msg|].
  { eexists _, _. split; [exact Hrun|]. done. }
  destruct Hrun as (student & familyData & w' & requests & -> & Hrows & Hfam
                    & Hfamily & Hlog & Hpost & Hrun).
  eexists _, _. split; [exact Hrun|].
  unfold full_post in Hpost.
  destruct (PaymentEligibility.error familyData) as [msg|] eqn:Herr.
  { by rewrite Herr. }
  intros _.
  destruct Hpost as (family & sessions & discounts & _ & _ & _ & _ & _ & _ & _ & _ & Hd).
  apply (Forall2_filter_both _ (fun s => s_id s = studentId)
           (fun d => PaymentEligibility.studentId d = studentId)) in Hd.
  2: { intros s d (e & n & _ & ->). done. }
  rewrite (student_of_its_family _ _ _ Hrows) in Hd.
  apply Forall2_cons_inv_l in Hd as (d & rest & (e & n & He & Hdet) & Hrest & Hfilter).
  apply Forall2_nil_inv_l in Hrest as ->.
  assert (s_id student = studentId) as Hid.
  { assert (student ∈ students_with_id (db w) studentId) as Hin
      by (rewrite Hrows; apply elem_of_cons; by left).
    unfold students_with_id in Hin. by apply list_elem_of_filter in Hin as [? _]. }
  exists student, familyData, d, n.
  split; [done|]. split; [done|]. split; [done|].
  split; [exact Hfilter|]. rewrite Hdet. cbn. subst studentId.
  by repeat split.
Qed.

(** X7.  When the student cannot be read (the read fails or throws, or
    no single row has the id), or the student has no family,
    [getStudentPaymentEligibilityData] answers with an empty family id,
    no details and the error of that case, and asks nothing else: the
    world is as before. *)
Theorem student_eligibility_without_student
    (read : Fault) (studentId : string) (w : World) (msg : string) :
  student_message read (students_with_id (db w) studentId) = Some msg ->
  getStudentPaymentEligibilityData read studentId w
  = (Returned (failure "" None msg), w).
Proof.
  intros Hmsg. pose proof (student_run read studentId w) as Hrun.
  by rewrite Hmsg in Hrun.
Qed.

(** X7 for an id no student has. *)
Lemma student_eligibility_without_student_witness :
  student_message NoFault (students_with_id (db Sample.world) Sample.nobody)
  = Some "Could not load student information."
  /\ getStudentPaymentEligibilityData NoFault Sample.nobody Sample.world
     = (Returned (failure "" None "Could not load student information."),
        Sample.world).
Proof.
  assert (H : student_message NoFault
                (students_with_id (db Sample.world) Sample.nobody)
              = Some "Could not load student information.")
    by (vm_compute; reflexivity).
  split; [exact H|].
  exact (student_eligibility_without_student NoFault Sample.nobody Sample.world
           "Could not load student information." H).
Defined.

(** X8.  [getStudentPaymentEligibilityData] never throws, and every
    detail it returns is a detail of the requested student.  Once the
    student is read, it issues the requests of
    [getFamilyPaymentEligibilityData] for the student's family and
    passes the family's error object on unchanged. *)
Theorem student_eligibility_follows_the_family
    (read : Fault) (studentId : string) (w : World) :
  exists r w',
    getStudentPaymentEligibilityData read studentId w = (Returned r, w')
    /\ Forall (fun d => PaymentEligibility.studentId d = studentId)
         (studentPaymentDetails r)
    /\ (student_message read (students_with_id (db w) studentId) = None ->
        exists student familyData,
          students_with_id (db w) studentId = [student]
          /\ getFamilyPaymentEligibilityData (s_family_id student) w
             = (Returned familyData, w')
          /\ (PaymentEligibility.error familyData <> None -> r = familyData)
          /\ (PaymentEligibility.error familyData = None
              -> r = restricted studentId familyData)).
Proof.
  pose proof (student_run read studentId w) as Hrun.
  destruct (student_message read _) as [msg|].
  { eexists _, _. split; [exact Hrun|]. split; [constructor|done]. }
  destruct Hrun as (student & familyData & w' & requests & -> & Hrows & Hfam
                    & Hfamily & Hlog & Hpost & Hrun).
  eexists _, _. split; [exact Hrun|].
  unfold full_post in Hpost.
  destruct (PaymentEligibility.error familyData) as [msg|] eqn:Herr.
  - destruct (last requests) as [[q st]|] eqn:Hlast;
      unfold reported in Hpost; rewrite Hlast in Hpost; [|done].
    destruct Hpost as (_ & -> & _). split; [constructor|].
    intros _. exists student, familyData.
    split; [done|]. split; [done|]. split; [done|].
    intros Hnone. by rewrite Herr in Hnone.
  - split.
    { cbn. apply Forall_forall. intros d Hd. by apply list_elem_of_filter in Hd as [? _]. }
    intros _. exists student, familyData.
    split; [done|]. split; [done|]. split; [|done].
    intros Hsome. by rewrite Herr in Hsome.
Qed.


(** ** Payment eligibility per student *)


Lemma needs_payment_iff (d : StudentPaymentDetail) :
  needsPayment d
  = (bool_decide (reason (eligibility d) = "Trial")
     || bool_decide (reason (eligibility d) = "Expired")) ->
  needsPayment d = true
  <-> reason (eligibility d) = "Trial" \/ reason (eligibility d) = "Expired".
Proof.
  intros ->. rewrite orb_true_iff, !bool_decide_eq_true. done.
Qed.

Lemma counted_links d familyId sid :
  filter (fun link => ps_student_id link = sid) (succeeded_links d familyId)
  = filter (fun link => ps_student_id link = sid /\ paid_by d familyId link)
      (payment_students d).
Proof.
  unfold succeeded_links. rewrite list_filter_filter.
  apply list_filter_iff. intros link. unfold paid_by.
  rewrite Exists_exists.
  change (map p_id) with (fmap (M:=list) p_id).
  rewrite list_elem_of_fmap. setoid_rewrite list_elem_of_filter.
  split.
  - intros [Hs (p & Hp & Hf & Hin)]. split; [done|]. exists p. by destruct Hf.
  - intros [Hs (p & Hin & Hp & Hf)]. split; [done|]. by exists p.
Qed.

(** C1.  [getFamilyPaymentEligibilityData] always returns.  When the
    environment serves the family (its row and its students are there,
    the reads go through, nothing but the session fetch throws and
    [checkStudentEligibility] answers), it reports no error; when it
    reports no error there is one detail per student of the family, in
    order, carrying the eligibility [checkStudentEligibility] answered
    for that student; and in every detail [needsPayment] is true
    exactly when the reason of that eligibility is 'Trial' or
    'Expired'. *)
Theorem needs_payment_flag (familyId : string) (w : World) :
  exists r w',
    getFamilyPaymentEligibilityData familyId w = (Returned r, w')
    /\ (served w familyId -> PaymentEligibility.error r = None)
    /\ (PaymentEligibility.error r = None ->
        Forall2 (fun s d =>
                   studentId d = s_id s
                   /\ exists n, student_eligibility w n (s_id s)
                                = Returned (eligibility d))
          (filter (fun s => s_family_id s = familyId) (students (db w)))
          (studentPaymentDetails r))
    /\ Forall (fun d =>
                 needsPayment d = true
                 <-> reason (eligibility d) = "Trial"
                     \/ reason (eligibility d) = "Expired")
         (studentPaymentDetails r).
Proof.
  destruct (wp_run _ _ _ (eligibility_run familyId w))
    as (o & w' & Hrun & r & pre & e & -> & _ & _ & _ & _ & Hd).
  exists r, w'. split; [done|]. split.
  { intros Hserved.
    destruct (eligibility_succeeds familyId w Hserved) as (r2 & w2 & Hrun2 & Herr).
    rewrite Hrun in Hrun2. by injection Hrun2 as -> _. }
  destruct (PaymentEligibility.error r) as [msg|].
  - rewrite Hd. split; [done|constructor].
  - split.
    + intros _. eapply Forall2_impl; [exact Hd|].
      intros s d (Hid & _ & _ & Hel). done.
    + eapply Forall2_Forall_r; [exact Hd|].
      apply Forall_forall. intros s _ d (_ & Hn & _). by apply needs_payment_iff.
Qed.

(** C1 in the sample school, which serves the Tanakas. *)
Lemma needs_payment_flag_witness :
  served Sample.world "fam-1"
  /\ exists r w',
       getFamilyPaymentEligibilityData "fam-1" Sample.world = (Returned r, w')
       /\ PaymentEligibility.error r = None
       /\ Forall2 (fun s d =>
                     studentId d = s_id s
                     /\ exists n, student_eligibility Sample.world n (s_id s)
                                  = Returned (eligibility d))
            (filter (fun s => s_family_id s = "fam-1") (students (db Sample.world)))
            (studentPaymentDetails r)
       /\ Forall (fun d =>
                    needsPayment d = true
                    <-> reason (eligibility d) = "Trial"
                        \/ reason (eligibility d) = "Expired")
            (studentPaymentDetails r).
Proof.
  assert (H : served Sample.world "fam-1").
  { split; [exists Sample.tanaka; vm_compute; reflexivity|].
    split; [vm_compute; discriminate|].
    split; [reflexivity|]. split; [discriminate|discriminate]. }
  split; [exact H|].
  destruct (needs_payment_flag "fam-1" Sample.world)
    as (r & w' & Hrun & Hok & Hdetails & Hflag).
  exists r, w'. split; [exact Hrun|]. split; [exact (Hok H)|].
  split; [exact (Hdetails (Hok H))|exact Hflag].
Defined.

(** C2.  [getFamilyPaymentEligibilityData] always returns, and reports
    no error when the environment serves the family.  In every detail
    it returns, [pastPaymentCount] is the number of rows of
    [payment_students] whose [student_id] is that student's id and
    whose [payment_id] is the id of a payment of the family with status
    'succeeded'; when no error is reported the details are those of the
    family's students, in order. *)
Theorem past_payment_count (familyId : string) (w : World) :
  exists r w',
    getFamilyPaymentEligibilityData familyId w = (Returned r, w')
    /\ (served w familyId -> PaymentEligibility.error r = None)
    /\ (PaymentEligibility.error r = None ->
        map studentId (studentPaymentDetails r)
        = map s_id (filter (fun s => s_family_id s = familyId) (students (db w))))
    /\ Forall (fun d =>
                 pastPaymentCount d
                 = length (filter (fun link =>
                                     ps_student_id link = studentId d
                                     /\ paid_by (db w) familyId link)
                             (payment_students (db w))))
         (studentPaymentDetails r).
Proof.
  destruct (wp_run _ _ _ (eligibility_run familyId w))
    as (o & w' & Hrun & r & pre & e & -> & _ & _ & _ & _ & Hd).
  exists r, w'. split; [done|]. split.
  { intros Hserved.
    destruct (eligibility_succeeds familyId w Hserved) as (r2 & w2 & Hrun2 & Herr).
    rewrite Hrun in Hrun2. by injection Hrun2 as -> _. }
  destruct (PaymentEligibility.error r) as [msg|].
  - rewrite Hd. split; [done|constructor].
  - split.
    + intros _. fold (family_students (db w) familyId).
      induction Hd as [|s d ss ds (Hid & _) _ IH]; [done|].
      cbn. by rewrite Hid, IH.
    + eapply Forall2_Forall_r; [exact Hd|].
      apply Forall_forall. intros s _ d (Hid & _ & Hc & _).
      by rewrite Hc, counted_links, Hid.
Qed.

(** C2 in the sample school: Aiko has two counted payments, Ken one. *)
Lemma past_payment_count_witness :
  served Sample.world "fam-1"
  /\ exists r w',
       getFamilyPaymentEligibilityData "fam-1" Sample.world = (Returned r, w')
       /\ PaymentEligibility.error r = None
       /\ map studentId (studentPaymentDetails r)
          = map s_id (filter (fun s => s_family_id s = "fam-1")
                        (students (db Sample.world)))
       /\ Forall (fun d =>
                    pastPaymentCount d
                    = length (filter (fun link =>
                                        ps_student_id link = studentId d
                                        /\ paid_by (db Sample.world) "fam-1" link)
                                (payment_students (db Sample.world))))
            (studentPaymentDetails r).
Proof.
  assert (H : served Sample.world "fam-1").
  { split; [exists Sample.tanaka; vm_compute; reflexivity|].
    split; [vm_compute; discriminate|].
    split; [reflexivity|]. split; [discriminate|discriminate]. }
  split; [exact H|].
  destruct (past_payment_count "fam-1" Sample.world)
    as (r & w' & Hrun & Hok & Hdetails & Hcount).
  exists r, w'. split; [exact Hrun|]. split; [exact (Hok H)|].
  split; [exact (Hdetails (Hok H))|exact Hcount].
Defined.


(** ** Program service *)

Lemma provided_lookup (o : Obj) k :
  provided o !! k = if defined (prop o k) then Some (prop o k) else None.
Proof.
  unfold provided, prop. rewrite map_lookup_filter.
  destruct (o !! k) as [v|]; cbn; [|done].
  destruct (defined v) eqn:E; cbn.
  - rewrite option_guard_True; done.
  - rewrite option_guard_False; [done|]. cbn. congruence.
Qed.

Lemma copy_if_defined_lookup k updates (updateData : Obj) j :
  copy_if_defined k updates updateData !! j
  = if decide (j = k)
    then (if defined (prop updates k) then Some (prop updates k) else updateData !! j)
    else updateData !! j.
Proof.
  unfold copy_if_defined. destruct (decide (j = k)) as [->|Hne].
  - destruct (defined (prop updates k)); [apply lookup_insert_eq|done].
  - destruct (defined (prop updates k)); [by apply lookup_insert_ne|done].
Qed.

Lemma copy_all_lookup cols updates : forall (updateData : Obj) j,
  copy_all cols updates updateData !! j
  = if decide (j ∈ cols)
    then match provided updates !! j with
         | Some v => Some v
         | None => updateData !! j
         end
    else updateData !! j.
Proof.
  induction cols as [|k cols IH]; intros updateData j.
  - rewrite decide_False; [done|]. apply not_elem_of_nil.
  - change (copy_all (k :: cols) updates updateData)
      with (copy_all cols updates (copy_if_defined k updates updateData)).
    rewrite IH, copy_if_defined_lookup, (provided_lookup updates j).
    destruct (decide (j = k)) as [->|Hne].
    + destruct (decide (k ∈ k :: cols)) as [_|Hn]; [|exfalso; apply Hn; by left].
      destruct (decide (k ∈ cols)); by destruct (defined (prop updates k)).
    + destruct (decide (j ∈ cols)) as [Hin|Hnin];
        destruct (decide (j ∈ k :: cols)) as [Hin'|Hnin']; try done.
      * exfalso. apply Hnin'. by right.
      * exfalso. apply elem_of_cons in Hin' as [?|?]; done.
Qed.

Lemma updateProgram_payload_lookup iso updates k :
  updateProgram_payload iso updates !! k
  = if decide (k = "updated_at") then Some (VStr iso)
    else if decide (k ∈ program_columns) then provided updates !! k
    else None.
Proof.
  change (updateProgram_payload iso updates)
    with (copy_all program_columns updates {["updated_at" := VStr iso]}).
  rewrite copy_all_lookup.
  destruct (decide (k = "updated_at")) as [->|Hne].
  - rewrite decide_False; [apply lookup_singleton_eq|].
    unfold program_columns. rewrite !elem_of_cons, elem_of_nil.
    intros H. repeat (destruct H as [H|H]; [discriminate H|]). done.
  - rewrite lookup_singleton_ne by done.
    destruct (decide (k ∈ program_columns)); [|done].
    by destruct (provided updates !! k).
Qed.

Lemma updateProgram_payload_closed iso updates :
  updateProgram_payload iso updates
  = <["updated_at" := VStr iso]>
      (filter (fun kv => kv.1 ∈ program_columns) (provided updates)).
Proof.
  apply map_eq. intros k. rewrite updateProgram_payload_lookup.
  destruct (decide (k = "updated_at")) as [->|Hne].
  - by rewrite lookup_insert_eq.
  - rewrite lookup_insert_ne by done. rewrite map_lookup_filter.
    destruct (provided updates !! k) as [v|]; cbn.
    + destruct (decide (k ∈ program_columns)).
      * by rewrite option_guard_True.
      * by rewrite option_guard_False.
    + by destruct (decide (k ∈ program_columns)).
Qed.

Lemma updateProgram_run id updates w :
  let payload := updateProgram_payload (clock w (ticks w)) updates in
  let q := ProgramsUpdate payload id in
  updateProgram id updates w
  = match faults w (length (log w)) q with
    | ThrowWith x => (Threw x, record q (Raised x) (ticked w))
    | FailWith e =>
        (Threw (ThrownError ("Failed to update program: " +:+ Pg.message e)),
         record q (Failed e) (ticked w))
    | NoFault =>
        match filter (fun r => has_id id r = true) (programs (db w)) with
        | [r] =>
            (Returned (Some (write_columns payload r)),
             record q Ok
               (with_db
                  (set_programs
                     (map (fun x => if has_id id x then write_columns payload x else x)
                        (programs (db w))) (db w))
                  (ticked w)))
        | _ =>
            (Threw (ThrownError ("Failed to update program: "
                                 +:+ Pg.message not_single)),
             record q (Failed not_single) (ticked w))
        end
    end.
Proof.
  cbv zeta. unfold updateProgram, bind, programs_update, query. cbn [now log faults db].
  destruct (faults w _ _); try reflexivity.
  by destruct (filter _ _) as [|r [|]].
Qed.

Lemma write_columns_lookup payload (row : Obj) k :
  write_columns payload row !! k
  = match provided payload !! k with
    | Some v => Some v
    | None => row !! k
    end.
Proof.
  unfold write_columns, json_body. fold (provided payload).
  rewrite lookup_union. by destruct (provided payload !! k), (row !! k).
Qed.

Lemma provided_None (payload : Obj) k : payload !! k = None -> provided payload !! k = None.
Proof.
  intros H. rewrite provided_lookup. unfold prop. by rewrite H.
Qed.

(** C8, as amended.  The payload [updateProgram] issues is [updated_at]
    (the time of the call) together with exactly those of the twenty
    program columns it copies that [updates] provides with a value
    other than [undefined]; any other property of [updates] is not
    sent.  A column that is not in the payload keeps its value in
    every stored program. *)
Theorem updateProgram_frame (id : string) (updates : Obj) (w : World) :
  let payload := updateProgram_payload (clock w (ticks w)) updates in
  let w' := (updateProgram id updates w).2 in
  (exists st, log w' = log w ++ [(ProgramsUpdate payload id, st)])
  /\ payload = <["updated_at" := VStr (clock w (ticks w))]>
                 (filter (fun kv => kv.1 ∈ program_columns) (provided updates))
  /\ Forall2 (fun stored stored' : Obj =>
                forall k, payload !! k = None -> stored' !! k = stored !! k)
       (programs (db w)) (programs (db w')).
Proof.
  cbv zeta. rewrite updateProgram_run. cbv zeta.
  split; [|split].
  - destruct (faults w _ _); [destruct (filter _ _) as [|r [|]]|..]; by eexists.
  - apply updateProgram_payload_closed.
  - assert (Hsame : Forall2 (fun stored stored' : Obj =>
                forall k, updateProgram_payload (clock w (ticks w)) updates !! k = None
                          -> stored' !! k = stored !! k)
       (programs (db w)) (programs (db w))).
    { apply Forall2_same_length_lookup_2; [done|]. intros i x y ? ?. by simplify_eq. }
    destruct (faults w _ _); [destruct (filter _ _) as [|r [|]]|..]; try exact Hsame.
    cbn [snd db record with_db set_programs programs].
    change (map ?f ?l) with (f <$> l).
    apply Forall2_fmap_r. eapply Forall2_impl; [exact Hsame|].
    intros x y Hxy k Hk. cbn. destruct (has_id id y); [|by apply Hxy].
    rewrite write_columns_lookup, provided_None by done. by apply Hxy.
Qed.

(** C8 as stated fails: a property of [updates] that is not one of the
    copied columns, here [id], is defined and yet not in the payload. *)
Lemma updateProgram_ignores_other_properties :
  let updates : Obj := {["id" := VStr "prog-1"]} in
  updateProgram_payload "2025-06-01T10:00:00.000Z" updates
  <> <["updated_at" := VStr "2025-06-01T10:00:00.000Z"]> (provided updates).
Proof.
  cbv zeta. intros H. apply (f_equal (fun m : Obj => m !! "id")) in H.
  vm_compute in H. discriminate H.
Qed.

Lemma createProgram_run programData w :
  let q := ProgramsInsert (createProgram_payload programData) in
  createProgram programData w
  = match faults w (length (log w)) q with
    | ThrowWith x => (Threw x, record q (Raised x) w)
    | FailWith e =>
        (Threw (ThrownError ("Failed to create program: " +:+ Pg.message e)),
         record q (Failed e) w)
    | NoFault =>
        let row := <["id" := VStr (next_program_id (db w) (length (programs (db w))))]>
                     (json_body (createProgram_payload programData)) in
        (Returned (Some row),
         record q Ok (with_db (set_programs (programs (db w) ++ [row]) (db w)) w))
    end.
Proof.
  cbv zeta. unfold createProgram, bind, programs_insert, query.
  by destruct (faults w _ _).
Qed.


(** C10.  [checkProgramEligibility] always returns, after one call of
    the database function, and [eligible] holds exactly when [reasons]
    is empty.  When the environment lets the call through, the answer
    is [{eligible: true, reasons: []}] if the database function yields
    a truthy value, and [eligible] is false with a non-empty [reasons]
    if it yields a falsy one; when the environment answers the call
    with an error or makes it throw, [eligible] is false with a
    non-empty [reasons]. *)
Theorem program_eligibility_invariant (programId studentId : string) (w : World) :
  exists r,
    ProgramService.checkProgramEligibility programId studentId w
    = (Returned r,
       record (RpcCheckProgramEligibility studentId programId)
         (fate (faults w (length (log w))
                  (RpcCheckProgramEligibility studentId programId))) w)
    /\ (ProgramService.eligible r = true <-> ProgramService.reasons r = [])
    /\ match faults w (length (log w))
               (RpcCheckProgramEligibility studentId programId) with
       | NoFault =>
           if truthy (check_program_eligibility (db w) studentId programId)
           then r = {| ProgramService.eligible := true;
                       ProgramService.reasons := [] |}
           else ProgramService.eligible r = false
                /\ ProgramService.reasons r <> []
       | FailWith _ | ThrowWith _ =>
           ProgramService.eligible r = false /\ ProgramService.reasons r <> []
       end.
Proof.
  unfold ProgramService.checkProgramEligibility, try_catch, bind,
    rpc_check_program_eligibility, query.
  destruct (faults w (length (log w)) (RpcCheckProgramEligibility studentId programId))
    as [|e|x] eqn:Hf.
  - simpl.
    destruct (truthy (check_program_eligibility (db w) studentId programId)) eqn:Ht.
    + eexists. split; [reflexivity|]. by split.
    + eexists. split; [reflexivity|]. cbn. by repeat split.
  - eexists. split; [reflexivity|]. cbn. by repeat split.
  - eexists. split; [reflexivity|]. cbn. by repeat split.
Qed.

(** ** Edit routes *)

Lemma require_lookup v k msg (fieldErrors : gmap string string) j :
  require v k msg fieldErrors !! j
  = if decide (j = k)
    then (if blank v then Some msg else fieldErrors !! j)
    else fieldErrors !! j.
Proof.
  unfold require. destruct (decide (j = k)) as [->|Hne]; destruct (blank v); try done.
  - apply lookup_insert_eq.
  - by apply lookup_insert_ne.
Qed.

Lemma collect_lookup formData required : forall (fieldErrors : gmap string string) k msg,
  NoDup required.*1 ->
  (forall kf, kf ∈ required -> fieldErrors !! kf.1 = None) ->
  collect required formData fieldErrors !! k = Some msg
  <-> ((k, msg) ∈ required /\ blank (formData !! k) = true)
      \/ fieldErrors !! k = Some msg.
Proof.
  induction required as [|[k0 msg0] required IH]; intros fieldErrors k msg Hnd Hfree.
  - cbn. split; [by right|]. intros [[H _]|H]; [by apply elem_of_nil in H|done].
  - change (collect ((k0, msg0) :: required) formData fieldErrors)
      with (collect required formData
              (require (formData !! k0) k0 msg0 fieldErrors)).
    apply NoDup_cons in Hnd as [Hk0 Hnd].
    rewrite IH; [|done|].
    + rewrite require_lookup, elem_of_cons.
      destruct (decide (k = k0)) as [->|Hne].
      * assert (fieldErrors !! k0 = None) as Hnone
            by (apply (Hfree (k0, msg0)); by left).
        rewrite Hnone.
        destruct (blank (formData !! k0)) eqn:Hb.
        -- split.
           ++ intros [[H ?]|H]; [left; split; [by right|done]|].
              injection H as <-. left. split; [by left|done].
           ++ intros [[[H|H] _]|H]; [injection H as ->; by right| |done].
              exfalso. apply Hk0. apply list_elem_of_fmap. by exists (k0, msg).
        -- split.
           ++ intros [[H ?]|H]; [congruence|done].
           ++ intros [[_ ?]|H]; [congruence|done].
      * split.
        -- intros [[H ?]|H]; [left; split; [by right|done]|by right].
        -- intros [[[H|H] ?]|H]; [congruence|by left|by right].
    + intros kf Hkf. rewrite require_lookup.
      destruct (decide (kf.1 = k0)) as [Heq|Hne]; [|apply Hfree; by right].
      exfalso. apply Hk0. apply list_elem_of_fmap. by exists kf.
Qed.

Lemma family_field_errors_lookup formData k msg :
  family_field_errors formData !! k = Some msg
  <-> (k, msg) ∈ family_required /\ blank (formData !! k) = true.
Proof.
  unfold family_field_errors. rewrite collect_lookup.
  - rewrite lookup_empty. split; [by intros [?|?]|by left].
  - vm_compute. repeat constructor; rewrite ?elem_of_cons, ?elem_of_nil; intuition congruence.
  - intros. apply lookup_empty.
Qed.

Lemma family_action_validates fid formData w :
  blank (Some fid) = false ->
  FamilyEdit.action (Some fid) formData w
  = if bool_decide (0 < size (family_field_errors formData)) then
      (Returned (Json 400 {| success := None; message := None;
                             Route.error := Some "Validation failed";
                             fieldErrors := Some (family_field_errors formData) |}), w)
    else if negb (configured (env w !! "SUPABASE_URL")
                    (env w !! "SUPABASE_SERVICE_ROLE_KEY")) then
      (Returned (Json 500 {| success := None; message := None;
                             Route.error := Some "Server configuration error";
                             fieldErrors := None |}), w)
    else
      let q := FamiliesUpdate (family_payload formData (clock w (ticks w))) fid in
      match faults w (length (log w)) q with
      | ThrowWith x => (Threw x, record q (Raised x) (ticked w))
      | FailWith e =>
          (Returned (Json 500 {| success := None; message := None;
                                 Route.error := Some ("Database error: " +:+ Pg.message e);
                                 fieldErrors := None |}),
           record q (Failed e) (ticked w))
      | NoFault =>
          (Returned (Redirect ("/admin/families/" +:+ fid)),
           record q Ok
             (with_db
                (set_families
                   (map (fun r => if bool_decide (f_id r = fid)
                                  then write_family
                                         (family_payload formData (clock w (ticks w))) r
                                  else r)
                      (families (db w))) (db w))
                (ticked w)))
      end.
Proof.
  intros Hfid. unfold FamilyEdit.action. rewrite Hfid.
  change (require (formData !! "primary_phone") _ _ _)
    with (family_field_errors formData).
  destruct (bool_decide (0 < size (family_field_errors formData))); [done|].
  unfold bind at 1. unfold process_env at 1. unfold bind at 1. unfold process_env at 1.
  destruct (negb (configured _ _)); [done|].
  cbv zeta. unfold bind, families_update, query. cbn [now log faults db default from_option Datatypes.id].
  fold (family_payload formData (clock w (ticks w))).
  by destruct (faults w _ _).
Qed.

(** C6.  A family-edit submission in which a required field (name,
    email, address, city, province, postal_code, primary_phone) is
    missing or empty is answered with status 400 and a [fieldErrors]
    object that holds, for exactly the missing required fields, the
    message of that field; the world is returned as it was: no request
    is issued and no row is written. *)
Theorem family_edit_requires_fields (familyId : string) (formData : FormData) (w : World) :
  familyId <> "" ->
  Exists (fun kf => blank (formData !! kf.1) = true) family_required ->
  exists errors,
    FamilyEdit.action (Some familyId) formData w
    = (Returned (Json 400 {| success := None; message := None;
                             Route.error := Some "Validation failed";
                             fieldErrors := Some errors |}), w)
    /\ forall k msg,
         errors !! k = Some msg
         <-> (k, msg) ∈ family_required /\ blank (formData !! k) = true.
Proof.
  intros Hfid Hmissing. exists (family_field_errors formData).
  split; [|apply family_field_errors_lookup].
  rewrite family_action_validates by (by apply bool_decide_eq_false).
  rewrite bool_decide_eq_true_2; [done|].
  apply Exists_exists in Hmissing as ([k msg] & Hin & Hb).
  assert (family_field_errors formData !! k = Some msg) as Hk
    by (by apply family_field_errors_lookup).
  assert (size (family_field_errors formData) <> 0); [|lia].
  apply map_size_non_empty_iff. intros He. by rewrite He, lookup_empty in Hk.
Qed.

(** ** Repeating an update *)

Lemma payload_has_no_id iso updates : updateProgram_payload iso updates !! "id" = None.
Proof.
  rewrite updateProgram_payload_lookup.
  rewrite decide_False by done. rewrite decide_False; [done|].
  unfold program_columns. rewrite !elem_of_cons, elem_of_nil.
  intros H. repeat (destruct H as [H|H]; [discriminate H|]). done.
Qed.

Lemma has_id_write_columns id iso updates stored :
  has_id id (write_columns (updateProgram_payload iso updates) stored) = has_id id stored.
Proof.
  unfold has_id, prop.
  by rewrite write_columns_lookup, provided_None by apply payload_has_no_id.
Qed.

Lemma provided_payload_updated_at iso updates :
  provided (updateProgram_payload iso updates) !! "updated_at" = Some (VStr iso).
Proof.
  rewrite provided_lookup. unfold prop.
  rewrite updateProgram_payload_lookup, decide_True by done. done.
Qed.

Lemma provided_payload_other iso iso' updates k :
  k <> "updated_at" ->
  provided (updateProgram_payload iso updates) !! k
  = provided (updateProgram_payload iso' updates) !! k.
Proof.
  intros Hk. rewrite !provided_lookup. unfold prop.
  rewrite !updateProgram_payload_lookup.
  by rewrite !(decide_False (P := k = "updated_at")) by done.
Qed.

Lemma write_columns_again iso iso' updates stored :
  write_columns (updateProgram_payload iso' updates)
    (write_columns (updateProgram_payload iso updates) stored)
  = touch_program iso' (write_columns (updateProgram_payload iso updates) stored).
Proof.
  apply map_eq. intros k. unfold touch_program.
  rewrite write_columns_lookup.
  destruct (decide (k = "updated_at")) as [->|Hk].
  - by rewrite provided_payload_updated_at, lookup_insert_eq.
  - rewrite lookup_insert_ne by done.
    rewrite (provided_payload_other iso' iso) by done.
    rewrite write_columns_lookup.
    by destruct (provided (updateProgram_payload iso updates) !! k).
Qed.

Lemma filter_fmap_stable {A} (P : A -> Prop) `{!forall x, Decision (P x)}
    (f : A -> A) (l : list A) :
  (forall x, P (f x) <-> P x) -> filter P (f <$> l) = f <$> filter P l.
Proof.
  intros Hf. induction l as [|x l IH]; [done|].
  rewrite fmap_cons, !filter_cons.
  destruct (decide (P (f x))) as [Hfx|Hfx], (decide (P x)) as [Hx|Hx].
  - by rewrite fmap_cons, IH.
  - destruct Hx. by apply Hf.
  - destruct Hfx. by apply Hf.
  - done.
Qed.

Lemma updateProgram_twice id updates row w :
  (forall n q, faults w n q = NoFault) ->
  filter (fun r => has_id id r = true) (programs (db w)) = [row] ->
  let w1 := (updateProgram id updates w).2 in
  let w2 := (updateProgram id updates w1).2 in
  programs (db w2)
  = map (fun stored => if has_id id stored
                       then touch_program (clock w (S (ticks w))) stored
                       else stored)
      (programs (db w1)).
Proof.
  intros Hquiet Hrow. cbv zeta.
  rewrite (updateProgram_run id updates w). cbv zeta. rewrite Hquiet, Hrow.
  cbn [snd].
  set (p1 := updateProgram_payload (clock w (ticks w)) updates).
  set (w1 := record _ _ _).
  rewrite (updateProgram_run id updates w1). cbv zeta.
  assert (faults w1 = faults w) as -> by reflexivity. rewrite Hquiet.
  assert (programs (db w1)
          = (fun x => if has_id id x then write_columns p1 x else x)
              <$> programs (db w)) as Hp1 by reflexivity.
  rewrite Hp1, filter_fmap_stable, Hrow.
  2:{ intros x. destruct (has_id id x) eqn:E; [|by rewrite E].
      unfold p1. by rewrite has_id_write_columns, E. }
  cbn [fmap list_fmap snd db record with_db set_programs programs].
  change (map ?f ?l) with (f <$> l).
  rewrite <- !list_fmap_compose. apply list_fmap_ext. intros i x _. cbn.
  destruct (has_id id x) eqn:E.
  - unfold p1. rewrite has_id_write_columns, E.
    apply write_columns_again.
  - by rewrite E.
Qed.

Lemma family_field_errors_none formData :
  Forall (fun kf : string * string => blank (formData !! kf.1) = false) family_required ->
  family_field_errors formData = ∅.
Proof.
  intros Hall. apply map_empty. intros k.
  destruct (family_field_errors formData !! k) as [msg|] eqn:Hk; [|done].
  apply family_field_errors_lookup in Hk as [Hin Hb].
  rewrite Forall_forall in Hall. specialize (Hall _ Hin). cbn in Hall. congruence.
Qed.

Lemma family_action_updates fid formData w :
  fid <> "" ->
  Forall (fun kf : string * string => blank (formData !! kf.1) = false) family_required ->
  configured (env w !! "SUPABASE_URL") (env w !! "SUPABASE_SERVICE_ROLE_KEY") = true ->
  faults w (length (log w))
    (FamiliesUpdate (family_payload formData (clock w (ticks w))) fid) = NoFault ->
  FamilyEdit.action (Some fid) formData w
  = (Returned (Redirect ("/admin/families/" +:+ fid)),
     record (FamiliesUpdate (family_payload formData (clock w (ticks w))) fid) Ok
       (with_db
          (set_families
             (map (fun r => if bool_decide (f_id r = fid)
                            then write_family
                                   (family_payload formData (clock w (ticks w))) r
                            else r)
                (families (db w))) (db w))
          (ticked w))).
Proof.
  intros Hfid Hform Henv Hfault.
  rewrite family_action_validates by (by apply bool_decide_eq_false).
  rewrite family_field_errors_none, map_size_empty by done.
  rewrite bool_decide_eq_false_2 by lia. rewrite Henv. cbn [negb]. cbv zeta.
  by rewrite Hfault.
Qed.

Lemma family_action_twice fid formData w :
  (forall n q, faults w n q = NoFault) ->
  fid <> "" ->
  Forall (fun kf : string * string => blank (formData !! kf.1) = false) family_required ->
  configured (env w !! "SUPABASE_URL") (env w !! "SUPABASE_SERVICE_ROLE_KEY") = true ->
  let w1 := (FamilyEdit.action (Some fid) formData w).2 in
  let w2 := (FamilyEdit.action (Some fid) formData w1).2 in
  families (db w2)
  = map (fun stored => if bool_decide (f_id stored = fid)
                       then touch_family (clock w (S (ticks w))) stored
                       else stored)
      (families (db w1)).
Proof.
  intros Hquiet Hfid Hform Henv. cbv zeta.
  rewrite (family_action_updates fid formData w) by done. cbn [snd].
  set (w1 := record _ _ _).
  rewrite (family_action_updates fid formData w1); [|done|done|done|apply Hquiet].
  cbn [snd db record with_db set_families families w1].
  change (map ?f ?l) with (f <$> l).
  rewrite <- !list_fmap_compose. apply list_fmap_ext. intros i x _. cbn.
  destruct (bool_decide (f_id x = fid)) eqn:E; cbn; by rewrite E.
Qed.


Lemma nothing_to_update {A} (P : A -> bool) (f : A -> A) (l : list A) :
  Forall (fun x => P x = false) l -> map (fun x => if P x then f x else x) l = l.
Proof.
  induction 1 as [|x l Hx _ IH]; [done|]. cbn. by rewrite Hx, IH.
Qed.

Lemma family_action_missing_id fid formData w :
  fid <> "" ->
  Forall (fun kf : string * string => blank (formData !! kf.1) = false) family_required ->
  configured (env w !! "SUPABASE_URL") (env w !! "SUPABASE_SERVICE_ROLE_KEY") = true ->
  faults w (length (log w))
    (FamiliesUpdate (family_payload formData (clock w (ticks w))) fid) = NoFault ->
  Forall (fun r => f_id r <> fid) (families (db w)) ->
  let run := FamilyEdit.action (Some fid) formData w in
  run.1 = Returned (Redirect ("/admin/families/" +:+ fid))
  /\ families (db run.2) = families (db w).
Proof.
  intros Hfid Hform Henv Hfault Hnone. cbv zeta.
  rewrite family_action_updates by done. split; [done|].
  cbn [snd db record with_db set_families families].
  apply (nothing_to_update (fun r => bool_decide (f_id r = fid))).
  eapply Forall_impl; [exact Hnone|]. intros r Hr. by apply bool_decide_eq_false.
Qed.

(** C5.  Both edit actions, asked to update an id that no row has,
    report success: the family action redirects to the family page and
    the student action answers [{success: true}]; no row is written. *)
Theorem update_of_missing_record_reports_success :
  let familyRun :=
    FamilyEdit.action (Some Sample.nobody) Sample.family_form Sample.world in
  let studentRun :=
    StudentEdit.action (Some Sample.nobody) Sample.student_form Sample.world in
  Forall (fun r => f_id r <> Sample.nobody) (families Sample.database)
  /\ Forall (fun r => s_id r <> Sample.nobody) (students Sample.database)
  /\ familyRun.1
     = Returned (Redirect "/admin/families/00000000-0000-4000-8000-000000000000")
  /\ families (db familyRun.2) = families Sample.database
  /\ log familyRun.2
     = [ (FamiliesUpdate
            (family_payload Sample.family_form "2025-06-01T10:00:00.000Z")
            Sample.nobody, Ok) ]
  /\ studentRun.1
     = Returned (Json 200 {| success := Some true;
                             message := Some "Student details updated successfully.";
                             Route.error := None; fieldErrors := None |})
  /\ students (db studentRun.2) = students Sample.database.
Proof.
  cbv zeta. split; [|split].
  - repeat constructor; discriminate.
  - repeat constructor; discriminate.
  - vm_compute. done.
Qed.

(** C6 at a concrete submission: the name is empty and the email is
    absent. *)
Lemma family_edit_requires_fields_witness :
  "fam-1" <> ""
  /\ Exists (fun kf : string * string =>
               blank (Sample.incomplete_form !! kf.1) = true) family_required
  /\ exists errors,
       FamilyEdit.action (Some "fam-1") Sample.incomplete_form Sample.world
       = (Returned (Json 400 {| success := None; message := None;
                                Route.error := Some "Validation failed";
                                fieldErrors := Some errors |}), Sample.world)
       /\ forall k msg,
            errors !! k = Some msg
            <-> (k, msg) ∈ family_required
                /\ blank (Sample.incomplete_form !! k) = true.
Proof.
  assert (H1 : "fam-1" <> "") by discriminate.
  assert (H2 : Exists (fun kf : string * string =>
                         blank (Sample.incomplete_form !! kf.1) = true)
                 family_required)
    by (apply Exists_cons_hd; vm_compute; reflexivity).
  split; [exact H1|]. split; [exact H2|].
  exact (family_edit_requires_fields "fam-1" Sample.incomplete_form Sample.world H1 H2).
Defined.

(** C7, as amended.  With nothing failing, applying an update a second
    time with the same values leaves every stored row as it was after
    the first application, except that [updated_at] of the updated row
    becomes the time of the second application: so for [updateProgram]
    at an existing program, and so for the family-edit action with a
    complete form on a configured server. *)
Theorem repeated_update_moves_updated_at (w : World) (id : string)
    (updates row : Obj) (familyId : string) (formData : FormData) :
  (forall n q, faults w n q = NoFault) ->
  (filter (fun r => has_id id r = true) (programs (db w)) = [row] ->
   let w1 := (updateProgram id updates w).2 in
   let w2 := (updateProgram id updates w1).2 in
   programs (db w2)
   = map (fun stored => if has_id id stored
                        then touch_program (clock w (S (ticks w))) stored
                        else stored)
       (programs (db w1)))
  /\ (familyId <> "" ->
      Forall (fun kf : string * string => blank (formData !! kf.1) = false)
        family_required ->
      configured (env w !! "SUPABASE_URL") (env w !! "SUPABASE_SERVICE_ROLE_KEY")
      = true ->
      let w1 := (FamilyEdit.action (Some familyId) formData w).2 in
      let w2 := (FamilyEdit.action (Some familyId) formData w1).2 in
      families (db w2)
      = map (fun stored => if bool_decide (f_id stored = familyId)
                           then touch_family (clock w (S (ticks w))) stored
                           else stored)
          (families (db w1))).
Proof.
  intros Hquiet. split.
  - intros Hrow. by apply (updateProgram_twice id updates row).
  - intros Hfid Hform Henv. by apply family_action_twice.
Qed.

Lemma repeated_update_moves_updated_at_witness :
  (forall n q, faults Sample.world n q = NoFault)
  /\ filter (fun r => has_id "prog-1" r = true) (programs (db Sample.world))
     = [Sample.kids]
  /\ "fam-1" <> ""
  /\ Forall (fun kf : string * string => blank (Sample.family_form !! kf.1) = false)
       family_required
  /\ configured (env Sample.world !! "SUPABASE_URL")
       (env Sample.world !! "SUPABASE_SERVICE_ROLE_KEY") = true
  /\ (let w1 := (updateProgram "prog-1" Sample.rename Sample.world).2 in
      let w2 := (updateProgram "prog-1" Sample.rename w1).2 in
      programs (db w2)
      = map (fun stored => if has_id "prog-1" stored
                           then touch_program
                                  (clock Sample.world (S (ticks Sample.world))) stored
                           else stored)
          (programs (db w1)))
  /\ (let w1 := (FamilyEdit.action (Some "fam-1") Sample.family_form Sample.world).2 in
      let w2 := (FamilyEdit.action (Some "fam-1") Sample.family_form w1).2 in
      families (db w2)
      = map (fun stored => if bool_decide (f_id stored = "fam-1")
                           then touch_family
                                  (clock Sample.world (S (ticks Sample.world))) stored
                           else stored)
          (families (db w1))).
Proof.
  assert (H1 : forall n q, faults Sample.world n q = NoFault) by reflexivity.
  assert (H2 : filter (fun r => has_id "prog-1" r = true) (programs (db Sample.world))
               = [Sample.kids]) by (vm_compute; reflexivity).
  assert (H3 : "fam-1" <> "") by discriminate.
  assert (H4 : Forall (fun kf : string * string =>
                         blank (Sample.family_form !! kf.1) = false) family_required)
    by (repeat constructor; vm_compute; reflexivity).
  assert (H5 : configured (env Sample.world !! "SUPABASE_URL")
                 (env Sample.world !! "SUPABASE_SERVICE_ROLE_KEY") = true)
    by (vm_compute; reflexivity).
  split; [exact H1|]. split; [exact H2|]. split; [exact H3|].
  split; [exact H4|]. split; [exact H5|].
  destruct (repeated_update_moves_updated_at Sample.world "prog-1" Sample.rename
              Sample.kids "fam-1" Sample.family_form H1) as [Hprogram Hfamily].
  split; [exact (Hprogram H2)|exact (Hfamily H3 H4 H5)].
Defined.

(** C7 as stated fails: the second identical [updateProgram] rewrites
    [updated_at], so the stored program is not as the first left it. *)
Lemma second_update_rewrites_updated_at :
  let w1 := (updateProgram "prog-1" Sample.rename Sample.world).2 in
  let w2 := (updateProgram "prog-1" Sample.rename w1).2 in
  (programs (db w1) !! 0%nat) ≫= (fun stored : Obj => stored !! "updated_at")
  = Some (VStr "2025-06-01T10:00:00.000Z")
  /\ (programs (db w2) !! 0%nat) ≫= (fun stored : Obj => stored !! "updated_at")
     = Some (VStr "2025-06-01T10:05:00.000Z")
  /\ programs (db w2) <> programs (db w1).
Proof.
  cbv zeta. split; [by vm_compute|]. split; [by vm_compute|].
  intros H.
  apply (f_equal (fun l : list Obj =>
                    (l !! 0%nat) ≫= (fun stored : Obj => stored !! "updated_at"))) in H.
  vm_compute in H. discriminate H.
Qed.


(** ** Programs: lookups and round trips *)

Lemma checkProgramEligibility_run programId studentId w :
  let q := RpcCheckProgramEligibility studentId programId in
  checkProgramEligibility programId studentId w
  = match faults w (length (log w)) q with
    | NoFault =>
        (Returned
           (if truthy (check_program_eligibility (db w) studentId programId)
            then {| eligible := true; reasons := [] |}
            else {| eligible := false;
                    reasons := ["Student does not meet program requirements"] |}),
         record q Ok w)
    | FailWith e =>
        (Returned {| eligible := false; reasons := ["Error checking eligibility"] |},
         record q (Failed e) w)
    | ThrowWith x =>
        (Returned {| eligible := false;
                     reasons := ["System error checking eligibility"] |},
         record q (Raised x) w)
    end.
Proof.
  cbv zeta. unfold checkProgramEligibility, try_catch, bind,
    rpc_check_program_eligibility, query.
  destruct (faults w _ _); try reflexivity. simpl.
  by destruct (truthy _).
Qed.

Lemma eligible_among_run studentId allPrograms : forall w,
  exists result requests,
    eligible_among studentId allPrograms w
    = (Returned result,
       {| db := db w; log := log w ++ requests; faults := faults w;
          student_eligibility := student_eligibility w;
          site_pricing_monthly := site_pricing_monthly w; env := env w;
          clock := clock w; ticks := ticks w |})
    /\ result `sublist_of` allPrograms
    /\ map fst requests
       = map (fun program => RpcCheckProgramEligibility studentId (program_id program))
           allPrograms
    /\ ((forall n q, faults w n q = NoFault) ->
        result = filter (fun program =>
                           truthy (check_program_eligibility (db w) studentId
                                     (program_id program)) = true) allPrograms).
Proof.
  induction allPrograms as [|program rest IH]; intros w.
  - exists [], []. rewrite app_nil_r. cbn. by destruct w.
  - cbn [eligible_among]. unfold bind at 1. rewrite checkProgramEligibility_run. cbv zeta.
    set (q := RpcCheckProgramEligibility studentId (program_id program)).
    destruct (faults w (length (log w)) q) as [|e|x] eqn:Hf.
    + destruct (IH (record q Ok w)) as (result & requests & Hrun & Hsub & Hreq & Hquiet).
      unfold bind. rewrite Hrun.
      destruct (truthy (check_program_eligibility (db w) studentId (program_id program)))
        eqn:Ht; cbn [eligible].
      * exists (program :: result), ((q, Ok) :: requests).
        split; [cbn; by rewrite <- app_assoc|].
        split; [by apply sublist_skip|]. split; [cbn; by rewrite Hreq|].
        intros Hq. rewrite filter_cons. cbn in Hquiet. rewrite Ht.
        rewrite decide_True by done. by rewrite Hquiet.
      * exists result, ((q, Ok) :: requests).
        split; [cbn; by rewrite <- app_assoc|].
        split; [by apply sublist_cons|]. split; [cbn; by rewrite Hreq|].
        intros Hq. rewrite filter_cons. cbn in Hquiet. rewrite Ht.
        rewrite decide_False by done. by rewrite Hquiet.
    + destruct (IH (record q (Failed e) w)) as (result & requests & Hrun & Hsub & Hreq & _).
      unfold bind. rewrite Hrun. cbn [eligible].
      exists result, ((q, Failed e) :: requests).
      split; [cbn; by rewrite <- app_assoc|].
      split; [by apply sublist_cons|]. split; [cbn; by rewrite Hreq|].
      intros Hq. by rewrite Hq in Hf.
    + destruct (IH (record q (Raised x) w)) as (result & requests & Hrun & Hsub & Hreq & _).
      unfold bind. rewrite Hrun. cbn [eligible].
      exists result, ((q, Raised x) :: requests).
      split; [cbn; by rewrite <- app_assoc|].
      split; [by apply sublist_cons|]. split; [cbn; by rewrite Hreq|].
      intros Hq. by rewrite Hq in Hf.
Qed.

Lemma getPrograms_run filters w :
  let q := ProgramsSelect (is_active filters) (effective_search filters) in
  getPrograms filters w
  = match faults w (length (log w)) q with
    | NoFault =>
        (Returned
           (merge_sort (by_name (db w))
              (match effective_search filters with
               | Some s =>
                   filter (fun r => ilike (db w) (prop r "name") ("%" +:+ s +:+ "%")
                                    || ilike (db w) (prop r "description")
                                         ("%" +:+ s +:+ "%") = true)
               | None => fun rows => rows
               end
                 (match is_active filters with
                  | Some b => filter (fun r => has_is_active b r = true) (programs (db w))
                  | None => programs (db w)
                  end))),
         record q Ok w)
    | FailWith e =>
        (Threw (ThrownError ("Failed to fetch programs: " +:+ Pg.message e)),
         record q (Failed e) w)
    | ThrowWith x => (Threw x, record q (Raised x) w)
    end.
Proof.
  cbv zeta. unfold getPrograms, bind, programs_select, query.
  fold (effective_search filters).
  destruct (faults w _ _); try reflexivity.
  by destruct (effective_search filters), (is_active filters).
Qed.

Lemma eligible_among_exact studentId allPrograms : forall w,
  eligible_among studentId allPrograms w
  = (Returned (kept_from (faults w) (db w) studentId (length (log w)) allPrograms),
     extend_log (checks_from (faults w) studentId (length (log w)) allPrograms) w).
Proof.
  induction allPrograms as [|program rest IH]; intros w.
  - cbn. unfold ret, extend_log. rewrite app_nil_r. by destruct w.
  - cbn [eligible_among kept_from checks_from]. unfold bind at 1.
    rewrite checkProgramEligibility_run. cbv zeta. unfold passes.
    set (q := RpcCheckProgramEligibility studentId (program_id program)).
    assert (forall st, length (log (record q st w)) = S (length (log w))) as Hlen.
    { intros st. cbn. rewrite length_app. cbn. lia. }
    assert (forall st l, extend_log l (record q st w) = extend_log ((q, st) :: l) w)
      as Hlog.
    { intros st l. unfold extend_log, record. cbn. by rewrite <- app_assoc. }
    destruct (faults w (length (log w)) q) as [|e|x]; unfold bind; rewrite IH, Hlen, Hlog.
    + cbn [faults db record fate].
      by destruct (truthy (check_program_eligibility (db w) studentId
                             (program_id program))).
    + done.
    + done.
Qed.

(** X9.  [getProgramsForStudent] reads the active programs once.  When
    that read fails or throws, it throws and checks nothing.  Otherwise
    it checks every active program for the student, in their order,
    whatever the earlier checks gave, writes nothing, and returns, in
    that order, exactly the programs whose own check went through with
    a truthy answer: a check that is answered with an error or throws
    leaves its program out, and only that one. *)
Theorem programs_for_student_tolerates_failed_checks (studentId : string) (w : World) :
  let q := ProgramsSelect (Some true) None in
  let first := S (length (log w)) in
  getProgramsForStudent studentId w
  = match faults w (length (log w)) q with
    | NoFault =>
        (Returned (kept_from (faults w) (db w) studentId first
                     (active_programs (db w))),
         extend_log ((q, Ok) :: checks_from (faults w) studentId first
                                   (active_programs (db w))) w)
    | FailWith e =>
        (Threw (ThrownError ("Failed to fetch programs: " +:+ Pg.message e)),
         record q (Failed e) w)
    | ThrowWith x => (Threw x, record q (Raised x) w)
    end.
Proof.
  cbv zeta. unfold getProgramsForStudent, bind.
  rewrite (getPrograms_run active_only). cbv zeta.
  change (is_active active_only) with (Some true).
  change (effective_search active_only) with (@None string).
  destruct (faults w _ _) as [|e|x]; [|done..].
  fold (active_programs (db w)).
  rewrite eligible_among_exact.
  cbn [faults db log record]. rewrite length_app. cbn [length].
  rewrite Nat.add_1_r. f_equal.
  unfold extend_log, record. cbn. by rewrite <- app_assoc.
Qed.

(** X10.  When no request fails, [getProgramsForStudent] returns
    exactly the active programs, ordered by name, for which the
    database function [check_program_eligibility] answers a truthy
    value for the student. *)
Theorem programs_for_student_are_the_eligible_active_ones (studentId : string)
    (w : World) :
  (forall n q, faults w n q = NoFault) ->
  (getProgramsForStudent studentId w).1
  = Returned (filter (fun program =>
                        truthy (check_program_eligibility (db w) studentId
                                  (program_id program)) = true)
                (active_programs (db w))).
Proof.
  intros Hquiet. unfold getProgramsForStudent, bind.
  rewrite (getPrograms_run active_only). cbv zeta. rewrite Hquiet.
  change (is_active active_only) with (Some true).
  change (effective_search active_only) with (@None string).
  cbv beta iota. fold (active_programs (db w)).
  destruct (eligible_among_run studentId (active_programs (db w))
              (record (ProgramsSelect (Some true) None) Ok w))
    as (result & requests & -> & _ & _ & Hexact).
  cbn [fst]. f_equal. by apply Hexact.
Qed.

(** X10 in the sample school. *)
Lemma programs_for_student_are_the_eligible_active_ones_witness :
  (forall n q, faults Sample.world n q = NoFault)
  /\ (getProgramsForStudent "stu-1" Sample.world).1
     = Returned (filter (fun program =>
                           truthy (check_program_eligibility (db Sample.world) "stu-1"
                                     (program_id program)) = true)
                   (active_programs (db Sample.world))).
Proof.
  assert (H : forall n q, faults Sample.world n q = NoFault) by reflexivity.
  split; [exact H|].
  exact (programs_for_student_are_the_eligible_active_ones "stu-1" Sample.world H).
Defined.

Lemma list_to_map_columns (f : string -> Value) (cols : list string) k :
  (list_to_map ((fun c => (c, f c)) <$> cols) : Obj) !! k
  = if decide (k ∈ cols) then Some (f k) else None.
Proof.
  induction cols as [|c cols IH].
  - rewrite decide_False by apply not_elem_of_nil. apply lookup_empty.
  - rewrite fmap_cons. cbn [list_to_map foldr]. fold (@list_to_map string Value Obj _ _).
    destruct (decide (k = c)) as [->|Hne].
    + rewrite lookup_insert_eq, decide_True; [done|]. apply elem_of_cons; by left.
    + rewrite lookup_insert_ne by done. rewrite IH.
      destruct (decide (k ∈ cols)) as [Hin|Hnin].
      * rewrite decide_True; [done|]. apply elem_of_cons; by right.
      * rewrite decide_False; [done|]. rewrite elem_of_cons. by intros [?|?].
Qed.

Lemma createProgram_payload_lookup programData k :
  createProgram_payload programData !! k
  = if decide (k ∈ program_columns) then Some (insert_value programData k) else None.
Proof.
  change (createProgram_payload programData)
    with (list_to_map ((fun c => (c, insert_value programData c)) <$> program_columns)
          : Obj).
  apply list_to_map_columns.
Qed.

Lemma defined_nullish a b : defined (nullish a (VBool b)) = true.
Proof. by destruct a. Qed.

Lemma inserted_row_lookup programData newid k :
  (<["id" := VStr newid]> (json_body (createProgram_payload programData)) : Obj) !! k
  = if decide (k = "id") then Some (VStr newid)
    else if decide (k ∈ program_columns)
    then (if defined (insert_value programData k)
          then Some (insert_value programData k) else None)
    else None.
Proof.
  destruct (decide (k = "id")) as [->|Hne].
  - apply lookup_insert_eq.
  - rewrite lookup_insert_ne by done.
    change (json_body ?p) with (provided p).
    rewrite provided_lookup. unfold prop at 1 2.
    rewrite createProgram_payload_lookup.
    by destruct (decide (k ∈ program_columns)).
Qed.

Ltac is_column :=
  apply list_elem_of_In; cbn; repeat first [left; reflexivity | right].

Lemma id_not_column : "id" ∉ program_columns.
Proof. rewrite list_elem_of_In. cbn. intuition discriminate. Qed.

Lemma inserted_is_active programData newid :
  (<["id" := VStr newid]> (json_body (createProgram_payload programData)) : Obj)
    !! "is_active"
  = Some (nullish (prop programData "is_active") (VBool true)).
Proof.
  rewrite inserted_row_lookup, decide_False by done.
  rewrite decide_True by is_column.
  unfold insert_value. rewrite decide_False by done. rewrite decide_True by done.
  by rewrite defined_nullish.
Qed.

Lemma inserted_belt_rank_required programData newid :
  (<["id" := VStr newid]> (json_body (createProgram_payload programData)) : Obj)
    !! "belt_rank_required"
  = Some (nullish (prop programData "belt_rank_required") (VBool false)).
Proof.
  rewrite inserted_row_lookup, decide_False by done.
  rewrite decide_True by is_column.
  unfold insert_value. rewrite decide_True by done.
  by rewrite defined_nullish.
Qed.

(** X11.  [createProgram] issues one insert of the twenty columns and
    of nothing else the input holds.  When the environment lets it
    through, the new row is appended to [programs] and returned: it has
    the id the database gave it, [is_active] true and
    [belt_rank_required] false unless the input gives them (a [null]
    counts as not given), and every other of the twenty columns the
    input defines as the input has it.  When the insert is answered
    with an error or throws, [createProgram] throws and [programs] is
    unchanged. *)
Theorem createProgram_stores_defaults (programData : Obj) (w : World) :
  let q := ProgramsInsert (createProgram_payload programData) in
  let run := createProgram programData w in
  log run.2 = log w ++ [(q, fate (faults w (length (log w)) q))]
  /\ (forall k, k ∉ program_columns -> createProgram_payload programData !! k = None)
  /\ match faults w (length (log w)) q with
     | NoFault =>
         exists row,
           run.1 = Returned (Some row)
           /\ programs (db run.2) = programs (db w) ++ [row]
           /\ row !! "id"
              = Some (VStr (next_program_id (db w) (length (programs (db w)))))
           /\ row !! "is_active"
              = Some (nullish (prop programData "is_active") (VBool true))
           /\ row !! "belt_rank_required"
              = Some (nullish (prop programData "belt_rank_required") (VBool false))
           /\ (forall k v, k ∈ program_columns ->
                           k <> "is_active" -> k <> "belt_rank_required" ->
                           provided programData !! k = Some v ->
                           row !! k = Some v)
     | FailWith _ | ThrowWith _ =>
         (exists x, run.1 = Threw x)
         /\ programs (db run.2) = programs (db w)
     end.
Proof.
  cbv zeta. rewrite createProgram_run. cbv zeta.
  split; [by destruct (faults w _ _)|].
  split.
  { intros k Hk. rewrite createProgram_payload_lookup. by rewrite decide_False. }
  destruct (faults w _ _) as [|e|x].
  - eexists. split; [reflexivity|]. split; [reflexivity|].
    split; [by rewrite inserted_row_lookup|].
    split; [apply inserted_is_active|].
    split; [apply inserted_belt_rank_required|].
    intros k v Hk Ha Hb Hv. rewrite inserted_row_lookup, <- Hv, provided_lookup.
    rewrite decide_False by (intros ->; by apply id_not_column).
    rewrite decide_True by done.
    unfold insert_value. by rewrite !decide_False by done.
  - split; [by eexists|done].
  - split; [by eexists|done].
Qed.

Lemma getProgramById_run id w :
  let q := ProgramsSelectById id in
  getProgramById id w
  = match faults w (length (log w)) q with
    | NoFault =>
        match filter (fun r => has_id id r = true) (programs (db w)) with
        | [r] => (Returned (Some r), record q Ok w)
        | _ => (Returned None, record q (Failed not_single) w)
        end
    | FailWith e =>
        (if bool_decide (code e = "PGRST116") then Returned None
         else Threw (ThrownError ("Failed to fetch program: " +:+ Pg.message e)),
         record q (Failed e) w)
    | ThrowWith x => (Threw x, record q (Raised x) w)
    end.
Proof.
  cbv zeta. unfold getProgramById, bind, programs_select_by_id, query.
  destruct (faults w _ _) as [|e|x]; [|cbn; by destruct (bool_decide _)|done].
  by destruct (filter _ _) as [|r [|]].
Qed.

Lemma filter_none {A} (P : A -> Prop) `{!forall x, Decision (P x)} (l : list A) :
  Forall (fun x => ~ P x) l -> filter P l = [].
Proof.
  induction 1 as [|x l Hx _ IH]; [done|]. by rewrite filter_cons_False.
Qed.

(** X12.  Insert then lookup: when no request fails and the id the
    database gives the new row is not in use, [getProgramById] at the
    id of the row [createProgram] returned gives that row back. *)
Theorem created_program_can_be_fetched (programData : Obj) (w : World) :
  (forall n q, faults w n q = NoFault) ->
  Forall (fun r => has_id (next_program_id (db w) (length (programs (db w)))) r <> true)
    (programs (db w)) ->
  exists row,
    (createProgram programData w).1 = Returned (Some row)
    /\ (getProgramById (program_id row) (createProgram programData w).2).1
       = Returned (Some row).
Proof.
  intros Hquiet Hfresh. rewrite createProgram_run. cbv zeta. rewrite Hquiet.
  set (newid := next_program_id _ _) in *.
  set (row := <["id" := VStr newid]> _).
  exists row. split; [done|]. cbn [snd].
  assert (program_id row = newid) as ->.
  { unfold program_id, prop, row. by rewrite lookup_insert_eq. }
  rewrite getProgramById_run. cbv zeta.
  cbn [faults record with_db db set_programs programs log].
  rewrite Hquiet, filter_app, (filter_none _ _ Hfresh).
  rewrite filter_cons_True; [done|].
  unfold has_id, prop, row. rewrite lookup_insert_eq. cbn.
  by apply bool_decide_eq_true.
Qed.

(** X12 in the sample school. *)
Lemma created_program_can_be_fetched_witness :
  (forall n q, faults Sample.world n q = NoFault)
  /\ Forall (fun r => has_id (next_program_id (db Sample.world)
                                (length (programs (db Sample.world)))) r <> true)
       (programs (db Sample.world))
  /\ exists row,
       (createProgram Sample.new_program Sample.world).1 = Returned (Some row)
       /\ (getProgramById (program_id row)
             (createProgram Sample.new_program Sample.world).2).1
          = Returned (Some row).
Proof.
  assert (H1 : forall n q, faults Sample.world n q = NoFault) by reflexivity.
  assert (H2 : Forall (fun r => has_id (next_program_id (db Sample.world)
                                          (length (programs (db Sample.world)))) r
                                <> true)
                 (programs (db Sample.world)))
    by (repeat constructor; vm_compute; discriminate).
  split; [exact H1|]. split; [exact H2|].
  exact (created_program_can_be_fetched Sample.new_program Sample.world H1 H2).
Defined.

(** X13.  [updateProgram] at an id no program has always throws and
    writes nothing; when the request itself goes through, the error is
    the one of [.single()] finding no row. *)
Theorem updateProgram_rejects_unknown_id (id : string) (updates : Obj) (w : World) :
  Forall (fun r => has_id id r <> true) (programs (db w)) ->
  (exists x, (updateProgram id updates w).1 = Threw x)
  /\ db (updateProgram id updates w).2 = db w
  /\ (faults w (length (log w))
        (ProgramsUpdate (updateProgram_payload (clock w (ticks w)) updates) id)
      = NoFault ->
      (updateProgram id updates w).1
      = Threw (ThrownError
                 "Failed to update program: JSON object requested, multiple (or no) rows returned")).
Proof.
  intros Hnone. rewrite updateProgram_run. cbv zeta.
  rewrite (filter_none _ _ Hnone).
  destruct (faults w _ _) as [|e|x]; (split; [by eexists|]); split; done.
Qed.

(** X13 for an id no program has. *)
Lemma updateProgram_rejects_unknown_id_witness :
  Forall (fun r => has_id Sample.nobody r <> true) (programs (db Sample.world))
  /\ (exists x, (updateProgram Sample.nobody Sample.rename Sample.world).1 = Threw x)
  /\ db (updateProgram Sample.nobody Sample.rename Sample.world).2 = db Sample.world
  /\ (faults Sample.world (length (log Sample.world))
        (ProgramsUpdate
           (updateProgram_payload (clock Sample.world (ticks Sample.world))
              Sample.rename) Sample.nobody)
      = NoFault ->
      (updateProgram Sample.nobody Sample.rename Sample.world).1
      = Threw (ThrownError
                 "Failed to update program: JSON object requested, multiple (or no) rows returned")).
Proof.
  assert (H : Forall (fun r => has_id Sample.nobody r <> true)
                (programs (db Sample.world)))
    by (repeat constructor; vm_compute; discriminate).
  split; [exact H|].
  exact (updateProgram_rejects_unknown_id Sample.nobody Sample.rename
           Sample.world H).
Defined.

(** X14.  Update then lookup: when no request fails and exactly one
    program has the id, [getProgramById] after [updateProgram] gives the
    row [updateProgram] returned; that row has [updated_at] at the time
    of the call, each of the twenty columns as [updates] defines it, or
    as stored when [updates] leaves it undefined, and every other
    property as stored. *)
Theorem updated_program_can_be_fetched (id : string) (updates row : Obj) (w : World) :
  (forall n q, faults w n q = NoFault) ->
  filter (fun r => has_id id r = true) (programs (db w)) = [row] ->
  exists row',
    (updateProgram id updates w).1 = Returned (Some row')
    /\ (getProgramById id (updateProgram id updates w).2).1 = Returned (Some row')
    /\ row' !! "updated_at" = Some (VStr (clock w (ticks w)))
    /\ (forall k, k ∈ program_columns ->
                  row' !! k = match provided updates !! k with
                              | Some v => Some v
                              | None => row !! k
                              end)
    /\ (forall k, k ∉ program_columns -> k <> "updated_at" -> row' !! k = row !! k).
Proof.
  intros Hquiet Hrow. rewrite updateProgram_run. cbv zeta. rewrite Hquiet, Hrow.
  set (payload := updateProgram_payload (clock w (ticks w)) updates).
  exists (write_columns payload row). split; [done|]. split.
  - cbn [snd]. rewrite getProgramById_run. cbv zeta.
    cbn [faults record with_db db set_programs programs log ticked now snd].
    rewrite Hquiet.
    change (map ?f ?l) with (f <$> l).
    rewrite filter_fmap_stable, Hrow.
    + cbn. assert (has_id id row = true) as ->; [|done].
      assert (row ∈ filter (fun r => has_id id r = true) (programs (db w))) as Hin
        by (rewrite Hrow; by left).
      by apply list_elem_of_filter in Hin as [? _].
    + intros x. destruct (has_id id x) eqn:E; [|by rewrite E].
      unfold payload. by rewrite has_id_write_columns, E.
  - split; [|split].
    + rewrite write_columns_lookup. unfold payload.
      by rewrite provided_payload_updated_at.
    + intros k Hk. rewrite write_columns_lookup. unfold payload.
      rewrite (provided_lookup (updateProgram_payload _ _)). unfold prop at 1 2.
      rewrite updateProgram_payload_lookup.
      rewrite decide_False, decide_True; [|done|].
      * rewrite provided_lookup.
        destruct (defined (prop updates k)) eqn:E; cbn; by rewrite ?E.
      * intros ->. revert Hk. rewrite list_elem_of_In. cbn. intuition discriminate.
    + intros k Hk Hu. rewrite write_columns_lookup. unfold payload.
      rewrite provided_None; [done|].
      rewrite updateProgram_payload_lookup. by rewrite !decide_False.
Qed.

(** X14 in the sample school. *)
Lemma updated_program_can_be_fetched_witness :
  (forall n q, faults Sample.world n q = NoFault)
  /\ filter (fun r => has_id "prog-1" r = true) (programs (db Sample.world))
     = [Sample.kids]
  /\ exists row',
       (updateProgram "prog-1" Sample.rename Sample.world).1 = Returned (Some row')
       /\ (getProgramById "prog-1"
             (updateProgram "prog-1" Sample.rename Sample.world).2).1
          = Returned (Some row')
       /\ row' !! "updated_at"
          = Some (VStr (clock Sample.world (ticks Sample.world)))
       /\ (forall k, k ∈ program_columns ->
                     row' !! k = match provided Sample.rename !! k with
                                 | Some v => Some v
                                 | None => Sample.kids !! k
                                 end)
       /\ (forall k, k ∉ program_columns -> k <> "updated_at" ->
                     row' !! k = Sample.kids !! k).
Proof.
  assert (H1 : forall n q, faults Sample.world n q = NoFault) by reflexivity.
  assert (H2 : filter (fun r => has_id "prog-1" r = true) (programs (db Sample.world))
               = [Sample.kids]) by (vm_compute; reflexivity).
  split; [exact H1|]. split; [exact H2|].
  exact (updated_program_can_be_fetched "prog-1" Sample.rename Sample.kids
           Sample.world H1 H2).
Defined.

(** X15.  [getProgramById] at an id no program has returns [null]
    when the request goes through: the error of [.single()] is not
    thrown. *)
Theorem unknown_program_is_null (id : string) (w : World) :
  Forall (fun r => has_id id r <> true) (programs (db w)) ->
  faults w (length (log w)) (ProgramsSelectById id) = NoFault ->
  getProgramById id w
  = (Returned None, record (ProgramsSelectById id) (Failed not_single) w).
Proof.
  intros Hnone Hf. rewrite getProgramById_run. cbv zeta.
  by rewrite Hf, (filter_none _ _ Hnone).
Qed.

(** X15 for an id no program has. *)
Lemma unknown_program_is_null_witness :
  Forall (fun r => has_id Sample.nobody r <> true) (programs (db Sample.world))
  /\ faults Sample.world (length (log Sample.world))
       (ProgramsSelectById Sample.nobody) = NoFault
  /\ getProgramById Sample.nobody Sample.world
     = (Returned None,
        record (ProgramsSelectById Sample.nobody) (Failed not_single) Sample.world).
Proof.
  assert (H1 : Forall (fun r => has_id Sample.nobody r <> true)
                 (programs (db Sample.world)))
    by (repeat constructor; vm_compute; discriminate).
  assert (H2 : faults Sample.world (length (log Sample.world))
                 (ProgramsSelectById Sample.nobody) = NoFault) by reflexivity.
  split; [exact H1|]. split; [exact H2|].
  exact (unknown_program_is_null Sample.nobody Sample.world H1 H2).
Defined.

Lemma filter_true {A} (l : list A) : filter (fun _ => true = true) l = l.
Proof. induction l as [|a l IH]; [done|]. by rewrite filter_cons_True, IH. Qed.

(** X16.  [getPrograms] issues one read and writes nothing.  When the
    read succeeds it returns, each as often as stored, the programs
    with the [is_active] asked for, if any, whose name or description
    matches the search text, if one is given and not empty: an empty
    search text selects as none does.  This is for a search text of
    letters, digits and spaces, which the filter reads as one pattern.
    The programs come ordered by name, provided the database's order on
    names is total.  When the read fails or throws, it throws. *)
Theorem getPrograms_returns_the_selected_programs (filters : ProgramFilters)
    (w : World) :
  let q := ProgramsSelect (is_active filters) (effective_search filters) in
  let run := getPrograms filters w in
  log run.2 = log w ++ [(q, fate (faults w (length (log w)) q))]
  /\ db run.2 = db w
  /\ match faults w (length (log w)) q with
     | NoFault =>
         exists rows,
           run.1 = Returned rows
           /\ ((forall s, search filters = Some s -> plain s = true) ->
               rows ≡ₚ filter (fun r => selected (db w) filters r = true)
                         (programs (db w)))
           /\ ((forall a b, text_le (db w) a b = true \/ text_le (db w) b a = true) ->
               Sorted (by_name (db w)) rows)
     | FailWith _ | ThrowWith _ => exists x, run.1 = Threw x
     end.
Proof.
  cbv zeta. rewrite getPrograms_run. cbv zeta.
  split; [by destruct (faults w _ _)|].
  split; [by destruct (faults w _ _)|].
  destruct (faults w _ _) as [|e|x]; [|by eexists..].
  eexists. split; [reflexivity|]. split.
  - intros _. rewrite merge_sort_Permutation.
    unfold effective_search, selected.
    destruct (is_active filters) as [b|], (search filters) as [s|]; cbn.
    + case_bool_decide as Hs; cbn.
      * apply Permutation_refl'. apply list_filter_iff. intros r.
        rewrite andb_true_r. done.
      * rewrite list_filter_filter. apply Permutation_refl'. apply list_filter_iff.
        intros r. rewrite andb_true_iff. tauto.
    + apply Permutation_refl'. apply list_filter_iff. intros r. by rewrite andb_true_r.
    + case_bool_decide as Hs; cbn.
      * by rewrite filter_true.
      * done.
    + by rewrite filter_true.
  - intros Htotal. apply Sorted_merge_sort. intros a b. apply Htotal.
Qed.

(** ** Edit routes: what is written *)

Lemma student_field_errors_lookup formData k msg :
  student_field_errors formData !! k = Some msg
  <-> (k, msg) ∈ student_required /\ blank (formData !! k) = true.
Proof.
  unfold student_field_errors. rewrite collect_lookup.
  - rewrite lookup_empty. split; [by intros [?|?]|by left].
  - vm_compute. repeat constructor; rewrite ?elem_of_cons, ?elem_of_nil; intuition congruence.
  - intros. apply lookup_empty.
Qed.

Lemma student_required_nonempty k msg : (k, msg) ∈ student_required -> msg <> "".
Proof.
  unfold student_required. rewrite !elem_of_cons, elem_of_nil.
  intros H. repeat (destruct H as [H|H]; [by injection H as -> ->|]). done.
Qed.

Lemma some_student_message formData :
  some_message (student_field_errors formData) = true
  <-> Exists (fun kf : string * string => blank (formData !! kf.1) = true) student_required.
Proof.
  unfold some_message. rewrite existsb_exists, Exists_exists. split.
  - intros ([k msg] & Hin & _). apply list_elem_of_In, elem_of_map_to_list in Hin.
    apply student_field_errors_lookup in Hin as [Hin Hb]. by exists (k, msg).
  - intros ([k msg] & Hin & Hb). exists (k, msg). split.
    + apply list_elem_of_In, elem_of_map_to_list.
      by apply student_field_errors_lookup.
    + cbn. apply negb_true_iff, bool_decide_eq_false.
      by apply (student_required_nonempty k).
Qed.

Lemma student_action_run sid formData w :
  sid <> "" ->
  formData !! "intent" = Some "edit" ->
  StudentEdit.action (Some sid) formData w
  = if some_message (student_field_errors formData) then
      (Returned (Json 400 {| success := None; message := None;
                             Route.error := Some "Please correct the errors below.";
                             fieldErrors := Some (student_field_errors formData) |}), w)
    else if negb (configured (env w !! "SUPABASE_URL")
                    (env w !! "SUPABASE_SERVICE_ROLE_KEY")) then
      (Returned (Json 500 (no_body_error "Server configuration error.")), w)
    else
      let q := StudentsUpdate (student_payload formData) sid in
      match faults w (length (log w)) q with
      | NoFault =>
          (Returned (Json 200 {| success := Some true;
                                 message := Some "Student details updated successfully.";
                                 Route.error := None; fieldErrors := None |}),
           record q Ok
             (with_db
                (set_students
                   (map (fun r => if bool_decide (s_id r = sid)
                                  then write_student (student_payload formData) r
                                  else r)
                      (students (db w))) (db w)) w))
      | FailWith e =>
          (Returned (Json 500 (no_body_error
                                 "Failed to update student: An unknown error occurred.")),
           record q (Failed e) w)
      | ThrowWith x =>
          (Returned (Json 500 (no_body_error
                                 ("Failed to update student: "
                                  +:+ match x with
                                      | ThrownError m => m
                                      | _ => "An unknown error occurred."
                                      end))),
           record q (Raised x) w)
      end.
Proof.
  intros Hsid Hintent. unfold StudentEdit.action.
  assert (blank (Some sid) = false) as -> by (by apply bool_decide_eq_false).
  rewrite Hintent. rewrite bool_decide_eq_true_2 by done. cbn [negb default from_option Datatypes.id].
  cbv zeta. cbn [su_first_name su_last_name su_gender su_birth_date su_t_shirt_size su_school].
  change (require (formData !! "school") _ _ _) with (student_field_errors formData).
  fold (some_message (student_field_errors formData)).
  destruct (some_message _); [done|].
  unfold bind at 1. unfold process_env at 1. unfold bind at 1. unfold process_env at 1.
  destruct (negb (configured _ _)); [done|].
  fold (student_payload formData).
  unfold try_catch, bind, students_update, query.
  by destruct (faults w _ _).
Qed.

(** X17.  With a student id and the intent "edit", a submission that
    leaves first name, last name, gender, birth date, T-shirt size or
    school absent or empty is answered with status 400, the error
    "Please correct the errors below." and [fieldErrors] holding exactly
    the messages of the missing fields; no request is issued and
    nothing is written: the world is as before. *)
Theorem student_edit_requires_fields (studentId : string) (formData : FormData)
    (w : World) :
  studentId <> "" ->
  formData !! "intent" = Some "edit" ->
  Exists (fun kf : string * string => blank (formData !! kf.1) = true) student_required ->
  exists errors,
    StudentEdit.action (Some studentId) formData w
    = (Returned (Json 400 {| success := None; message := None;
                             Route.error := Some "Please correct the errors below.";
                             fieldErrors := Some errors |}), w)
    /\ forall k msg,
         errors !! k = Some msg
         <-> (k, msg) ∈ student_required /\ blank (formData !! k) = true.
Proof.
  intros Hsid Hintent Hmissing. exists (student_field_errors formData).
  split; [|apply student_field_errors_lookup].
  rewrite student_action_run by done.
  by rewrite (proj2 (some_student_message formData) Hmissing).
Qed.

(** X17 at a submission without a school. *)
Lemma student_edit_requires_fields_witness :
  "stu-1" <> ""
  /\ (<["school" := ""]> Sample.student_form : FormData) !! "intent" = Some "edit"
  /\ Exists (fun kf : string * string =>
               blank ((<["school" := ""]> Sample.student_form : FormData) !! kf.1)
               = true) student_required
  /\ exists errors,
       StudentEdit.action (Some "stu-1") (<["school" := ""]> Sample.student_form)
         Sample.world
       = (Returned (Json 400 {| success := None; message := None;
                                Route.error := Some "Please correct the errors below.";
                                fieldErrors := Some errors |}), Sample.world)
       /\ forall k msg,
            errors !! k = Some msg
            <-> (k, msg) ∈ student_required
                /\ blank ((<["school" := ""]> Sample.student_form : FormData) !! k)
                   = true.
Proof.
  assert (H1 : "stu-1" <> "") by discriminate.
  assert (H2 : (<["school" := ""]> Sample.student_form : FormData) !! "intent"
               = Some "edit") by (vm_compute; reflexivity).
  assert (H3 : Exists (fun kf : string * string =>
                         blank ((<["school" := ""]> Sample.student_form : FormData)
                                  !! kf.1) = true) student_required)
    by (do 5 apply Exists_cons_tl; apply Exists_cons_hd; vm_compute; reflexivity).
  split; [exact H1|]. split; [exact H2|]. split; [exact H3|].
  exact (student_edit_requires_fields "stu-1" (<["school" := ""]> Sample.student_form)
           Sample.world H1 H2 H3).
Defined.

(** X18.  The student-edit action never throws: whatever the route
    parameter, the form and the fate of its update, it answers with a
    json body of status 200, 400 or 500.  Status 200 comes with
    [success: true], no error, and a students update that went through
    as the last request; any other status comes with an error message,
    without [success], and the database as it was. *)
Theorem student_edit_always_answers (studentId : option string) (formData : FormData)
    (w : World) :
  let run := StudentEdit.action studentId formData w in
  exists status body,
    run.1 = Returned (Json status body)
    /\ (status = 200 \/ status = 400 \/ status = 500)
    /\ (status = 200 ->
        success body = Some true /\ Route.error body = None
        /\ exists payload id, last (log run.2) = Some (StudentsUpdate payload id, Ok))
    /\ (status <> 200 ->
        success body = None /\ (exists msg, Route.error body = Some msg)
        /\ db run.2 = db w).
Proof.
  cbv zeta. destruct studentId as [sid|].
  2:{ eexists 400, _. split; [reflexivity|]. split; [tauto|]. split; [done|].
      intros _. cbn. eauto. }
  destruct (decide (sid = "")) as [->|Hsid].
  { eexists 400, _. split; [reflexivity|]. split; [tauto|]. split; [done|].
    intros _. cbn. eauto. }
  destruct (decide (formData !! "intent" = Some "edit")) as [Hintent|Hintent].
  2:{ unfold StudentEdit.action.
      assert (blank (Some sid) = false) as -> by (by apply bool_decide_eq_false).
      rewrite (bool_decide_eq_false_2 _ Hintent). cbn [negb].
      eexists 400, _. split; [reflexivity|]. split; [tauto|]. split; [done|].
      intros _. cbn. eauto. }
  rewrite student_action_run by done.
  destruct (some_message _).
  { eexists 400, _. split; [reflexivity|]. split; [tauto|]. split; [done|].
    intros _. cbn. eauto. }
  destruct (negb (configured _ _)).
  { eexists 500, _. split; [reflexivity|]. split; [tauto|]. split; [done|].
    intros _. cbn. eauto. }
  cbv zeta. destruct (faults w _ _) as [|e|x].
  - eexists 200, _. split; [reflexivity|]. split; [tauto|]. split; [|done].
    intros _. split; [done|]. split; [done|]. eexists _, _. cbn. apply last_snoc.
  - eexists 500, _. split; [reflexivity|]. split; [tauto|]. split; [done|].
    intros _. cbn. eauto.
  - eexists 500, _. split; [reflexivity|]. split; [tauto|]. split; [done|].
    intros _. cbn. eauto.
Qed.

(** X19.  When the student-edit action updates (id and intent given,
    required fields filled, server configured, update going through),
    the student with the id has the submitted required fields as
    given, the optional text fields as given or [null] when empty or
    absent, and [immunizations_up_to_date] "true" exactly when the
    checkbox was "on"; its id and family, and every other student, are
    unchanged. *)
Theorem student_edit_writes_the_form (studentId : string) (formData : FormData)
    (w : World) :
  studentId <> "" ->
  formData !! "intent" = Some "edit" ->
  Forall (fun kf : string * string => blank (formData !! kf.1) = false)
    student_required ->
  configured (env w !! "SUPABASE_URL") (env w !! "SUPABASE_SERVICE_ROLE_KEY") = true ->
  faults w (length (log w)) (StudentsUpdate (student_payload formData) studentId)
  = NoFault ->
  Forall2 (student_written studentId formData)
    (students (db w))
    (students (db (StudentEdit.action (Some studentId) formData w).2)).
Proof.
  intros Hsid Hintent Hform Henv Hfault.
  rewrite student_action_run by done.
  assert (some_message (student_field_errors formData) = false) as ->.
  { apply not_true_is_false. rewrite some_student_message, Exists_exists.
    intros (kf & Hin & Hb). rewrite Forall_forall in Hform.
    specialize (Hform _ Hin). congruence. }
  rewrite Henv. cbn [negb]. cbv zeta. rewrite Hfault.
  cbn [snd db record with_db set_students students].
  change (map ?f ?l) with (f <$> l).
  apply Forall2_fmap_r, Forall_Forall2_diag, Forall_forall. intros r _.
  unfold compose, student_written. cbv beta.
  destruct (bool_decide (s_id r = studentId)) eqn:Hr.
  - apply bool_decide_eq_true in Hr.
    split; [done|]. split; [done|]. split; [done|]. intros _. cbn.
    repeat split; try done; by case_bool_decide.
  - apply bool_decide_eq_false in Hr. by repeat split.
Qed.

(** X19 in the sample school. *)
Lemma student_edit_writes_the_form_witness :
  "stu-1" <> ""
  /\ Sample.student_form !! "intent" = Some "edit"
  /\ Forall (fun kf : string * string => blank (Sample.student_form !! kf.1) = false)
       student_required
  /\ configured (env Sample.world !! "SUPABASE_URL")
       (env Sample.world !! "SUPABASE_SERVICE_ROLE_KEY") = true
  /\ faults Sample.world (length (log Sample.world))
       (StudentsUpdate (student_payload Sample.student_form) "stu-1") = NoFault
  /\ Forall2 (student_written "stu-1" Sample.student_form)
       (students (db Sample.world))
       (students (db (StudentEdit.action (Some "stu-1") Sample.student_form
                        Sample.world).2)).
Proof.
  assert (H1 : "stu-1" <> "") by discriminate.
  assert (H2 : Sample.student_form !! "intent" = Some "edit")
    by (vm_compute; reflexivity).
  assert (H3 : Forall (fun kf : string * string =>
                         blank (Sample.student_form !! kf.1) = false) student_required)
    by (repeat constructor; vm_compute; reflexivity).
  assert (H4 : configured (env Sample.world !! "SUPABASE_URL")
                 (env Sample.world !! "SUPABASE_SERVICE_ROLE_KEY") = true)
    by (vm_compute; reflexivity).
  assert (H5 : faults Sample.world (length (log Sample.world))
                 (StudentsUpdate (student_payload Sample.student_form) "stu-1")
               = NoFault) by reflexivity.
  split; [exact H1|]. split; [exact H2|]. split; [exact H3|].
  split; [exact H4|]. split; [exact H5|].
  exact (student_edit_writes_the_form "stu-1" Sample.student_form Sample.world
           H1 H2 H3 H4 H5).
Defined.

(** X20.  When the family-edit action updates (id given, required
    fields filled, server configured, update going through), the family
    with the id has every one of the twelve submitted fields as the
    form gives it, an absent field as [null], and [updated_at] at the
    time of the call; its id, and every other family, are unchanged. *)
Theorem family_edit_writes_the_form (familyId : string) (formData : FormData)
    (w : World) :
  familyId <> "" ->
  Forall (fun kf : string * string => blank (formData !! kf.1) = false)
    family_required ->
  configured (env w !! "SUPABASE_URL") (env w !! "SUPABASE_SERVICE_ROLE_KEY") = true ->
  faults w (length (log w))
    (FamiliesUpdate (family_payload formData (clock w (ticks w))) familyId) = NoFault ->
  Forall2 (family_written familyId formData (clock w (ticks w)))
    (families (db w))
    (families (db (FamilyEdit.action (Some familyId) formData w).2)).
Proof.
  intros Hfid Hform Henv Hfault.
  rewrite family_action_updates by done.
  cbn [snd db record with_db set_families families].
  change (map ?f ?l) with (f <$> l).
  apply Forall2_fmap_r, Forall_Forall2_diag, Forall_forall. intros r _.
  unfold compose, family_written. cbv beta.
  destruct (bool_decide (f_id r = familyId)) eqn:Hr.
  - apply bool_decide_eq_true in Hr. by repeat split.
  - apply bool_decide_eq_false in Hr. by repeat split.
Qed.

(** X20 in the sample school. *)
Lemma family_edit_writes_the_form_witness :
  "fam-1" <> ""
  /\ Forall (fun kf : string * string => blank (Sample.family_form !! kf.1) = false)
       family_required
  /\ configured (env Sample.world !! "SUPABASE_URL")
       (env Sample.world !! "SUPABASE_SERVICE_ROLE_KEY") = true
  /\ faults Sample.world (length (log Sample.world))
       (FamiliesUpdate (family_payload Sample.family_form
                          (clock Sample.world (ticks Sample.world))) "fam-1")
     = NoFault
  /\ Forall2 (family_written "fam-1" Sample.family_form
                (clock Sample.world (ticks Sample.world)))
       (families (db Sample.world))
       (families (db (FamilyEdit.action (Some "fam-1") Sample.family_form
                        Sample.world).2)).
Proof.
  assert (H1 : "fam-1" <> "") by discriminate.
  assert (H2 : Forall (fun kf : string * string =>
                         blank (Sample.family_form !! kf.1) = false) family_required)
    by (repeat constructor; vm_compute; reflexivity).
  assert (H3 : configured (env Sample.world !! "SUPABASE_URL")
                 (env Sample.world !! "SUPABASE_SERVICE_ROLE_KEY") = true)
    by (vm_compute; reflexivity).
  assert (H4 : faults Sample.world (length (log Sample.world))
                 (FamiliesUpdate (family_payload Sample.family_form
                                    (clock Sample.world (ticks Sample.world))) "fam-1")
               = NoFault) by reflexivity.
  split; [exact H1|]. split; [exact H2|]. split; [exact H3|]. split; [exact H4|].
  exact (family_edit_writes_the_form "fam-1" Sample.family_form Sample.world
           H1 H2 H3 H4).
Defined.

(** X21.  With a family id, the family-edit action ends in one of
    three ways.  It redirects to [/admin/families/<id>], and then its
    last request was a families update at that id that went through.
    Or it answers with a json body of status 400 or 500 carrying an
    error, and the database is as before.  Or it throws what the update
    call threw, and the database is as before. *)
Theorem family_edit_writes_only_when_it_redirects (familyId : string)
    (formData : FormData) (w : World) :
  familyId <> "" ->
  let run := FamilyEdit.action (Some familyId) formData w in
  match run.1 with
  | Returned (Redirect location) =>
      location = "/admin/families/" +:+ familyId
      /\ exists payload, last (log run.2) = Some (FamiliesUpdate payload familyId, Ok)
  | Returned (Json status body) =>
      (status = 400 \/ status = 500)
      /\ (exists msg, Route.error body = Some msg)
      /\ db run.2 = db w
  | Threw x =>
      db run.2 = db w
      /\ exists payload, last (log run.2) = Some (FamiliesUpdate payload familyId, Raised x)
  end.
Proof.
  intros Hfid. cbv zeta.
  rewrite family_action_validates by (by apply bool_decide_eq_false).
  destruct (bool_decide (0 < size _)); [cbn; eauto|].
  destruct (negb (configured _ _)); [cbn; eauto|].
  cbv zeta. destruct (faults w _ _) as [|e|x]; cbn.
  - split; [done|]. eexists. apply last_snoc.
  - eauto.
  - split; [done|]. eexists. apply last_snoc.
Qed.


(** X21 in the sample school. *)
Lemma family_edit_writes_only_when_it_redirects_witness :
  "fam-1" <> ""
  /\ (let run := FamilyEdit.action (Some "fam-1") Sample.family_form Sample.world in
      match run.1 with
      | Returned (Redirect location) =>
          location = "/admin/families/" +:+ "fam-1"
          /\ exists payload,
               last (log run.2) = Some (FamiliesUpdate payload "fam-1", Ok)
      | Returned (Json status body) =>
          (status = 400 \/ status = 500)
          /\ (exists msg, Route.error body = Some msg)
          /\ db run.2 = db Sample.world
      | Threw x =>
          db run.2 = db Sample.world
          /\ exists payload,
               last (log run.2) = Some (FamiliesUpdate payload "fam-1", Raised x)
      end).
Proof.
  assert (H : "fam-1" <> "") by discriminate.
  split; [exact H|].
  exact (family_edit_writes_only_when_it_redirects "fam-1" Sample.family_form
           Sample.world H).
Defined.

(** ** Concrete runs *)

Example eligibility_of_the_tanakas :
  (getFamilyPaymentEligibilityData "fam-1" Sample.world).1
  = Returned
      {| familyId := "fam-1"; familyName := Some (Some "Tanaka");
         studentPaymentDetails :=
           [ {| studentId := "stu-1"; firstName := Some "Aiko";
                lastName := Some "Tanaka";
                eligibility := {| Payment.eligible := true; reason := "Trial" |};
                needsPayment := true; nextPaymentAmount := 49;
                nextPaymentTierLabel := "Monthly"; pastPaymentCount := 2;
                individualSessions :=
                  {| totalPurchased := 8; totalRemaining := 5;
                     purchases :=
                       [ {| id := "ses-3"; purchaseDate := "2024-03-01";
                            quantityPurchased := 3; quantityRemaining := 3 |};
                         {| id := "ses-1"; purchaseDate := "2024-02-01";
                            quantityPurchased := 5; quantityRemaining := 2 |} ] |} |};
             {| studentId := "stu-2"; firstName := Some "Ken";
                lastName := Some "Tanaka";
                eligibility := {| Payment.eligible := true; reason := "Paid - Monthly" |};
                needsPayment := false; nextPaymentAmount := 49;
                nextPaymentTierLabel := "Monthly"; pastPaymentCount := 1;
                individualSessions :=
                  {| totalPurchased := 8; totalRemaining := 5;
                     purchases :=
                       [ {| id := "ses-3"; purchaseDate := "2024-03-01";
                            quantityPurchased := 3; quantityRemaining := 3 |};
                         {| id := "ses-1"; purchaseDate := "2024-02-01";
                            quantityPurchased := 5; quantityRemaining := 2 |} ] |} |} ];
         hasAvailableDiscounts := false;
         PaymentEligibility.error := None |}.
Proof. vm_compute. reflexivity. Qed.

Example students_read_fails :
  let run := getFamilyPaymentEligibilityData "fam-1"
               (Sample.faulty Sample.is_students_read (FailWith Sample.down)) in
  run.1 = Returned (failure "fam-1" (Some (Some "Tanaka"))
                      "Could not load student information.")
  /\ log run.2 = [ (FamiliesSelectName "fam-1", Ok);
                   (StudentsSelect "fam-1", Failed Sample.down) ].
Proof. vm_compute. done. Qed.

Example links_read_throws :
  let run := getFamilyPaymentEligibilityData "fam-1"
               (Sample.faulty Sample.is_links_read
                  (ThrowWith (ThrownError "socket hang up"))) in
  run.1 = Returned (failure "fam-1" None
                      "An unexpected error occurred while loading payment information.")
  /\ log run.2 = [ (FamiliesSelectName "fam-1", Ok);
                   (StudentsSelect "fam-1", Ok);
                   (PaymentsSelect "fam-1" "succeeded", Ok);
                   (PaymentStudentsSelect ["pay-1"; "pay-4"],
                    Raised (ThrownError "socket hang up")) ].
Proof. vm_compute. done. Qed.

Example unknown_family :
  (getFamilyPaymentEligibilityData "fam-9" Sample.world).1
  = Returned (failure "fam-9" None "Could not load family details.").
Proof. vm_compute. reflexivity. Qed.

Example sessions_fetch_throws :
  (getFamilyIndividualSessions "fam-1"
     (Sample.faulty Sample.is_sessions_read (ThrowWith (ThrownError "timeout")))).1
  = Returned no_sessions.
Proof. vm_compute. reflexivity. Qed.
